(** * Grade normalisation, sheet ingestion and analysis of the tutor-virtual
      student performance application

    The development embeds the computational core of
    [StudentPerformanceApp] (functions [convertGradeToNumeric],
    [isQualitativeGrade], [processXLSXSheetData], [performAnalysis]), the
    local normaliser of [QuantitativeAnalysisSection] and the pending-activity
    pass of [StudentPendingActivities].

    Modelling conventions.
    - Text is [string] (a sequence of bytes). [toUpperCase] and [trim] act on
      the ASCII range; other bytes are left untouched.
    - A JavaScript number is an exact rational ([Qc]); [null] and [NaN] are
      [None]. Rounding of IEEE doubles, overflow to an infinity and the
      exponent notation that [toFixed] switches to from 10^21 on are outside
      the model.
    - An object used as a dictionary is a [gmap] keyed by [string]; keys that
      collide with inherited properties of [Object.prototype] are outside the
      model.
    - Loops that mutate local variables become folds over an explicit state. *)

From Stdlib Require Import Ascii String QArith Qabs Qround Qcanon DecimalString Lqa.
From Stdlib Require Import DecimalPos DecimalN Sorted Permutation.
From stdpp Require Import gmap strings list fin_maps.

Local Open Scope string_scope.

(** ** Built-in string operations *)

Module Js.

(** White space and line terminators removed by [trim] and skipped by
    [parseFloat] (ASCII range: TAB, LF, VT, FF, CR, SP). *)
Definition isWhiteSpace (c : ascii) : bool :=
  let n := N_of_ascii c in
  ((9 <=? n) && (n <=? 13))%N || (n =? 32)%N.

Definition isDigit (c : ascii) : bool :=
  let n := N_of_ascii c in ((48 <=? n) && (n <=? 57))%N.

Definition digitValue (c : ascii) : N := (N_of_ascii c - 48)%N.

Definition upperChar (c : ascii) : ascii :=
  let n := N_of_ascii c in
  if ((97 <=? n) && (n <=? 122))%N then ascii_of_N (n - 32) else c.

(** [String.prototype.toUpperCase] *)
Fixpoint toUpperCase (s : string) : string :=
  match s with
  | EmptyString => EmptyString
  | String c r => String (upperChar c) (toUpperCase r)
  end.

Fixpoint trimStart (s : string) : string :=
  match s with
  | EmptyString => EmptyString
  | String c r => if isWhiteSpace c then trimStart r else s
  end.

Fixpoint trimEnd (s : string) : string :=
  match s with
  | EmptyString => EmptyString
  | String c r =>
      match trimEnd r with
      | EmptyString => if isWhiteSpace c then EmptyString else String c EmptyString
      | r' => String c r'
      end
  end.

(** [String.prototype.trim] *)
Definition trim (s : string) : string := trimEnd (trimStart s).

(** *** [parseFloat]

    The longest prefix of the trimmed text that is a [StrDecimalLiteral] is
    read: an optional sign, then digits with an optional fraction, or a
    fraction alone, then an optional exponent part. The literal [Infinity]
    is mixed case, so it never occurs in upper-cased text, which is all
    the functions below hand to [parseFloat]; it is not recognised here. *)

(** Splits off the leading decimal digits. *)
Fixpoint spanDigits (s : string) : string * string :=
  match s with
  | EmptyString => (EmptyString, EmptyString)
  | String c r =>
      if isDigit c then let '(d, t) := spanDigits r in (String c d, t)
      else (EmptyString, s)
  end.

(** Value of a digit string continuing the number [acc]. *)
Fixpoint digitsValue (acc : N) (s : string) : N :=
  match s with
  | EmptyString => acc
  | String c r => digitsValue (10 * acc + digitValue c) r
  end.

Definition readSign (s : string) : bool * string :=
  match s with
  | String "+" r => (false, r)
  | String "-" r => (true, r)
  | _ => (false, s)
  end.

(** [ExponentPart]: [e] or [E], an optional sign and at least one digit;
    absent or incomplete, it contributes exponent 0. *)
Definition readExponent (s : string) : Z :=
  match s with
  | String c r =>
      if (Ascii.eqb c "e" || Ascii.eqb c "E")%bool then
        let '(neg, r1) := readSign r in
        let '(ds, _) := spanDigits r1 in
        match ds with
        | EmptyString => 0%Z
        | _ => let e := Z.of_N (digitsValue 0 ds) in if neg then (- e)%Z else e
        end
      else 0%Z
  | EmptyString => 0%Z
  end.

(** The digits after a decimal point, if there is one. *)
Definition readFraction (s : string) : string * string :=
  match s with
  | String "." r => spanDigits r
  | _ => (EmptyString, s)
  end.

Definition parseFloat (s : string) : option Qc :=
  let '(neg, s1) := readSign (trimStart s) in
  let '(ip, s2) := spanDigits s1 in
  let '(fp, s3) := readFraction s2 in
  match ip, fp with
  | EmptyString, EmptyString => None
  | _, _ =>
      let m := Z.of_N (digitsValue (digitsValue 0 ip) fp) in
      let e := (readExponent s3 - Z.of_nat (String.length fp))%Z in
      let q := (inject_Z (if neg then - m else m) * Qpower 10 e)%Q in
      Some (Q2Qc q)
  end.

End Js.

(** ** Numbers *)

Definition num (z : Z) : Qc := Q2Qc (inject_Z z).
Definition ratio (a : Z) (b : positive) : Qc := Q2Qc (a # b).

Definition gtb (a b : Qc) : bool := bool_decide (b < a)%Qc.
Definition ltb (a b : Qc) : bool := bool_decide (a < b)%Qc.

(** ** Grade normalisation (StudentPerformanceApp) *)

(** [convertGradeToNumeric]: qualitative codes map to 9, 6 and 3; any other
    text is parsed as a number, and a number above 10 is taken as a
    percentage. [None] is the [null] result. *)
Definition convertGradeToNumeric (grade : string) : option Qc :=
  let grade := Js.toUpperCase grade in
  if String.eqb grade "L" then Some (num 9)
  else if String.eqb grade "ML" then Some (num 6)
  else if String.eqb grade "NL" then Some (num 3)
  else
    match Js.parseFloat grade with
    | Some numGrade =>
        Some (if gtb numGrade (num 10) then (numGrade / num 100) * num 10
              else numGrade)%Qc
    | None => None
    end.

(** [isQualitativeGrade] *)
Definition isQualitativeGrade (grade : string) : bool :=
  let upperGrade := Js.toUpperCase grade in
  existsb (String.eqb upperGrade) ["L"; "ML"; "NL"].

(** ** Number formatting *)

Module Fmt.

Definition digitChar (d : N) : ascii := ascii_of_N (48 + d).

Definition decimalOfN (n : N) : string := NilZero.string_of_uint (N.to_uint n).

(** [Number.prototype.toFixed(2)]: the integer [n] nearest to [100 * x]
    (the larger one on a tie) is printed with a point before its last two
    digits; a negative [x] is printed as ["-"] followed by the text for
    [- x]. *)
Definition toFixed2 (x : Qc) : string :=
  let neg := bool_decide (x < 0)%Qc in
  let a := Qabs (this x) in
  let n := Z.to_N (Qfloor (a * 100 + (1 # 2))%Q) in
  ((if neg then "-" else "") ++ decimalOfN (n / 100) ++ "."
   ++ String (digitChar ((n / 10) mod 10)) (String (digitChar (n mod 10)) ""))%string.

End Fmt.

(** ** Data model *)

Record StudentGradeEntry := { topic : string; grade : string }.

Record StudentSheetData :=
  { studentName : string; grades : gmap string StudentGradeEntry }.

Record ChartDataPoint := { cdDate : string; cdGrade : option Qc }.

Record StudentAverageDetail :=
  { currentAverage : string; missingActivities : nat }.

Record StudentAtRisk :=
  { name : string; projectedAverage : string; missing : nat;
    details : list string }.

(** ** Sheet ingestion: [processXLSXSheetData] *)

(** [row[j] ? String(row[j]).trim() : ''], with [row[j]] undefined past the
    end of the row. *)
Definition cellText (row : list string) (j : nat) : string :=
  match row !! j with
  | Some c => if String.eqb c "" then "" else Js.trim c
  | None => ""
  end.

Definition isValidGrade (grade : string) : bool :=
  match convertGradeToNumeric grade with Some _ => true | None => false end
  || isQualitativeGrade grade.

Section Ingestion.

Variable jsonSheet : list (list string).

Definition headers : list string := nth 0 jsonSheet [].
Definition topics : list string := nth 1 jsonSheet [].
Definition studentRows : list (list string) := drop 2 jsonSheet.

(** [headers.slice(1).map(d => String(d || '').trim())] *)
Definition dates : list string := map Js.trim (drop 1 headers).

Definition dateOfColumn (j : nat) : string := nth (j - 1) dates "".

(** Column indices [1 .. headers.length - 1] of both passes. *)
Definition columns : list nat := seq 1 (length headers - 1).

(** Inner loop of the first pass: stops at the first row with a valid
    grade in column [j]. *)
Definition hasValidGrade (j : nat) : bool :=
  existsb (fun row => isValidGrade (cellText row j)) studentRows.

(** First pass: [validActivityColumns[date] = hasValidGrade] for each
    column in turn. *)
Definition validActivityColumns : gmap string bool :=
  fold_left (fun valid j => <[dateOfColumn j := hasValidGrade j]> valid)
            columns ∅.

(** Second pass, inner loop: the grades object of one row. *)
Definition studentGrades (row : list string) : gmap string StudentGradeEntry :=
  fold_left
    (fun sg j =>
       let date := dateOfColumn j in
       match validActivityColumns !! date with
       | Some true =>
           <[date := {| topic := cellText topics j; grade := cellText row j |}]> sg
       | _ => sg
       end)
    columns ∅.

(** Second pass: one record per row that passes
    [row[0] && String(row[0]).trim() !== ''], in row order. *)
Definition studentRecords : list StudentSheetData :=
  flat_map
    (fun row =>
       if String.eqb (cellText row 0) "" then []
       else [{| studentName := cellText row 0; grades := studentGrades row |}])
    studentRows.

(** [None] stands for the thrown error of a sheet with fewer than 3 rows. *)
Definition processXLSXSheetData : option (list StudentSheetData * list string) :=
  if (length jsonSheet <? 3)%nat then None
  else Some (studentRecords, dates).

End Ingestion.

(** ** Analysis: [performAnalysis] *)

(** [Array.prototype.indexOf]: position of the first occurrence; [None]
    stands for [-1]. *)
Fixpoint indexOf (l : list string) (x : string) : option nat :=
  match l with
  | [] => None
  | y :: r => if String.eqb y x then Some 0 else S <$> indexOf r x
  end.

(** [l.slice(a, b)] for [a <= length l]. *)
Definition slice (l : list string) (a b : nat) : list string :=
  take (b - a) (drop a l).

(** [student.grades[date]] taken as a condition: an entry is an object,
    hence truthy. *)
Definition hasEntry (student : StudentSheetData) (date : string) : bool :=
  match grades student !! date with Some _ => true | None => false end.

(** The date-range part of [performAnalysis]: both indices are looked up,
    an invalid range gives [None] (the error branch), a valid one the
    dates of the inclusive slice for which some student has an entry. *)
Definition selectRange (sheetData : list StudentSheetData)
    (allDates : list string) (startDate endDate : string) : option (list string) :=
  match indexOf allDates startDate, indexOf allDates endDate with
  | Some startIdx, Some endIdx =>
      if (endIdx <? startIdx)%nat then None
      else Some (List.filter
                   (fun date => existsb (fun student => hasEntry student date) sheetData)
                   (slice allDates startIdx (endIdx + 1)))
  | _, _ => None
  end.

(** State of the loop over the dates for one student; [cats] is the shared
    [gradeCategoryCounts] (L, ML, NL). *)
Record DateLoop :=
  { totalGradesForProjection : Qc;
    missingActivitiesCount : nat;
    studentActivitiesCount : nat;
    currentStudentChartData : list ChartDataPoint;
    cats : nat * nat * nat }.

Definition countCategory (originalGrade : string) (c : nat * nat * nat)
  : nat * nat * nat :=
  let '(l, ml, nl) := c in
  if isQualitativeGrade originalGrade then
    if String.eqb originalGrade "L" then (S l, ml, nl)
    else if String.eqb originalGrade "ML" then (l, S ml, nl)
    else if String.eqb originalGrade "NL" then (l, ml, S nl)
    else c
  else c.

(** [parseFloat(numericGrade.toFixed(2))] *)
Definition chartGrade (numericGrade : option Qc) : option Qc :=
  match numericGrade with
  | Some g => Js.parseFloat (Fmt.toFixed2 g)
  | None => None
  end.

(** Body of [relevantDatesInSelectedRange.forEach(date => ...)]. *)
Definition dateStep (student : StudentSheetData) (st : DateLoop) (date : string)
  : DateLoop :=
  match grades student !! date with
  | Some activity =>
      let numericGrade := convertGradeToNumeric (grade activity) in
      let originalGrade := Js.toUpperCase (Js.trim (grade activity)) in
      let point := {| cdDate := date; cdGrade := chartGrade numericGrade |} in
      match numericGrade with
      | Some g =>
          {| totalGradesForProjection := (totalGradesForProjection st + g)%Qc;
             missingActivitiesCount := missingActivitiesCount st;
             studentActivitiesCount := S (studentActivitiesCount st);
             currentStudentChartData := currentStudentChartData st ++ [point];
             cats := countCategory originalGrade (cats st) |}
      | None =>
          {| totalGradesForProjection := (totalGradesForProjection st + num 3)%Qc;
             missingActivitiesCount := S (missingActivitiesCount st);
             studentActivitiesCount := S (studentActivitiesCount st);
             currentStudentChartData := currentStudentChartData st ++ [point];
             cats := cats st |}
      end
  | None => st
  end.

Definition dateLoop (relevant : list string) (student : StudentSheetData)
    (c : nat * nat * nat) : DateLoop :=
  fold_left (dateStep student) relevant
    {| totalGradesForProjection := num 0; missingActivitiesCount := 0;
       studentActivitiesCount := 0; currentStudentChartData := []; cats := c |}.

(** [currentAverageIncludingPending] *)
Definition averageOf (d : DateLoop) : Qc :=
  if (0 <? studentActivitiesCount d)%nat
  then (totalGradesForProjection d / num (Z.of_nat (studentActivitiesCount d)))%Qc
  else num 0.

(** The [details] of an at-risk entry: the selected dates whose entry
    normalises to [null], each shown as ["topic (date)"]. *)
Definition isPendingDate (student : StudentSheetData) (date : string) : bool :=
  match grades student !! date with
  | Some activity =>
      match convertGradeToNumeric (grade activity) with
      | None => true
      | Some _ => false
      end
  | None => false
  end.

Definition detailText (student : StudentSheetData) (date : string) : string :=
  match grades student !! date with
  | Some activity => topic activity ++ " (" ++ date ++ ")"
  | None => ""
  end.

Definition pendingDetails (relevant : list string) (student : StudentSheetData)
  : list string :=
  map (detailText student) (List.filter (isPendingDate student) relevant).

(** State of the loop over the students. *)
Record Engine :=
  { studentAverages : gmap string StudentAverageDetail;
    studentsAtRisk : list StudentAtRisk;
    gradeCategoryCounts : nat * nat * nat;
    bestStudentPerformanceData : list ChartDataPoint;
    bestStudentName : string;
    highestAverage : Qc }.

(** Body of [sheetData.forEach(student => ...)]. *)
Definition studentStep (relevant : list string) (st : Engine)
    (student : StudentSheetData) : Engine :=
  let d := dateLoop relevant student (gradeCategoryCounts st) in
  let avg := averageOf d in
  let better := gtb avg (highestAverage st) in
  let risk := ltb avg (num 5) && (0 <? studentActivitiesCount d)%nat in
  {| studentAverages :=
       <[studentName student :=
           {| currentAverage := Fmt.toFixed2 avg;
              missingActivities := missingActivitiesCount d |}]>
         (studentAverages st);
     studentsAtRisk :=
       if risk then
         studentsAtRisk st ++
           [{| name := studentName student;
               projectedAverage := Fmt.toFixed2 avg;
               missing := missingActivitiesCount d;
               details := pendingDetails relevant student |}]
       else studentsAtRisk st;
     gradeCategoryCounts := cats d;
     bestStudentPerformanceData :=
       if better then currentStudentChartData d
       else bestStudentPerformanceData st;
     bestStudentName :=
       if better then studentName student else bestStudentName st;
     highestAverage := if better then avg else highestAverage st |}.

Definition initialEngine : Engine :=
  {| studentAverages := ∅; studentsAtRisk := [];
     gradeCategoryCounts := (0, 0, 0);
     bestStudentPerformanceData := []; bestStudentName := "";
     highestAverage := num (-1) |}.

Definition analyse (relevant : list string) (sheetData : list StudentSheetData)
  : Engine :=
  fold_left (studentStep relevant) sheetData initialEngine.

Inductive AnalysisError := MissingSelection | InvalidRange.

(** [performAnalysis]: either an error message is set and the results are
    cleared, or the results of the pass are stored. The per-topic rankings,
    the group series and the [lowGradeTopics] field are not part of this
    model. *)
Definition performAnalysis (sheetData : list StudentSheetData)
    (allDates : list string) (startDate endDate : string)
  : AnalysisError + Engine :=
  if (length sheetData =? 0)%nat || String.eqb startDate ""
     || String.eqb endDate ""
  then inl MissingSelection
  else
    match selectRange sheetData allDates startDate endDate with
    | None => inl InvalidRange
    | Some relevant => inr (analyse relevant sheetData)
    end.

(** ** The normaliser of QuantitativeAnalysisSection *)

Module QuantitativeAnalysisSection.

(** Local [convertGradeToNumeric] of the component: numbers above 9 are
    taken as a percentage of 9. *)
Definition convertGradeToNumeric (grade : string) : option Qc :=
  let grade := Js.toUpperCase grade in
  if String.eqb grade "L" then Some (num 9)
  else if String.eqb grade "ML" then Some (num 6)
  else if String.eqb grade "NL" then Some (num 3)
  else
    match Js.parseFloat grade with
    | Some numGrade =>
        Some (if gtb numGrade (num 9) then (numGrade / num 100) * num 9
              else numGrade)%Qc
    | None => None
    end.

End QuantitativeAnalysisSection.

(** ** The pending-activity pass of StudentPendingActivities *)

Module StudentPendingActivities.

(** Local copy of the normaliser. *)
Definition convertGradeToNumeric (grade : string) : option Qc :=
  let grade := Js.toUpperCase grade in
  if String.eqb grade "L" then Some (num 9)
  else if String.eqb grade "ML" then Some (num 6)
  else if String.eqb grade "NL" then Some (num 3)
  else
    match Js.parseFloat grade with
    | Some numGrade =>
        Some (if gtb numGrade (num 10) then (numGrade / num 100) * num 10
              else numGrade)%Qc
    | None => None
    end.

(** Local copy of the qualitative test. *)
Definition isQualitativeGrade (grade : string) : bool :=
  let upperGrade := Js.toUpperCase grade in
  existsb (String.eqb upperGrade) ["L"; "ML"; "NL"].

Record PendingActivityDetail :=
  { pdDate : string; pdTopic : string; pdGrade : string }.

(** Body of the loop over the relevant dates: an entry that is neither a
    number nor a qualitative code is pending. *)
Definition pendingOf (student : StudentSheetData) (date : string)
  : option PendingActivityDetail :=
  match grades student !! date with
  | Some activity =>
      let numericGrade := convertGradeToNumeric (grade activity) in
      let originalGrade := Js.trim (grade activity) in
      match numericGrade with
      | None =>
          if negb (isQualitativeGrade originalGrade) then
            Some {| pdDate := date; pdTopic := topic activity;
                    pdGrade := if String.eqb originalGrade "" then "Vacío"
                               else originalGrade |}
          else None
      | Some _ => None
      end
  | None => None
  end.

(** The effect that recomputes [pendingActivities]. *)
Definition pendingActivities (sheetData : list StudentSheetData)
    (allDates : list string) (startDate endDate selectedStudentName : string)
  : list PendingActivityDetail :=
  if String.eqb selectedStudentName "" || (length sheetData =? 0)%nat
     || String.eqb startDate "" || String.eqb endDate ""
  then []
  else
    match List.find (fun s => String.eqb (studentName s) selectedStudentName)
                    sheetData with
    | None => []
    | Some student =>
        match indexOf allDates startDate, indexOf allDates endDate with
        | Some startIdx, Some endIdx =>
            if (endIdx <? startIdx)%nat then []
            else
              let relevant :=
                List.filter (hasEntry student)
                            (slice allDates startIdx (endIdx + 1)) in
              omap (pendingOf student) relevant
        | _, _ => []
        end
    end.

End StudentPendingActivities.

(** ** Specification-side notions *)

(** The rescaling applied to a parsed number. *)
Definition rescale (v : Qc) : Qc :=
  if decide (num 10 < v)%Qc then (v / num 100 * num 10)%Qc else v.

(** The canonical interval of the grade scale. *)
Definition inScale (r : Qc) : Prop := (num 1 <= r)%Qc ∧ (r <= num 9)%Qc.

(** A character that can continue a decimal literal. *)
Definition extendsLiteral (c : ascii) : bool :=
  Js.isDigit c || Ascii.eqb c "." || Ascii.eqb c "e" || Ascii.eqb c "E"
  || Ascii.eqb c "+" || Ascii.eqb c "-".

(** The text [t] does not begin with such a character. *)
Definition stopsLiteral (t : string) : bool :=
  match t with
  | EmptyString => true
  | String c _ => negb (extendsLiteral c)
  end.

(** A text made of decimal digits only. *)
Fixpoint allDigits (s : string) : bool :=
  match s with
  | EmptyString => true
  | String c r => Js.isDigit c && allDigits r
  end.

(** Entries of a student at the selected dates, in date order. *)
Definition selectedEntries (relevant : list string) (student : StudentSheetData)
  : list (string * StudentGradeEntry) :=
  omap (fun date => (fun a => (date, a)) <$> grades student !! date) relevant.

Definition isMissing (a : StudentGradeEntry) : bool :=
  match convertGradeToNumeric (grade a) with None => true | Some _ => false end.

(** Contribution of an entry to the projection: its normalised value, or
    the fallback 3. *)
Definition projectionValue (a : StudentGradeEntry) : Qc :=
  default (num 3) (convertGradeToNumeric (grade a)).

Definition sumQc (l : list Qc) : Qc := foldr Qcplus (num 0) l.

Definition projectionSum (relevant : list string) (student : StudentSheetData) : Qc :=
  sumQc (map (fun e => projectionValue e.2) (selectedEntries relevant student)).

Definition activitiesCount (relevant : list string) (student : StudentSheetData) : nat :=
  length (selectedEntries relevant student).

Definition missingCount (relevant : list string) (student : StudentSheetData) : nat :=
  length (List.filter (fun e => isMissing e.2) (selectedEntries relevant student)).

Definition projectedAverageOf (relevant : list string) (student : StudentSheetData) : Qc :=
  if (activitiesCount relevant student =? 0)%nat then num 0
  else (projectionSum relevant student
        / num (Z.of_nat (activitiesCount relevant student)))%Qc.

(** One point per selected date with an entry. *)
Definition timeSeries (relevant : list string) (student : StudentSheetData)
  : list ChartDataPoint :=
  map (fun e => {| cdDate := e.1;
                   cdGrade := chartGrade (convertGradeToNumeric (grade e.2)) |})
      (selectedEntries relevant student).

(** ["{topic} ({date})"] for the entries that normalise to none. *)
Definition missingDetails (relevant : list string) (student : StudentSheetData)
  : list string :=
  map (fun e => topic e.2 ++ " (" ++ e.1 ++ ")")
      (List.filter (fun e => isMissing e.2) (selectedEntries relevant student)).

Definition atRisk (relevant : list string) (student : StudentSheetData) : bool :=
  bool_decide (projectedAverageOf relevant student < num 5)%Qc
  && bool_decide (0 < activitiesCount relevant student).

Definition riskEntry (relevant : list string) (student : StudentSheetData)
  : StudentAtRisk :=
  {| name := studentName student;
     projectedAverage := Fmt.toFixed2 (projectedAverageOf relevant student);
     missing := missingCount relevant student;
     details := missingDetails relevant student |}.

(** The last column that carries a date label. *)
Definition lastColumnOf (jsonSheet : list (list string)) (date : string)
  : option nat :=
  last (List.filter (fun j => String.eqb (dateOfColumn jsonSheet j) date)
                    (columns jsonSheet)).

(** Some row of index at least 2 has a cell in column [j] that normalises
    to a number or is a qualitative code. *)
Definition someInterpretableCell (jsonSheet : list (list string)) (j : nat) : Prop :=
  ∃ i row, 2 <= i ∧ jsonSheet !! i = Some row ∧
    (convertGradeToNumeric (cellText row j) ≠ None
     ∨ isQualitativeGrade (cellText row j) = true).

(** ** Sample inputs *)

Definition entry (t g : string) : StudentGradeEntry := {| topic := t; grade := g |}.

Definition student (n : string) (l : list (string * StudentGradeEntry))
  : StudentSheetData :=
  {| studentName := n; grades := list_to_map l |}.

(** The sheet of two students over two dates, one cell left empty. *)
Definition sheetAnaBeto : list (list string) :=
  [ [""; "D1"; "D2"]; [""; "T1"; "T2"]; ["Ana"; "L"; "ML"]; ["Beto"; ""; "7"] ].

(** Two columns with the same date label; only the first holds a grade. *)
Definition sheetSameDate : list (list string) :=
  [ [""; "D"; "D"]; [""; "T1"; "T2"]; ["Ana"; "7"; ""] ].

(** Four students; one column with a single grade, one with stray text. *)
Definition sheetFour : list (list string) :=
  [ [""; "D1"; "D2"]; [""; "T1"; "T2"];
    ["Ana"; ""; "x"]; ["Beto"; ""; ""]; ["Caro"; "7"; "--"]; ["Dani"; ""; ""] ].

(** Grades 9, none, 6 over three dates. *)
Definition ana : StudentSheetData :=
  student "Ana" [("D1", entry "T1" "9"); ("D2", entry "T2" ""); ("D3", entry "T3" "6")].

(** Average exactly 5: a missing entry (counted as 3) and a 7. *)
Definition beto : StudentSheetData :=
  student "Beto" [("D1", entry "T1" ""); ("D2", entry "T2" "7")].

(** Average 4.99. *)
Definition caro : StudentSheetData :=
  student "Caro" [("D1", entry "T1" "4.99")].

(** Unrecognised text and a 4: average 3.5, one missing activity. *)
Definition dani : StudentSheetData :=
  student "Dani" [("D1", entry "T1" "abc"); ("D2", entry "T2" "4")].

(** A negative grade. *)
Definition eva : StudentSheetData :=
  student "Eva" [("D1", entry "T1" "-5")].

(** Same average as [dani], listed after her. *)
Definition fede : StudentSheetData :=
  student "Fede" [("D1", entry "T1" "3"); ("D2", entry "T2" "4")].

(** The property of the best student without a floor on the averages: the
    best student is the first one whose average no other student exceeds,
    and the stored series is that student's. *)
Definition firstHighestIsBest (sheetData : list StudentSheetData)
    (relevant : list string) (r : Engine) : Prop :=
  ∃ pre s post,
    sheetData = (pre ++ s :: post)%list
    ∧ Forall (fun p => (projectedAverageOf relevant p
                        < projectedAverageOf relevant s)%Qc) pre
    ∧ Forall (fun q => (projectedAverageOf relevant q
                        <= projectedAverageOf relevant s)%Qc) post
    ∧ bestStudentName r = studentName s
    ∧ bestStudentPerformanceData r = timeSeries relevant s.

(** ** Further notions used below *)

(** A text that does not begin with white space. *)
Definition headNotSpace (s : string) : Prop :=
  match s with
  | EmptyString => True
  | String c _ => Js.isWhiteSpace c = false
  end.

(** A text that [trim] leaves unchanged. *)
Definition trimmed (s : string) : Prop := Js.trim s = s.

(** The student's name cell of a row, as the second pass reads it. *)
Definition nameOfRow (row : list string) : string := cellText row 0.

(** The number of hundredths nearest to the magnitude of [g] (the larger
    one on a tie), and [g] rounded to two decimals with its sign kept. *)
Definition hundredths (g : Qc) : Z := Qfloor (Qabs (this g) * 100 + (1 # 2)).

Definition roundedTo2 (g : Qc) : Qc :=
  Q2Qc (inject_Z (if bool_decide (g < 0)%Qc then - hundredths g else hundredths g)
        * (1 # 100)).

(** An entry counted under a qualitative code: it normalises to a number and
    its trimmed, upper-cased grade is the code. *)
Definition countsAs (code : string) (a : StudentGradeEntry) : bool :=
  match convertGradeToNumeric (grade a) with
  | Some _ => String.eqb (Js.toUpperCase (Js.trim (grade a))) code
  | None => false
  end.

(** Number of selected entries, over all students, counted under a code. *)
Definition codeCount (code : string) (relevant : list string)
    (sheetData : list StudentSheetData) : nat :=
  list_sum (map (fun s => length (List.filter (fun e => countsAs code e.2)
                                              (selectedEntries relevant s)))
                sheetData).

(** A character that can begin a decimal literal. *)
Definition beginsLiteral (c : ascii) : bool :=
  Js.isDigit c || Ascii.eqb c "." || Ascii.eqb c "+" || Ascii.eqb c "-".

(** ** The group series of [performAnalysis] *)

(** A point of [groupPerformanceData]; its [grade] field is always [null]. *)
Record GroupPoint :=
  { gpDate : string; gpAverageGrade : option Qc; gpGrade : option Qc }.

(** Body of the inner [sheetData.forEach] for one date; the state is
    [(sumGradesForDate, countStudentsWithGradeForDate)]. *)
Definition groupStep (date : string) (acc : Qc * nat) (student : StudentSheetData)
  : Qc * nat :=
  match grades student !! date with
  | Some activity =>
      match convertGradeToNumeric (grade activity) with
      | Some numericGrade => ((acc.1 + numericGrade)%Qc, S acc.2)
      | None => acc
      end
  | None => acc
  end.

Definition groupPoint (sheetData : list StudentSheetData) (date : string)
  : GroupPoint :=
  let '(sumGradesForDate, countStudentsWithGradeForDate) :=
    fold_left (groupStep date) sheetData (num 0, 0) in
  {| gpDate := date;
     gpAverageGrade :=
       if (0 <? countStudentsWithGradeForDate)%nat
       then Js.parseFloat
              (Fmt.toFixed2
                 (sumGradesForDate
                  / num (Z.of_nat countStudentsWithGradeForDate))%Qc)
       else None;
     gpGrade := None |}.

(** The loop [relevantDatesInSelectedRange.forEach] that fills
    [groupPerformanceData]. *)
Definition groupPerformanceData (relevant : list string)
    (sheetData : list StudentSheetData) : list GroupPoint :=
  map (groupPoint sheetData) relevant.

(** The interpretable grades of all students on a date, in record order. *)
Definition gradesOn (date : string) (sheetData : list StudentSheetData) : list Qc :=
  omap (fun s => match grades s !! date with
                 | Some a => convertGradeToNumeric (grade a)
                 | None => None
                 end) sheetData.

(** ** The chart data of StudentProgressChart *)

Module StudentProgressChart.

(** Local copy of the normaliser. *)
Definition convertGradeToNumeric (grade : string) : option Qc :=
  let grade := Js.toUpperCase grade in
  if String.eqb grade "L" then Some (num 9)
  else if String.eqb grade "ML" then Some (num 6)
  else if String.eqb grade "NL" then Some (num 3)
  else
    match Js.parseFloat grade with
    | Some numGrade =>
        Some (if gtb numGrade (num 10) then (numGrade / num 100) * num 10
              else numGrade)%Qc
    | None => None
    end.

(** Body of [relevantDatesInSelectedRange.map(date => ...)]. *)
Definition chartPoint (student : StudentSheetData) (date : string)
  : ChartDataPoint :=
  let gradeEntry := grades student !! date in
  let numericGrade :=
    match gradeEntry with
    | Some e => convertGradeToNumeric (grade e)
    | None => None
    end in
  {| cdDate := date;
     cdGrade := match numericGrade with
                | Some n => Js.parseFloat (Fmt.toFixed2 n)
                | None => None
                end |}.

Definition hasGrade (p : ChartDataPoint) : bool :=
  match cdGrade p with Some _ => true | None => false end.

(** The effect that recomputes [studentChartData]. *)
Definition studentChartData (sheetData : list StudentSheetData)
    (allDates : list string) (startDate endDate selectedStudentName : string)
  : list ChartDataPoint :=
  if String.eqb selectedStudentName "" || (length sheetData =? 0)%nat
     || String.eqb startDate "" || String.eqb endDate ""
  then []
  else
    match List.find (fun s => String.eqb (studentName s) selectedStudentName)
                    sheetData with
    | None => []
    | Some student =>
        match indexOf allDates startDate, indexOf allDates endDate with
        | Some startIdx, Some endIdx =>
            if (endIdx <? startIdx)%nat then []
            else
              let relevant :=
                List.filter (hasEntry student)
                            (slice allDates startIdx (endIdx + 1)) in
              List.filter hasGrade (map (chartPoint student) relevant)
        | _, _ => []
        end
    end.

End StudentProgressChart.

(** A student whose stored grades are all trimmed. *)
Definition gradesTrimmed (s : StudentSheetData) : Prop :=
  ∀ date a, grades s !! date = Some a → Js.trim (grade a) = grade a.

(** The text of a pending item as the at-risk details spell it. *)
Definition pendingText (p : StudentPendingActivities.PendingActivityDetail)
  : string :=
  (StudentPendingActivities.pdTopic p ++ " ("
   ++ StudentPendingActivities.pdDate p ++ ")")%string.

(** ** The quantitative averages of QuantitativeAnalysisSection *)

(** [parseFloat] also reads the literal [Infinity] after white space and an
    optional sign; [isNaN(parseFloat(s))] therefore holds when the text has
    neither a decimal prefix nor that literal. *)
Definition isInfinityLiteral (s : string) : bool :=
  String.prefix "Infinity" (Js.readSign (Js.trimStart s)).2.

Definition parseFloatIsNaN (s : string) : bool :=
  match Js.parseFloat s with
  | Some _ => false
  | None => negb (isInfinityLiteral s)
  end.

Module QuantitativeAverages.

(** Local [isQualitativeGrade]. *)
Definition isQualitativeGrade (grade : string) : bool :=
  let upperGrade := Js.toUpperCase grade in
  existsb (String.eqb upperGrade) ["L"; "ML"; "NL"].

(** [isQuantitativeGrade] *)
Definition isQuantitativeGrade (grade : string) : bool :=
  negb (parseFloatIsNaN grade) && negb (isQualitativeGrade grade).

Record QuantitativeStudentAverage :=
  { qaStudentName : string; qaAverage : string;
    qaDetails : list (string * string) }.

Record Loop :=
  { quantitativeGradesSum : Qc; quantitativeGradesCount : nat;
    quantitativeDetails : list (string * string) }.

(** Body of the loop over the dates; [numericGrade!] is added as it is, a
    [null] counting as 0 in the sum. *)
Definition dateStep (student : StudentSheetData) (st : Loop) (date : string)
  : Loop :=
  match grades student !! date with
  | Some activity =>
      let numericGrade :=
        QuantitativeAnalysisSection.convertGradeToNumeric (grade activity) in
      let originalGrade := Js.toUpperCase (grade activity) in
      if isQuantitativeGrade (grade activity) then
        {| quantitativeGradesSum :=
             (quantitativeGradesSum st + default (num 0) numericGrade)%Qc;
           quantitativeGradesCount := S (quantitativeGradesCount st);
           quantitativeDetails :=
             quantitativeDetails st ++ [(topic activity, originalGrade)] |}
      else st
  | None => st
  end.

Definition dateLoop (relevant : list string) (student : StudentSheetData) : Loop :=
  fold_left (dateStep student) relevant
    {| quantitativeGradesSum := num 0; quantitativeGradesCount := 0;
       quantitativeDetails := [] |}.

(** Body of [sheetData.forEach]. *)
Definition studentStep (relevant : list string)
    (acc : list QuantitativeStudentAverage) (student : StudentSheetData)
  : list QuantitativeStudentAverage :=
  let d := dateLoop relevant student in
  if (0 <? quantitativeGradesCount d)%nat then
    acc ++ [{| qaStudentName := studentName student;
               qaAverage :=
                 Fmt.toFixed2 (quantitativeGradesSum d
                               / num (Z.of_nat (quantitativeGradesCount d)))%Qc;
               qaDetails := quantitativeDetails d |}]
  else acc.

(** The effect that recomputes [studentQuantitativeAverages]. *)
Definition quantitativeAverages (sheetData : list StudentSheetData)
    (allDates : list string) (startDate endDate : string)
  : list QuantitativeStudentAverage :=
  if (length sheetData =? 0)%nat || String.eqb startDate ""
     || String.eqb endDate ""
  then []
  else
    match selectRange sheetData allDates startDate endDate with
    | None => []
    | Some relevant => fold_left (studentStep relevant) sheetData []
    end.

End QuantitativeAverages.

(** The selected entries of a student that count as quantitative. *)
Definition quantitativeEntries (relevant : list string) (s : StudentSheetData)
  : list (string * StudentGradeEntry) :=
  List.filter (fun e => QuantitativeAverages.isQuantitativeGrade (grade e.2))
              (selectedEntries relevant s).

(** ** Loading a sheet: the effect on the selection state *)

Module App.

(** The part of the component state that the sheet effect writes. *)
Record State :=
  { sheetData : list StudentSheetData;
    allDates : list string;
    startDate : string;
    endDate : string;
    analysisResults : option Engine;
    error : string }.

(** The effect run when the selected file or sheet changes, once the
    library is loaded. [sheet] is the grid of the selected sheet, [None]
    when no workbook or no sheet is selected. A grid that ingestion rejects
    clears the data and sets the error message; the selected dates are only
    overwritten when the sheet has date columns. *)
Definition loadSheet (st : State) (sheet : option (list (list string))) : State :=
  match sheet with
  | Some jsonSheet =>
      match processXLSXSheetData jsonSheet with
      | Some (data, dates) =>
          {| sheetData := data;
             allDates := dates;
             startDate := match dates with
                          | d :: _ => d
                          | [] => startDate st
                          end;
             endDate := match dates with
                        | _ :: _ => nth (length dates - 1) dates ""
                        | [] => endDate st
                        end;
             analysisResults := None;
             error := "" |}
      | None =>
          {| sheetData := []; allDates := [];
             startDate := startDate st; endDate := endDate st;
             analysisResults := None;
             error := "Error al procesar los datos de la hoja. Asegúrate de que el formato sea correcto y tenga al menos 3 filas (encabezados, temas, y datos de estudiante)." |}
      end
  | None =>
      {| sheetData := []; allDates := [];
         startDate := startDate st; endDate := endDate st;
         analysisResults := None; error := "" |}
  end.

(** [performAnalysis] run on the state. *)
Definition analyseState (st : State) : AnalysisError + Engine :=
  performAnalysis (sheetData st) (allDates st) (startDate st) (endDate st).

End App.

(** ** Expanding and collapsing the student lists of an activity *)

Module Expansion.

(** [expandedActivities[key]] read as a condition: an absent key is falsy. *)
Definition isExpanded (m : gmap string bool) (key : string) : bool :=
  default false (m !! key).

(** [toggleActivityExpansion]: [{...prev, [key]: !prev[key]}]. *)
Definition toggleActivityExpansion (key : string) (prev : gmap string bool)
  : gmap string bool :=
  <[key := negb (default false (prev !! key))]> prev.

(** The keys under which the lowest and the highest list toggle a topic. *)
Definition lowKey (topic : string) : string := (topic ++ "-low")%string.
Definition highKey (topic : string) : string := (topic ++ "-high")%string.

End Expansion.

(** The last character of a text. *)
Fixpoint lastChar (s : string) : option ascii :=
  match s with
  | EmptyString => None
  | String c EmptyString => Some c
  | String _ r => lastChar r
  end.

(** ** The activity rankings of [performAnalysis] *)

Module Ranking.

(** An object used as a dictionary whose order of insertion matters: the
    keys are kept in the order in which they were first assigned. *)
Section Obj.

Context {V : Type}.

(** [o[k]] *)
Fixpoint objGet (o : list (string * V)) (k : string) : option V :=
  match o with
  | [] => None
  | (k', v) :: r => if String.eqb k' k then Some v else objGet r k
  end.

(** [o[k] = v]: an existing key keeps its place, a new one goes last. *)
Fixpoint objSet (o : list (string * V)) (k : string) (v : V) : list (string * V) :=
  match o with
  | [] => [(k, v)]
  | (k', v') :: r =>
      if String.eqb k' k then (k', v) :: r else (k', v') :: objSet r k v
  end.

End Obj.

(** A stable sort, as [Array.prototype.sort] is: [leb x y] tells that [x]
    need not come after [y]; equal elements keep their order. *)
Section Sort.

Context {A : Type} (leb : A → A → bool).

Fixpoint insertBy (x : A) (l : list A) : list A :=
  match l with
  | [] => [x]
  | y :: r => if leb x y then x :: l else y :: insertBy x r
  end.

Definition sortBy (l : list A) : list A := foldr insertBy [] l.

End Sort.

(** A key that is an array index: a decimal numeral without leading zero
    and below 2^32 - 1. *)
Definition isArrayIndex (k : string) : bool :=
  match k with
  | EmptyString => false
  | String c r =>
      allDigits k
      && (negb (Ascii.eqb c "0") || String.eqb r "")
      && (Js.digitsValue 0 k <? 4294967295)%N
  end.

(** [Object.entries]: the array-index keys in ascending numeric order, then
    the other keys in order of insertion. *)
Definition objectEntries {V : Type} (o : list (string * V)) : list (string * V) :=
  (sortBy (fun a b => (Js.digitsValue 0 a.1 <=? Js.digitsValue 0 b.1)%N)
          (List.filter (fun e => isArrayIndex e.1) o)
   ++ List.filter (fun e => negb (isArrayIndex e.1)) o)%list.

Record StudentGradeDetail := { sgStudentName : string; sgGrade : string }.

Record ActivityDetail :=
  { adTopic : string; adAverage : string; adStudents : list StudentGradeDetail }.

(** The three dictionaries the pass over students and dates fills. *)
Record Acc :=
  { activityGrades : list (string * (Qc * nat));
    lowGradeActivitiesDetails : list (string * list StudentGradeDetail);
    highGradeActivitiesDetails : list (string * list StudentGradeDetail) }.

(** [if (!details[topic]) details[topic] = []; details[topic].push(d)] *)
Definition pushDetail (details : list (string * list StudentGradeDetail))
    (topic : string) (d : StudentGradeDetail)
  : list (string * list StudentGradeDetail) :=
  let details :=
    match objGet details topic with
    | Some _ => details
    | None => objSet details topic []
    end in
  match objGet details topic with
  | Some l => objSet details topic (l ++ [d])%list
  | None => details
  end.

(** What the body of the date loop does to the three dictionaries for an
    entry [activity] of [student]. *)
Definition activityStep (student : StudentSheetData)
    (activity : StudentGradeEntry) (acc : Acc) : Acc :=
  let numericGrade := convertGradeToNumeric (grade activity) in
  let ag :=
    match objGet (activityGrades acc) (topic activity) with
    | Some _ => activityGrades acc
    | None => objSet (activityGrades acc) (topic activity) (num 0, 0)
    end in
  let ag :=
    match numericGrade, objGet ag (topic activity) with
    | Some g, Some (sum, count) =>
        objSet ag (topic activity) ((sum + g)%Qc, S count)
    | _, _ => ag
    end in
  let d := {| sgStudentName := studentName student; sgGrade := grade activity |} in
  let low :=
    match numericGrade with
    | Some g =>
        if ltb g (num 6)
        then pushDetail (lowGradeActivitiesDetails acc) (topic activity) d
        else lowGradeActivitiesDetails acc
    | None => lowGradeActivitiesDetails acc
    end in
  let high :=
    match numericGrade with
    | Some g =>
        if negb (ltb g (num 8))
        then pushDetail (highGradeActivitiesDetails acc) (topic activity) d
        else highGradeActivitiesDetails acc
    | None => highGradeActivitiesDetails acc
    end in
  {| activityGrades := ag; lowGradeActivitiesDetails := low;
     highGradeActivitiesDetails := high |}.

Definition dateStep (student : StudentSheetData) (acc : Acc) (date : string)
  : Acc :=
  match grades student !! date with
  | Some activity => activityStep student activity acc
  | None => acc
  end.

(** The pass [sheetData.forEach(student => relevant.forEach(date => ...))],
    restricted to the three dictionaries. *)
Definition collect (relevant : list string) (sheetData : list StudentSheetData)
  : Acc :=
  fold_left (fun acc student => fold_left (dateStep student) relevant acc)
            sheetData
            {| activityGrades := []; lowGradeActivitiesDetails := [];
               highGradeActivitiesDetails := [] |}.

(** [avgActivityGrades] *)
Definition avgActivityGrades (ag : list (string * (Qc * nat)))
  : list (string * string) :=
  map (fun e =>
         let '(sum, count) := e.2 in
         (e.1, if (0 <? count)%nat
               then Fmt.toFixed2 (sum / num (Z.of_nat count))%Qc
               else "0"))
      (objectEntries ag).

(** The comparators of the two sorts: [parseFloat(a.average) -
    parseFloat(b.average)] is not positive, and the same with [a] and [b]
    exchanged; a difference that is not a number counts as zero. *)
Definition ascending (a b : string * string) : bool :=
  match Js.parseFloat a.2, Js.parseFloat b.2 with
  | Some x, Some y => negb (ltb y x)
  | _, _ => true
  end.

Definition descending (a b : string * string) : bool :=
  match Js.parseFloat a.2, Js.parseFloat b.2 with
  | Some x, Some y => negb (ltb x y)
  | _, _ => true
  end.

Definition withStudents (details : list (string * list StudentGradeDetail))
    (a : string * string) : ActivityDetail :=
  {| adTopic := a.1; adAverage := a.2;
     adStudents := default [] (objGet details a.1) |}.

Definition activitiesWithLowerGrades (acc : Acc) : list ActivityDetail :=
  map (withStudents (lowGradeActivitiesDetails acc))
      (take 5 (sortBy ascending (avgActivityGrades (activityGrades acc)))).

Definition activitiesWithHigherGrades (acc : Acc) : list ActivityDetail :=
  map (withStudents (highGradeActivitiesDetails acc))
      (take 5 (sortBy descending (avgActivityGrades (activityGrades acc)))).

End Ranking.

(** The entries the pass visits, student by student, each over the relevant
    dates. *)
Definition visits (relevant : list string) (sheetData : list StudentSheetData)
  : list (StudentSheetData * StudentGradeEntry) :=
  flat_map (fun s => map (fun e => (s, e.2)) (selectedEntries relevant s))
           sheetData.

(** The interpretable grades of the visited entries with a given topic. *)
Definition gradesOfTopic (t : string)
    (vs : list (StudentSheetData * StudentGradeEntry)) : list Qc :=
  omap (fun v => if String.eqb (topic v.2) t
                 then convertGradeToNumeric (grade v.2) else None) vs.

(** The student and raw grade of the visited entries with a given topic
    whose normalised grade satisfies a test. *)
Definition detailsOfTopic (test : Qc → bool) (t : string)
    (vs : list (StudentSheetData * StudentGradeEntry))
  : list Ranking.StudentGradeDetail :=
  omap (fun v =>
          match convertGradeToNumeric (grade v.2) with
          | Some g =>
              if String.eqb (topic v.2) t && test g
              then Some {| Ranking.sgStudentName := studentName v.1;
                           Ranking.sgGrade := grade v.2 |}
              else None
          | None => None
          end) vs.

(** The average text of a topic. *)
Definition topicAverage (t : string)
    (vs : list (StudentSheetData * StudentGradeEntry)) : string :=
  match gradesOfTopic t vs with
  | [] => "0"
  | gs => Fmt.toFixed2 (sumQc gs / num (Z.of_nat (length gs)))%Qc
  end.

(** The topics in the order in which the pass first meets them. *)
Definition addKey (ks : list string) (k : string) : list string :=
  if bool_decide (k ∈ ks) then ks else (ks ++ [k])%list.

Definition distinctTopics (vs : list (StudentSheetData * StudentGradeEntry))
  : list string :=
  fold_left addKey (map (fun v => topic v.2) vs) [].

(** The number an average text stands for. *)
Definition topicValue (t : string)
    (vs : list (StudentSheetData * StudentGradeEntry)) : Qc :=
  match gradesOfTopic t vs with
  | [] => num 0
  | gs => roundedTo2 (sumQc gs / num (Z.of_nat (length gs)))%Qc
  end.

(** The sum and count of a topic after one more entry. *)
Definition bump (prev : option (Qc * nat)) (numericGrade : option Qc) : Qc * nat :=
  let p := default (num 0, 0) prev in
  match numericGrade with
  | Some g => ((p.1 + g)%Qc, S p.2)
  | None => p
  end.

(** The step of the pass for a visited entry. *)
Definition visitStep (acc : Ranking.Acc) (v : StudentSheetData * StudentGradeEntry)
  : Ranking.Acc :=
  Ranking.activityStep v.1 v.2 acc.

Definition below6 (g : Qc) : bool := ltb g (num 6).
Definition atLeast8 (g : Qc) : bool := negb (ltb g (num 8)).

(** The step of the pass on one dictionary of details, for a test on the
    normalised grade. *)
Definition detailStep (test : Qc → bool)
    (o : list (string * list Ranking.StudentGradeDetail))
    (v : StudentSheetData * StudentGradeEntry)
  : list (string * list Ranking.StudentGradeDetail) :=
  match convertGradeToNumeric (grade v.2) with
  | Some g =>
      if test g
      then Ranking.objSet o (topic v.2)
             (default [] (Ranking.objGet o (topic v.2))
              ++ [{| Ranking.sgStudentName := studentName v.1;
                     Ranking.sgGrade := grade v.2 |}])%list
      else o
  | None => o
  end.

(** * Properties *)

(** ** Rational arithmetic *)

Lemma this_inj (a b : Qc) : this a = this b → a = b.
Proof. intros H. apply Qc_is_canon. rewrite H. reflexivity. Qed.

Lemma option_this_inj (a b : option Qc) :
  option_map this a = option_map this b → a = b.
Proof.
  destruct a, b; simpl; intros H; try discriminate; [|reflexivity].
  f_equal. apply this_inj. congruence.
Qed.

Ltac qc_compute := apply option_this_inj; vm_compute; reflexivity.

Lemma gtb_true (a b : Qc) : gtb a b = true ↔ (b < a)%Qc.
Proof. unfold gtb. apply bool_decide_eq_true. Qed.

Lemma rescale_eq (v : Qc) :
  (if gtb v (num 10) then v / num 100 * num 10 else v)%Qc = rescale v.
Proof.
  unfold rescale, gtb. destruct (decide (num 10 < v)%Qc) as [H|H].
  - rewrite bool_decide_eq_true_2; auto.
  - rewrite bool_decide_eq_false_2; auto.
Qed.

Lemma rescale_tenth (v : Qc) : (v / num 100 * num 10 = v * ratio 1 10)%Qc.
Proof.
  unfold Qcdiv. rewrite <- Qcmult_assoc. f_equal.
Qed.

(** ** The normaliser, case by case *)

Lemma convert_qualitative (s : string) :
  isQualitativeGrade s = true →
  convertGradeToNumeric s = Some (num 9) ∨ convertGradeToNumeric s = Some (num 6)
  ∨ convertGradeToNumeric s = Some (num 3).
Proof.
  unfold isQualitativeGrade, convertGradeToNumeric. simpl.
  destruct (String.eqb (Js.toUpperCase s) "L"); [auto|].
  destruct (String.eqb (Js.toUpperCase s) "ML"); [auto|].
  destruct (String.eqb (Js.toUpperCase s) "NL"); [auto|].
  discriminate.
Qed.

Lemma convert_numeric (s : string) :
  isQualitativeGrade s = false →
  convertGradeToNumeric s = rescale <$> Js.parseFloat (Js.toUpperCase s).
Proof.
  unfold isQualitativeGrade, convertGradeToNumeric. simpl.
  destruct (String.eqb (Js.toUpperCase s) "L"); [discriminate|].
  destruct (String.eqb (Js.toUpperCase s) "ML"); [discriminate|].
  destruct (String.eqb (Js.toUpperCase s) "NL"); [discriminate|].
  intros _. destruct (Js.parseFloat (Js.toUpperCase s)) as [v|]; simpl; [|reflexivity].
  by rewrite rescale_eq.
Qed.

Lemma qualitative_interpretable (s : string) :
  isQualitativeGrade s = true → convertGradeToNumeric s ≠ None.
Proof.
  intros H. destruct (convert_qualitative s H) as [E|[E|E]]; rewrite E; discriminate.
Qed.

(** C6: the normaliser returns 9, 6 and 3 for the qualitative codes in any
    letter case, 8.5 for "85", 7 for "7" and none for "abc" and for the empty
    text; in general a parsed number above 10 is rescaled by
    [value / 100 * 10] and any other parsed number is returned as it is. *)
Theorem normalize_values :
  convertGradeToNumeric "L" = Some (num 9)
  ∧ convertGradeToNumeric "ml" = Some (num 6)
  ∧ convertGradeToNumeric "NL" = Some (num 3)
  ∧ convertGradeToNumeric "85" = Some (ratio 17 2)
  ∧ convertGradeToNumeric "7" = Some (num 7)
  ∧ convertGradeToNumeric "abc" = None
  ∧ convertGradeToNumeric "" = None
  ∧ (∀ s, Js.toUpperCase s = "L" ↔ (s = "L" ∨ s = "l"))
  ∧ (∀ s, Js.toUpperCase s = "L" → convertGradeToNumeric s = Some (num 9))
  ∧ (∀ s, Js.toUpperCase s = "ML" → convertGradeToNumeric s = Some (num 6))
  ∧ (∀ s, Js.toUpperCase s = "NL" → convertGradeToNumeric s = Some (num 3))
  ∧ (∀ s v, isQualitativeGrade s = false →
            Js.parseFloat (Js.toUpperCase s) = Some v →
            convertGradeToNumeric s
            = Some (if decide (num 10 < v)%Qc then (v / num 100 * num 10)%Qc else v)).
Proof.
  repeat split; try qc_compute.
  - intros H. destruct s as [|c [|c' r]]; try discriminate.
    simpl in H. injection H as H.
    revert H. destruct c as [[] [] [] [] [] [] [] []]; vm_compute; intros; try discriminate; auto.
  - intros [->| ->]; reflexivity.
  - intros s H. unfold convertGradeToNumeric. simpl. by rewrite H.
  - intros s H. unfold convertGradeToNumeric. simpl. by rewrite H.
  - intros s H. unfold convertGradeToNumeric. simpl. by rewrite H.
  - intros s v Hq Hp. rewrite (convert_numeric s Hq), Hp. reflexivity.
Qed.

(** ** Range of the normaliser *)

Lemma this_num (z : Z) : (this (num z) == inject_Z z)%Q.
Proof. apply Qred_correct. Qed.

Lemma this_tenth (v : Qc) : (this (v * ratio 1 10)%Qc == this v * (1 # 10))%Q.
Proof. simpl. rewrite Qred_correct. reflexivity. Qed.

Lemma rescale_inScale (v : Qc) :
  inScale (rescale v)
  ↔ ((num 1 <= v)%Qc ∧ (v <= num 9)%Qc) ∨ ((num 10 < v)%Qc ∧ (v <= num 90)%Qc).
Proof.
  unfold rescale, inScale. destruct (decide (num 10 < v)%Qc) as [H|H].
  - rewrite rescale_tenth. unfold Qcle, Qclt in *.
    rewrite this_tenth, !this_num in *. unfold inject_Z in *. lra.
  - unfold Qcle, Qclt in *. rewrite !this_num in *. unfold inject_Z in *. lra.
Qed.

(** C4, as stated, fails: "10" normalises to 10 and "0" to 0, both outside
    the interval from 1 to 9. *)
Lemma normalize_leaves_scale :
  ¬ (∀ s r, convertGradeToNumeric s = Some r → inScale r).
Proof.
  intros H.
  assert (E : convertGradeToNumeric "10" = Some (num 10)) by qc_compute.
  destruct (H _ _ E) as [_ H9]. vm_compute in H9. by apply H9.
Qed.

(** C4, amended: the normaliser returns none, or one of 9, 6, 3 for a
    qualitative code, or for a parsed number [v] the value [v] itself when
    [v] is at most 10 and [v / 100 * 10] above; that value lies between 1 and
    9 exactly when [v] lies between 1 and 9 or above 10 and at most 90. *)
Theorem normalize_range (s : string) :
  convertGradeToNumeric s = None
  ∨ (isQualitativeGrade s = true
     ∧ ∃ r, convertGradeToNumeric s = Some r ∧ (r = num 9 ∨ r = num 6 ∨ r = num 3)
            ∧ inScale r)
  ∨ (isQualitativeGrade s = false
     ∧ ∃ v, Js.parseFloat (Js.toUpperCase s) = Some v
            ∧ convertGradeToNumeric s
              = Some (if decide (num 10 < v)%Qc then (v / num 100 * num 10)%Qc else v)
            ∧ (inScale (rescale v)
               ↔ ((num 1 <= v)%Qc ∧ (v <= num 9)%Qc)
                 ∨ ((num 10 < v)%Qc ∧ (v <= num 90)%Qc))).
Proof.
  destruct (isQualitativeGrade s) eqn:Hq.
  - right; left. split; [done|].
    destruct (convert_qualitative s Hq) as [E|[E|E]]; rewrite E;
      eexists; (split; [reflexivity|]); (split; [auto|]);
      split; vm_compute; discriminate.
  - rewrite (convert_numeric s Hq).
    destruct (Js.parseFloat (Js.toUpperCase s)) as [v|]; [|by left].
    right; right. split; [done|]. exists v. split; [done|].
    split; [reflexivity|]. apply rescale_inScale.
Qed.

(** ** The two normalisers compared *)

Lemma rescale9_eq (v : Qc) : (v / num 100 * num 9 = v * ratio 9 100)%Qc.
Proof. unfold Qcdiv. rewrite <- Qcmult_assoc. reflexivity. Qed.

Lemma this_mul_ratio (v : Qc) (a : Z) (b : positive) :
  (this (v * ratio a b)%Qc == this v * (a # b))%Q.
Proof. simpl. rewrite !Qred_correct. reflexivity. Qed.

Lemma quantitative_convert_numeric (s : string) :
  isQualitativeGrade s = false →
  QuantitativeAnalysisSection.convertGradeToNumeric s
  = (fun v => if gtb v (num 9) then (v / num 100 * num 9)%Qc else v)
      <$> Js.parseFloat (Js.toUpperCase s).
Proof.
  unfold isQualitativeGrade, QuantitativeAnalysisSection.convertGradeToNumeric.
  simpl.
  destruct (String.eqb (Js.toUpperCase s) "L"); [discriminate|].
  destruct (String.eqb (Js.toUpperCase s) "ML"); [discriminate|].
  destruct (String.eqb (Js.toUpperCase s) "NL"); [discriminate|].
  intros _. by destruct (Js.parseFloat (Js.toUpperCase s)).
Qed.

Lemma quantitative_convert_qualitative (s : string) :
  isQualitativeGrade s = true →
  QuantitativeAnalysisSection.convertGradeToNumeric s = convertGradeToNumeric s.
Proof.
  unfold isQualitativeGrade, QuantitativeAnalysisSection.convertGradeToNumeric,
    convertGradeToNumeric. simpl.
  destruct (String.eqb (Js.toUpperCase s) "L"); [done|].
  destruct (String.eqb (Js.toUpperCase s) "ML"); [done|].
  destruct (String.eqb (Js.toUpperCase s) "NL"); [done|].
  discriminate.
Qed.

Lemma rescalings_agree (v : Qc) :
  (if gtb v (num 9) then (v / num 100 * num 9)%Qc else v)
  = (if gtb v (num 10) then (v / num 100 * num 10)%Qc else v)
  ↔ (v <= num 9)%Qc.
Proof.
  unfold gtb. rewrite rescale9_eq, rescale_tenth.
  destruct (decide (num 9 < v)%Qc) as [H9|H9];
    destruct (decide (num 10 < v)%Qc) as [H10|H10];
    rewrite ?(bool_decide_eq_true_2 _ H9), ?(bool_decide_eq_false_2 _ H9),
            ?(bool_decide_eq_true_2 _ H10), ?(bool_decide_eq_false_2 _ H10).
  - split; intros E.
    + apply (f_equal this) in E.
      assert (E' : (this (v * ratio 9 100)%Qc == this (v * ratio 1 10)%Qc)%Q)
        by (rewrite E; reflexivity).
      rewrite !this_mul_ratio in E'.
      unfold Qcle, Qclt in *. rewrite !this_num in *. unfold inject_Z in *. lra.
    + unfold Qcle, Qclt in *. rewrite !this_num in *. unfold inject_Z in *. lra.
  - split; intros E.
    + assert (E' : (this (v * ratio 9 100)%Qc == this v)%Q) by (rewrite E; reflexivity).
      rewrite this_mul_ratio in E'.
      unfold Qcle, Qclt in *. rewrite !this_num in *. unfold inject_Z in *. lra.
    + unfold Qcle, Qclt in *. rewrite !this_num in *. unfold inject_Z in *. lra.
  - unfold Qcle, Qclt in *. rewrite !this_num in *. unfold inject_Z in *. lra.
  - split; [|done]. intros _.
    unfold Qcle, Qclt in *. rewrite !this_num in *. unfold inject_Z in *. lra.
Qed.



(** ** Parsing is insensitive to upper-casing *)

Ltac ascii_cases c := destruct c as [[] [] [] [] [] [] [] []].

Lemma upperChar_digit (c : ascii) :
  Js.isDigit (Js.upperChar c) = Js.isDigit c
  ∧ (Js.isDigit c = true → Js.upperChar c = c).
Proof. ascii_cases c; split; vm_compute; congruence. Qed.

Lemma upperChar_space (c : ascii) :
  Js.isWhiteSpace (Js.upperChar c) = Js.isWhiteSpace c.
Proof. ascii_cases c; reflexivity. Qed.

Lemma trimStart_upper (s : string) :
  Js.trimStart (Js.toUpperCase s) = Js.toUpperCase (Js.trimStart s).
Proof.
  induction s as [|c r IH]; [reflexivity|]. simpl.
  rewrite upperChar_space. by destruct (Js.isWhiteSpace c).
Qed.

Lemma spanDigits_upper (s : string) :
  Js.spanDigits (Js.toUpperCase s)
  = ((Js.spanDigits s).1, Js.toUpperCase (Js.spanDigits s).2).
Proof.
  induction s as [|c r IH]; [reflexivity|]. simpl.
  destruct (upperChar_digit c) as [E1 E2]. rewrite E1.
  destruct (Js.isDigit c) eqn:Hd; [|reflexivity].
  rewrite IH, E2 by done. by destruct (Js.spanDigits r).
Qed.

Lemma readSign_upper (s : string) :
  Js.readSign (Js.toUpperCase s)
  = ((Js.readSign s).1, Js.toUpperCase (Js.readSign s).2).
Proof. destruct s as [|c r]; [reflexivity|]. ascii_cases c; reflexivity. Qed.

Lemma readFraction_upper (s : string) :
  Js.readFraction (Js.toUpperCase s)
  = ((Js.readFraction s).1, Js.toUpperCase (Js.readFraction s).2).
Proof.
  destruct s as [|c r]; [reflexivity|].
  ascii_cases c; try reflexivity. apply spanDigits_upper.
Qed.

Lemma readExponent_upper (s : string) :
  Js.readExponent (Js.toUpperCase s) = Js.readExponent s.
Proof.
  destruct s as [|c r]; [reflexivity|].
  assert (E : (Ascii.eqb (Js.upperChar c) "e" || Ascii.eqb (Js.upperChar c) "E")%bool
              = (Ascii.eqb c "e" || Ascii.eqb c "E")%bool)
    by (ascii_cases c; reflexivity).
  unfold Js.readExponent. simpl Js.toUpperCase. cbv beta iota. rewrite E.
  destruct (Ascii.eqb c "e" || Ascii.eqb c "E")%bool; [|reflexivity].
  rewrite readSign_upper. destruct (Js.readSign r) as [neg r1]. simpl.
  rewrite spanDigits_upper. by destruct (Js.spanDigits r1).
Qed.

Lemma parseFloat_upper (s : string) :
  Js.parseFloat (Js.toUpperCase s) = Js.parseFloat s.
Proof.
  unfold Js.parseFloat. rewrite trimStart_upper, readSign_upper.
  destruct (Js.readSign (Js.trimStart s)) as [neg s1]. simpl.
  rewrite spanDigits_upper. destruct (Js.spanDigits s1) as [ip s2]. simpl.
  rewrite readFraction_upper. destruct (Js.readFraction s2) as [fp s3]. simpl.
  by rewrite readExponent_upper.
Qed.

(** ** Parsing reads a prefix *)

Section Prefix.

Variable t : string.
Hypothesis Ht : stopsLiteral t = true.

Lemma spanDigits_app (s : string) :
  Js.spanDigits (s ++ t) = ((Js.spanDigits s).1, (Js.spanDigits s).2 ++ t).
Proof.
  induction s as [|c r IH]; simpl.
  - destruct t as [|c r]; [reflexivity|]. simpl in *.
    unfold extendsLiteral in Ht. by destruct (Js.isDigit c).
  - destruct (Js.isDigit c); [|reflexivity].
    rewrite IH. by destruct (Js.spanDigits r).
Qed.

Lemma readSign_app (s : string) :
  Js.readSign (s ++ t) = ((Js.readSign s).1, (Js.readSign s).2 ++ t).
Proof.
  destruct s as [|c r]; simpl.
  - destruct t as [|c r]; [reflexivity|]. simpl in Ht.
    revert Ht. ascii_cases c; (reflexivity || (vm_compute; discriminate)).
  - ascii_cases c; reflexivity.
Qed.

Lemma readFraction_app (s : string) :
  Js.readFraction (s ++ t) = ((Js.readFraction s).1, (Js.readFraction s).2 ++ t).
Proof.
  destruct s as [|c r]; simpl.
  - destruct t as [|c r]; [reflexivity|]. simpl in Ht.
    revert Ht. ascii_cases c; (reflexivity || (vm_compute; discriminate)).
  - ascii_cases c; try reflexivity. apply spanDigits_app.
Qed.

Lemma readExponent_app (s : string) :
  Js.readExponent (s ++ t) = Js.readExponent s.
Proof.
  destruct s as [|c r]; simpl.
  - destruct t as [|c r]; [reflexivity|]. simpl in Ht.
    revert Ht. ascii_cases c; (reflexivity || (vm_compute; discriminate)).
  - destruct (Ascii.eqb c "e" || Ascii.eqb c "E")%bool; [|reflexivity].
    rewrite readSign_app. destruct (Js.readSign r) as [neg r1]. simpl.
    rewrite spanDigits_app. by destruct (Js.spanDigits r1).
Qed.

Lemma trimStart_app (s : string) :
  Js.trimStart s ≠ "" → Js.trimStart (s ++ t) = Js.trimStart s ++ t.
Proof.
  induction s as [|c r IH]; simpl; [done|].
  destruct (Js.isWhiteSpace c); [exact IH|reflexivity].
Qed.

Lemma parseFloat_app (s : string) (v : Qc) :
  Js.parseFloat s = Some v → Js.parseFloat (s ++ t) = Some v.
Proof.
  unfold Js.parseFloat. intros H.
  destruct (decide (Js.trimStart s = "")) as [E|E].
  { rewrite E in H. discriminate. }
  rewrite (trimStart_app s E), readSign_app.
  destruct (Js.readSign (Js.trimStart s)) as [neg s1]. simpl.
  rewrite spanDigits_app. destruct (Js.spanDigits s1) as [ip s2]. simpl.
  rewrite readFraction_app. destruct (Js.readFraction s2) as [fp s3]. simpl.
  by rewrite readExponent_app.
Qed.

End Prefix.

Lemma spanDigits_all (d : string) :
  allDigits d = true → Js.spanDigits d = (d, "").
Proof.
  induction d as [|c r IH]; simpl; [done|].
  intros [Hc Hr]%andb_true_iff. rewrite Hc, (IH Hr). done.
Qed.

Lemma digit_plain (c : ascii) (r : string) :
  Js.isDigit c = true →
  Js.isWhiteSpace c = false ∧ Js.readSign (String c r) = (false, String c r).
Proof.
  ascii_cases c; intros H; vm_compute in H; try discriminate H;
    split; reflexivity.
Qed.

(** A non-empty digit string parses to the number it denotes. *)
Lemma parseFloat_digits (d : string) :
  d ≠ "" → allDigits d = true →
  Js.parseFloat d = Some (num (Z.of_N (Js.digitsValue 0 d))).
Proof.
  destruct d as [|c r]; [done|]. intros _ Hall.
  assert (Hc : Js.isDigit c = true) by (simpl in Hall; by apply andb_true_iff in Hall as [? _]).
  destruct (digit_plain c r Hc) as [Hw Hs].
  unfold Js.parseFloat.
  replace (Js.trimStart (String c r)) with (String c r) by (simpl; by rewrite Hw).
  rewrite Hs, (spanDigits_all _ Hall). simpl Js.readFraction. cbv beta iota.
  f_equal. apply Q2Qc_eq_iff. simpl. apply Qmult_1_r.
Qed.

Lemma qualitative_not_parsed (s : string) :
  isQualitativeGrade s = true → Js.parseFloat s = None.
Proof.
  rewrite <- parseFloat_upper. unfold isQualitativeGrade. simpl.
  destruct (String.eqb_spec (Js.toUpperCase s) "L") as [->|_]; [reflexivity|].
  destruct (String.eqb_spec (Js.toUpperCase s) "ML") as [->|_]; [reflexivity|].
  destruct (String.eqb_spec (Js.toUpperCase s) "NL") as [->|_]; [reflexivity|].
  discriminate.
Qed.

Lemma parsed_not_qualitative (s : string) (v : Qc) :
  Js.parseFloat s = Some v → isQualitativeGrade s = false.
Proof.
  intros H. destruct (isQualitativeGrade s) eqn:E; [|reflexivity].
  rewrite (qualitative_not_parsed s E) in H. discriminate.
Qed.

Lemma parsed_convert (s : string) (v : Qc) :
  Js.parseFloat s = Some v → convertGradeToNumeric s = Some (rescale v).
Proof.
  intros H. rewrite (convert_numeric s (parsed_not_qualitative s v H)).
  by rewrite parseFloat_upper, H.
Qed.

(** ** The loop over the selected dates *)

Lemma selectedEntries_cons (date : string) (relevant : list string)
    (s : StudentSheetData) :
  selectedEntries (date :: relevant) s
  = match grades s !! date with
    | Some a => (date, a) :: selectedEntries relevant s
    | None => selectedEntries relevant s
    end.
Proof. unfold selectedEntries. simpl. by destruct (grades s !! date). Qed.

Lemma dateLoop_fold (s : StudentSheetData) (relevant : list string) (st : DateLoop) :
  let r := fold_left (dateStep s) relevant st in
  totalGradesForProjection r
    = (totalGradesForProjection st + projectionSum relevant s)%Qc
  ∧ missingActivitiesCount r = missingActivitiesCount st + missingCount relevant s
  ∧ studentActivitiesCount r = studentActivitiesCount st + activitiesCount relevant s
  ∧ currentStudentChartData r
    = (currentStudentChartData st ++ timeSeries relevant s)%list.
Proof.
  revert st. induction relevant as [|date rel IH]; intros st; simpl.
  - unfold projectionSum, missingCount, activitiesCount, timeSeries. simpl.
    rewrite Qcplus_0_r, app_nil_r. repeat split; lia.
  - destruct (IH (dateStep s st date)) as (E1 & E2 & E3 & E4).
    rewrite E1, E2, E3, E4. clear IH E1 E2 E3 E4.
    unfold projectionSum, missingCount, activitiesCount, timeSeries, dateStep.
    rewrite selectedEntries_cons.
    destruct (grades s !! date) as [a|]; [|done].
    unfold isMissing, projectionValue. simpl.
    destruct (convertGradeToNumeric (grade a)) as [g|]; simpl;
      rewrite <- Qcplus_assoc, <- app_assoc; repeat split; lia.
Qed.

Lemma dateLoop_fields (relevant : list string) (s : StudentSheetData)
    (c : nat * nat * nat) :
  totalGradesForProjection (dateLoop relevant s c) = projectionSum relevant s
  ∧ missingActivitiesCount (dateLoop relevant s c) = missingCount relevant s
  ∧ studentActivitiesCount (dateLoop relevant s c) = activitiesCount relevant s
  ∧ currentStudentChartData (dateLoop relevant s c) = timeSeries relevant s.
Proof.
  unfold dateLoop.
  destruct (dateLoop_fold s relevant
              {| totalGradesForProjection := num 0; missingActivitiesCount := 0;
                 studentActivitiesCount := 0; currentStudentChartData := [];
                 cats := c |}) as (E1 & E2 & E3 & E4).
  rewrite E1, E2, E3, E4. simpl. by rewrite Qcplus_0_l.
Qed.

Lemma averageOf_dateLoop (relevant : list string) (s : StudentSheetData)
    (c : nat * nat * nat) :
  averageOf (dateLoop relevant s c) = projectedAverageOf relevant s.
Proof.
  unfold averageOf, projectedAverageOf.
  destruct (dateLoop_fields relevant s c) as (E1 & _ & E3 & _). rewrite E1, E3.
  by destruct (activitiesCount relevant s).
Qed.

Lemma pendingDetails_spec (relevant : list string) (s : StudentSheetData) :
  pendingDetails relevant s = missingDetails relevant s.
Proof.
  unfold pendingDetails, missingDetails.
  induction relevant as [|date rel IH]; [reflexivity|].
  rewrite selectedEntries_cons. simpl.
  destruct (grades s !! date) as [a|] eqn:E.
  - unfold isPendingDate at 1. rewrite E. unfold isMissing at 1. simpl.
    destruct (convertGradeToNumeric (grade a)); simpl; [exact IH|].
    unfold detailText at 1. rewrite E. by rewrite IH.
  - unfold isPendingDate at 1. rewrite E. exact IH.
Qed.

(** ** The loop over the students *)

Lemma studentStep_fields (relevant : list string) (st : Engine)
    (s : StudentSheetData) :
  let avg := projectedAverageOf relevant s in
  studentAverages (studentStep relevant st s)
    = <[studentName s := {| currentAverage := Fmt.toFixed2 avg;
                            missingActivities := missingCount relevant s |}]>
        (studentAverages st)
  ∧ studentsAtRisk (studentStep relevant st s)
    = (studentsAtRisk st
       ++ (if atRisk relevant s then [riskEntry relevant s] else []))%list
  ∧ bestStudentPerformanceData (studentStep relevant st s)
    = (if gtb avg (highestAverage st) then timeSeries relevant s
       else bestStudentPerformanceData st)
  ∧ bestStudentName (studentStep relevant st s)
    = (if gtb avg (highestAverage st) then studentName s else bestStudentName st)
  ∧ highestAverage (studentStep relevant st s)
    = (if gtb avg (highestAverage st) then avg else highestAverage st).
Proof.
  unfold studentStep. simpl.
  rewrite averageOf_dateLoop.
  destruct (dateLoop_fields relevant s (gradeCategoryCounts st)) as (_ & E2 & E3 & E4).
  rewrite E2, E3, E4, pendingDetails_spec.
  repeat split.
  unfold atRisk, ltb, riskEntry.
  destruct (bool_decide (projectedAverageOf relevant s < num 5)%Qc); simpl;
    [|by rewrite app_nil_r].
  destruct (activitiesCount relevant s) as [|n]; simpl; [by rewrite app_nil_r|].
  reflexivity.
Qed.

Lemma atRisk_fold (relevant : list string) (l : list StudentSheetData) (st : Engine) :
  studentsAtRisk (fold_left (studentStep relevant) l st)
  = (studentsAtRisk st
     ++ map (riskEntry relevant) (List.filter (atRisk relevant) l))%list.
Proof.
  revert st. induction l as [|s l IH]; intros st; simpl.
  - by rewrite app_nil_r.
  - rewrite IH.
    destruct (studentStep_fields relevant st s) as (_ & E & _). rewrite E.
    destruct (atRisk relevant s); simpl.
    + by rewrite <- app_assoc.
    + by rewrite app_nil_r.
Qed.

Lemma averages_fold_other (relevant : list string) (l : list StudentSheetData)
    (st : Engine) (n : string) :
  Forall (fun s => studentName s ≠ n) l →
  studentAverages (fold_left (studentStep relevant) l st) !! n
  = studentAverages st !! n.
Proof.
  intros H. revert st. induction H as [|s l Hs _ IH]; intros st; simpl; [done|].
  rewrite IH.
  destruct (studentStep_fields relevant st s) as (E & _). rewrite E.
  by rewrite lookup_insert_ne.
Qed.

Lemma averages_fold_last (relevant : list string)
    (pre post : list StudentSheetData) (s : StudentSheetData) (st : Engine) :
  Forall (fun s' => studentName s' ≠ studentName s) post →
  studentAverages (fold_left (studentStep relevant) (pre ++ s :: post) st)
    !! studentName s
  = Some {| currentAverage := Fmt.toFixed2 (projectedAverageOf relevant s);
            missingActivities := missingCount relevant s |}.
Proof.
  intros H. rewrite fold_left_app. simpl.
  rewrite (averages_fold_other _ _ _ _ H).
  destruct (studentStep_fields relevant
              (fold_left (studentStep relevant) pre st) s) as (E & _).
  rewrite E. apply lookup_insert_eq.
Qed.

(** The best-student variables after a run of the loop: either no student
    of the run beat the average held at its start, or the variables describe
    the first student of the run with the highest average. *)
Lemma best_fold (relevant : list string) (l : list StudentSheetData) (st : Engine) :
  let r := fold_left (studentStep relevant) l st in
  (Forall (fun s => (projectedAverageOf relevant s <= highestAverage st)%Qc) l
   ∧ highestAverage r = highestAverage st
   ∧ bestStudentName r = bestStudentName st
   ∧ bestStudentPerformanceData r = bestStudentPerformanceData st)
  ∨ (∃ pre s post,
        l = (pre ++ s :: post)%list
        ∧ (highestAverage st < projectedAverageOf relevant s)%Qc
        ∧ Forall (fun p => (projectedAverageOf relevant p
                            < projectedAverageOf relevant s)%Qc) pre
        ∧ Forall (fun q => (projectedAverageOf relevant q
                            <= projectedAverageOf relevant s)%Qc) post
        ∧ highestAverage r = projectedAverageOf relevant s
        ∧ bestStudentName r = studentName s
        ∧ bestStudentPerformanceData r = timeSeries relevant s).
Proof.
  revert st. induction l as [|s l IH]; intros st; simpl.
  - left. by repeat split.
  - destruct (studentStep_fields relevant st s) as (_ & _ & E1 & E2 & E3).
    specialize (IH (studentStep relevant st s)).
    rewrite E1, E2, E3 in IH. clear E1 E2 E3.
    destruct (gtb (projectedAverageOf relevant s) (highestAverage st)) eqn:Hb.
    + apply gtb_true in Hb. right.
      destruct IH as [(Hall & -> & -> & ->)|(pre & s' & post & -> & Hlt & Hpre & Hpost & -> & -> & ->)].
      * exists [], s, l. by repeat split.
      * exists (s :: pre), s', post. repeat split; try done.
        -- by apply Qclt_trans with (projectedAverageOf relevant s).
        -- by constructor.
    + assert (Hle : (projectedAverageOf relevant s <= highestAverage st)%Qc).
      { apply Qcnot_lt_le. intros C. apply gtb_true in C. congruence. }
      destruct IH as [(Hall & -> & -> & ->)|(pre & s' & post & -> & Hlt & Hpre & Hpost & -> & -> & ->)].
      * left. repeat split; try done. by constructor.
      * right. exists (s :: pre), s', post. repeat split; try done.
        constructor; [|done].
        by apply Qcle_lt_trans with (highestAverage st).
Qed.

Lemma performAnalysis_inr (sheetData : list StudentSheetData)
    (allDates : list string) (startDate endDate : string) (r : Engine) :
  performAnalysis sheetData allDates startDate endDate = inr r →
  sheetData ≠ [] ∧
  ∃ relevant, selectRange sheetData allDates startDate endDate = Some relevant
              ∧ r = analyse relevant sheetData.
Proof.
  unfold performAnalysis. destruct sheetData as [|s l]; simpl; [discriminate|].
  destruct (String.eqb startDate "" || String.eqb endDate ""); [discriminate|].
  destruct (selectRange (s :: l) allDates startDate endDate) as [rel|];
    [|discriminate].
  intros [= <-]. split; [done|]. by exists rel.
Qed.

(** ** Formatting *)

Lemma digitChar_isDigit (n : N) : Js.isDigit (Fmt.digitChar (n mod 10)) = true.
Proof.
  assert (H : (n mod 10 < 10)%N) by (apply N.mod_lt; discriminate).
  destruct (n mod 10)%N as [|p]; [reflexivity|].
  do 4 (destruct p as [p|p|]; try reflexivity; try (exfalso; lia)).
Qed.

Lemma string_app_assoc (a b c : string) : ((a ++ b) ++ c = a ++ (b ++ c))%string.
Proof.
  induction a as [|x a IH]; [reflexivity|].
  change (String x ((a ++ b) ++ c) = String x (a ++ (b ++ c)))%string.
  by f_equal.
Qed.

(** [toFixed2] ends with a point and exactly two digits. *)
Lemma toFixed2_two_decimals (x : Qc) :
  ∃ body d1 d2,
    Fmt.toFixed2 x = (body ++ "." ++ String d1 (String d2 ""))%string
    ∧ Js.isDigit d1 = true ∧ Js.isDigit d2 = true.
Proof.
  unfold Fmt.toFixed2.
  set (n := Z.to_N _).
  exists ((if bool_decide (x < 0)%Qc then "-" else "") ++ Fmt.decimalOfN (n / 100))%string,
         (Fmt.digitChar ((n / 10) mod 10)), (Fmt.digitChar (n mod 10)).
  split; [by rewrite string_app_assoc|].
  split; apply digitChar_isDigit.
Qed.

(** ** Per-student averages *)

Lemma activitiesCount_hasEntry (relevant : list string) (s : StudentSheetData) :
  activitiesCount relevant s = length (List.filter (hasEntry s) relevant).
Proof.
  unfold activitiesCount. induction relevant as [|date rel IH]; [reflexivity|].
  rewrite selectedEntries_cons. simpl. unfold hasEntry at 1.
  destruct (grades s !! date); simpl; by rewrite IH.
Qed.



(** ** Students at risk *)

Lemma missingDetails_elem (relevant : list string) (s : StudentSheetData)
    (txt : string) :
  txt ∈ missingDetails relevant s
  ↔ ∃ date a, date ∈ relevant ∧ grades s !! date = Some a
              ∧ convertGradeToNumeric (grade a) = None
              ∧ txt = (topic a ++ " (" ++ date ++ ")")%string.
Proof.
  rewrite <- pendingDetails_spec. unfold pendingDetails.
  rewrite list_elem_of_fmap. split.
  - intros (date & -> & Hin). apply list_elem_of_In, filter_In in Hin.
    destruct Hin as [Hin Hp]. apply list_elem_of_In in Hin.
    unfold isPendingDate in Hp. unfold detailText.
    destruct (grades s !! date) as [a|] eqn:Ha; [|discriminate].
    destruct (convertGradeToNumeric (grade a)) eqn:Hc; [discriminate|].
    by exists date, a.
  - intros (date & a & Hin & Ha & Hc & ->). exists date. split.
    + unfold detailText. by rewrite Ha.
    + apply list_elem_of_In, filter_In. split; [by apply list_elem_of_In|].
      unfold isPendingDate. by rewrite Ha, Hc.
Qed.



(** ** Best student *)




(** ** Date-range selection *)

Lemma indexOf_None (l : list string) (x : string) :
  indexOf l x = None ↔ x ∉ l.
Proof.
  induction l as [|y l IH]; simpl.
  - split; [intros _; apply not_elem_of_nil|done].
  - rewrite not_elem_of_cons. destruct (String.eqb_spec y x) as [->|Hne].
    + split; [discriminate|]. by intros [? _].
    + destruct (indexOf l x) as [i|]; simpl.
      * split; [discriminate|]. intros [_ H]. by apply IH in H.
      * split; [|done]. intros _. split; [congruence|]. by apply IH.
Qed.

Lemma indexOf_Some (l : list string) (x : string) (i : nat) :
  indexOf l x = Some i
  ↔ l !! i = Some x ∧ ∀ k, k < i → l !! k ≠ Some x.
Proof.
  revert i. induction l as [|y l IH]; intros i; simpl.
  - split; [discriminate|]. by intros [? _].
  - destruct (String.eqb_spec y x) as [->|Hne].
    + split.
      * intros [= <-]. split; [done|]. intros k Hk. lia.
      * intros [_ Hfirst]. destruct i as [|i]; [done|].
        exfalso. by apply (Hfirst 0); [lia|].
    + destruct i as [|i]; simpl.
      * split.
        -- destruct (indexOf l x); discriminate.
        -- intros [[= ?] _]. congruence.
      * specialize (IH i). split.
        -- intros H. destruct (indexOf l x) as [i'|]; simplify_eq/=.
           destruct IH as [IH _]. destruct (IH eq_refl) as [H1 H2].
           split; [done|]. intros [|k] Hk; simpl; [congruence|].
           apply H2. lia.
        -- intros [H1 H2]. destruct IH as [_ IH]. rewrite IH; [done|].
           split; [done|]. intros k Hk. apply (H2 (S k)). lia.
Qed.

Lemma slice_lookup (l : list string) (i j k : nat) :
  slice l i (j + 1) !! k = if decide (i + k <= j) then l !! (i + k) else None.
Proof.
  unfold slice. destruct (decide (i + k <= j)) as [H|H].
  - rewrite lookup_take_lt by lia. by rewrite lookup_drop.
  - apply lookup_take_ge. lia.
Qed.

Lemma someEntry_spec (sheetData : list StudentSheetData) (date : string) :
  existsb (fun s => hasEntry s date) sheetData = true
  ↔ ∃ s, s ∈ sheetData ∧ is_Some (grades s !! date).
Proof.
  rewrite existsb_exists. split.
  - intros (s & Hin & Hs). exists s. split; [by apply list_elem_of_In|].
    unfold hasEntry in Hs. by destruct (grades s !! date).
  - intros (s & Hin & [a Ha]). exists s. split; [by apply list_elem_of_In|].
    unfold hasEntry. by rewrite Ha.
Qed.

(** C8: the selection of the date range fails exactly when the start or the
    end date is absent from the date axis or the first position of the start
    lies after the first position of the end, and the analysis then stops
    without results; otherwise it returns the dates at positions
    [index(start) .. index(end)], both included, restricted to the dates for
    which at least one student record has an entry. *)
Theorem select_range_spec (sheetData : list StudentSheetData)
    (allDates : list string) (startDate endDate : string) :
  (selectRange sheetData allDates startDate endDate = None
   ↔ startDate ∉ allDates ∨ endDate ∉ allDates
     ∨ ∃ i j, indexOf allDates startDate = Some i
              ∧ indexOf allDates endDate = Some j ∧ j < i)
  ∧ (selectRange sheetData allDates startDate endDate = None →
     ∃ e, performAnalysis sheetData allDates startDate endDate = inl e)
  ∧ (sheetData ≠ [] → startDate ≠ "" → endDate ≠ "" →
     (performAnalysis sheetData allDates startDate endDate = inl InvalidRange
      ↔ selectRange sheetData allDates startDate endDate = None))
  ∧ (∀ i j,
       indexOf allDates startDate = Some i →
       indexOf allDates endDate = Some j →
       i <= j →
       selectRange sheetData allDates startDate endDate
       = Some (List.filter
                 (fun date => bool_decide
                                (Exists (fun s => is_Some (grades s !! date))
                                        sheetData))
                 (slice allDates i (j + 1)))
       ∧ ∀ k, slice allDates i (j + 1) !! k
              = if decide (i + k <= j) then allDates !! (i + k) else None)
  ∧ (∀ x i, indexOf allDates x = Some i
            ↔ allDates !! i = Some x ∧ ∀ k, k < i → allDates !! k ≠ Some x).
Proof.
  split; [|split; [|split; [|split]]].
  - unfold selectRange. rewrite <- !indexOf_None.
    destruct (indexOf allDates startDate) as [i|]; [|by split; auto].
    destruct (indexOf allDates endDate) as [j|]; [|by split; auto].
    destruct (Nat.ltb_spec j i) as [H|H].
    + split; [|done]. intros _. right; right. by exists i, j.
    + split; [discriminate|].
      intros [?|[?|(i' & j' & ? & ? & ?)]]; simplify_eq. lia.
  - unfold performAnalysis. intros ->.
    destruct ((length sheetData =? 0)%nat || String.eqb startDate ""
              || String.eqb endDate ""); eauto.
  - intros Hs Hstart Hend. unfold performAnalysis.
    destruct sheetData as [|s l]; [done|]. simpl.
    destruct (String.eqb_spec startDate "") as [?|_]; [done|].
    destruct (String.eqb_spec endDate "") as [?|_]; [done|]. simpl.
    destruct (selectRange (s :: l) allDates startDate endDate); split; done.
  - intros i j Hi Hj Hij. split; [|intros k; apply slice_lookup].
    unfold selectRange. rewrite Hi, Hj.
    destruct (Nat.ltb_spec j i) as [H|H]; [lia|].
    f_equal. apply filter_ext. intros date.
    destruct (existsb (fun s => hasEntry s date) sheetData) eqn:E.
    + symmetry. apply bool_decide_eq_true, Exists_exists.
      by apply someEntry_spec.
    + symmetry. apply bool_decide_eq_false. intros C.
      apply Exists_exists, someEntry_spec in C. congruence.
  - intros x i. apply indexOf_Some.
Qed.

(** ** Sheet ingestion *)

Lemma fold_left_pointwise {A B : Type} (f g : A → B → A) (l : list B) (a : A) :
  (∀ x y, f x y = g x y) → fold_left f l a = fold_left g l a.
Proof.
  intros H. revert a. induction l as [|y l IH]; intros a; simpl; [done|].
  by rewrite H, IH.
Qed.

Section FoldInsert.

Context {V : Type}.
Variables (key : nat → string) (val : nat → V).

(** After a run of assignments [m[key j] = val j], a key holds the value of
    the last assignment made to it. *)
Lemma fold_insert_lookup (l : list nat) (m : gmap string V) (d : string) :
  fold_left (fun m j => <[key j := val j]> m) l m !! d
  = match last (List.filter (fun j => String.eqb (key j) d) l) with
    | Some j => Some (val j)
    | None => m !! d
    end.
Proof.
  revert m. induction l as [|j l IH]; intros m; simpl; [done|].
  rewrite IH. destruct (String.eqb_spec (key j) d) as [E|E].
  - rewrite last_cons.
    destruct (last (List.filter (fun j => String.eqb (key j) d) l)); [done|].
    rewrite E. apply lookup_insert_eq.
  - destruct (last (List.filter (fun j => String.eqb (key j) d) l)); [done|].
    by apply lookup_insert_ne.
Qed.

(** The same when every assignment is guarded by a test of its key. *)
Lemma fold_guarded_insert_lookup (guard : string → bool) (l : list nat)
    (m : gmap string V) (d : string) :
  fold_left (fun m j => if guard (key j) then <[key j := val j]> m else m) l m !! d
  = match last (List.filter (fun j => String.eqb (key j) d) l) with
    | Some j => if guard d then Some (val j) else m !! d
    | None => m !! d
    end.
Proof.
  revert m. induction l as [|j l IH]; intros m; simpl; [done|].
  rewrite IH. destruct (String.eqb_spec (key j) d) as [E|E].
  - rewrite last_cons, E.
    destruct (last (List.filter (fun j => String.eqb (key j) d) l));
      destruct (guard d); try done.
    apply lookup_insert_eq.
  - destruct (last (List.filter (fun j => String.eqb (key j) d) l)) as [j'|].
    + destruct (guard d); [done|].
      destruct (guard (key j)); [by apply lookup_insert_ne|done].
    + destruct (guard (key j)); [by apply lookup_insert_ne|done].
Qed.

End FoldInsert.

Section IngestionFacts.

Variable jsonSheet : list (list string).

Lemma validActivityColumns_lookup (d : string) :
  validActivityColumns jsonSheet !! d
  = hasValidGrade jsonSheet <$> lastColumnOf jsonSheet d.
Proof.
  unfold validActivityColumns, lastColumnOf.
  rewrite fold_insert_lookup.
  by destruct (last _).
Qed.

Lemma studentGrades_lookup (row : list string) (d : string) :
  studentGrades jsonSheet row !! d
  = match lastColumnOf jsonSheet d with
    | Some j =>
        if hasValidGrade jsonSheet j
        then Some {| topic := cellText (topics jsonSheet) j; grade := cellText row j |}
        else None
    | None => None
    end.
Proof.
  unfold studentGrades.
  pose (guard := fun date =>
          match validActivityColumns jsonSheet !! date with
          | Some true => true
          | _ => false
          end).
  rewrite (fold_left_pointwise _
             (fun sg j => if guard (dateOfColumn jsonSheet j)
                          then <[dateOfColumn jsonSheet j :=
                                   {| topic := cellText (topics jsonSheet) j;
                                      grade := cellText row j |}]> sg
                          else sg)).
  2:{ intros sg j. unfold guard.
      by destruct (validActivityColumns jsonSheet !! dateOfColumn jsonSheet j)
        as [[]|]. }
  rewrite fold_guarded_insert_lookup. fold (lastColumnOf jsonSheet d).
  unfold guard. rewrite validActivityColumns_lookup.
  destruct (lastColumnOf jsonSheet d) as [j|]; simpl; [|done].
  by destruct (hasValidGrade jsonSheet j).
Qed.

Lemma studentGrades_flagged (row : list string) (d : string) :
  is_Some (studentGrades jsonSheet row !! d)
  ↔ validActivityColumns jsonSheet !! d = Some true.
Proof.
  rewrite studentGrades_lookup, validActivityColumns_lookup.
  destruct (lastColumnOf jsonSheet d) as [j|]; simpl.
  - destruct (hasValidGrade jsonSheet j); split; try done; by intros [? ?].
  - split; [by intros [? ?]|done].
Qed.

Lemma isValidGrade_spec (g : string) :
  isValidGrade g = true
  ↔ convertGradeToNumeric g ≠ None ∨ isQualitativeGrade g = true.
Proof.
  unfold isValidGrade. rewrite orb_true_iff.
  destruct (convertGradeToNumeric g); split; intros [?|?]; auto; done.
Qed.

Lemma hasValidGrade_spec (j : nat) :
  hasValidGrade jsonSheet j = true ↔ someInterpretableCell jsonSheet j.
Proof.
  unfold hasValidGrade, someInterpretableCell, studentRows.
  rewrite existsb_exists. split.
  - intros (row & Hin & Hv). apply list_elem_of_In, list_elem_of_lookup in Hin.
    destruct Hin as [k Hk]. rewrite lookup_drop in Hk.
    exists (2 + k), row. split; [lia|]. split; [done|].
    by apply isValidGrade_spec.
  - intros (i & row & Hi & Hrow & Hv). exists row. split.
    + apply list_elem_of_In, list_elem_of_lookup. exists (i - 2).
      rewrite lookup_drop. by replace (2 + (i - 2)) with i by lia.
    + by apply isValidGrade_spec.
Qed.

Lemma studentRecords_elem (rec : StudentSheetData) :
  rec ∈ studentRecords jsonSheet
  ↔ ∃ row, row ∈ studentRows jsonSheet ∧ cellText row 0 ≠ ""
           ∧ rec = {| studentName := cellText row 0;
                      grades := studentGrades jsonSheet row |}.
Proof.
  unfold studentRecords. rewrite list_elem_of_In, in_flat_map. split.
  - intros (row & Hin & Hrec). exists row.
    destruct (String.eqb_spec (cellText row 0) "") as [E|E]; [done|].
    apply list_elem_of_In in Hin. destruct Hrec as [<-|[]]. done.
  - intros (row & Hin & Hne & ->). exists row.
    split; [by apply list_elem_of_In|].
    destruct (String.eqb_spec (cellText row 0) "") as [E|E]; [done|].
    by left.
Qed.

End IngestionFacts.

Lemma filter_unique (p : nat → bool) (l : list nat) (j : nat) :
  NoDup l → j ∈ l → p j = true → (∀ x, x ∈ l → p x = true → x = j) →
  List.filter p l = [j].
Proof.
  induction 1 as [|x l Hx Hnd IH]; intros Hin Hj Huniq.
  - by apply elem_of_nil in Hin.
  - simpl. destruct (decide (x = j)) as [->|Hne].
    + rewrite Hj. f_equal.
      assert (Hall : Forall (fun y => p y = false) l).
      { apply Forall_forall. intros y Hy.
        destruct (p y) eqn:Hp; [|done].
        assert (y = j) by (apply Huniq; [by right|done]). by subst. }
      clear -Hall. induction Hall as [|y l Hy _ IH]; simpl; [done|].
      by rewrite Hy.
    + destruct (p x) eqn:Hp.
      * exfalso. apply Hne, Huniq; [by left|done].
      * apply IH; [|done|].
        -- apply elem_of_cons in Hin as [?|?]; [congruence|done].
        -- intros y Hy. apply Huniq. by right.
Qed.

Lemma lastColumnOf_distinct (jsonSheet : list (list string)) (j : nat) :
  NoDup (dates jsonSheet) → j ∈ columns jsonSheet →
  lastColumnOf jsonSheet (dateOfColumn jsonSheet j) = Some j.
Proof.
  intros Hnd Hj. unfold lastColumnOf.
  assert (Hlen : length (dates jsonSheet) = length (headers jsonSheet) - 1).
  { unfold dates. by rewrite length_map, length_drop. }
  assert (Hrange : ∀ x, x ∈ columns jsonSheet →
                        1 <= x ∧ x - 1 < length (dates jsonSheet)).
  { intros x Hx. apply list_elem_of_In, in_seq in Hx. lia. }
  rewrite (filter_unique _ _ j); [done|apply NoDup_seq|done|apply String.eqb_refl|].
  intros x Hx Heq. apply String.eqb_eq in Heq. unfold dateOfColumn in Heq.
  destruct (Hrange x Hx), (Hrange j Hj).
  assert (x - 1 = j - 1); [|lia].
  apply NoDup_ListNoDup in Hnd.
  by apply (proj1 (NoDup_nth (dates jsonSheet) "") Hnd).
Qed.

(** C7, as stated, fails: with two columns labelled with the same date, a
    grade in the first one only leaves that column flagged inactive. *)
Lemma classifier_same_date :
  columns sheetSameDate = [1; 2]
  ∧ someInterpretableCell sheetSameDate 1
  ∧ validActivityColumns sheetSameDate !! dateOfColumn sheetSameDate 1 = Some false
  ∧ ¬ (∀ jsonSheet j,
         j ∈ columns jsonSheet →
         (validActivityColumns jsonSheet !! dateOfColumn jsonSheet j = Some true
          ↔ someInterpretableCell jsonSheet j)).
Proof.
  assert (H1 : someInterpretableCell sheetSameDate 1).
  { exists 2, ["Ana"; "7"; ""]. split; [lia|]. split; [reflexivity|].
    left. by vm_compute. }
  split; [reflexivity|]. split; [exact H1|]. split; [vm_compute; reflexivity|].
  intros H. specialize (H sheetSameDate 1).
  destruct H as [_ H]; [by left|]. specialize (H H1).
  vm_compute in H. discriminate.
Qed.

(** C7, amended: a date label is flagged active exactly when the last
    column carrying that label has, in some row of index at least 2, a
    trimmed cell that normalises to a number or is a qualitative code; when
    the date labels are pairwise distinct this holds column by column. A
    label that is not flagged active has no entry in any student record.
    A column with cells "", "", "7", "" is active; one with "x", "", "--", ""
    is inactive and absent from every record. *)
Theorem classifier_spec :
  (∀ jsonSheet,
     (∀ d, validActivityColumns jsonSheet !! d
           = hasValidGrade jsonSheet <$> lastColumnOf jsonSheet d)
     ∧ (∀ j, hasValidGrade jsonSheet j = true ↔ someInterpretableCell jsonSheet j)
     ∧ (NoDup (dates jsonSheet) →
        ∀ j, j ∈ columns jsonSheet →
             (validActivityColumns jsonSheet !! dateOfColumn jsonSheet j = Some true
              ↔ someInterpretableCell jsonSheet j))
     ∧ (∀ d rec,
          validActivityColumns jsonSheet !! d ≠ Some true →
          rec ∈ studentRecords jsonSheet →
          grades rec !! d = None))
  ∧ (validActivityColumns sheetFour !! "D1" = Some true
     ∧ validActivityColumns sheetFour !! "D2" = Some false
     ∧ map (fun rec => (studentName rec, grade <$> grades rec !! "D1",
                        grades rec !! "D2"))
           (studentRecords sheetFour)
       = [ ("Ana", Some "", None); ("Beto", Some "", None);
           ("Caro", Some "7", None); ("Dani", Some "", None) ]).
Proof.
  split.
  - intros jsonSheet. split; [|split; [|split]].
    + apply validActivityColumns_lookup.
    + apply hasValidGrade_spec.
    + intros Hnd j Hj.
      rewrite validActivityColumns_lookup, (lastColumnOf_distinct _ _ Hnd Hj).
      simpl. rewrite <- hasValidGrade_spec.
      split; [by intros [= ->]|by intros ->].
    + intros d rec Hflag Hrec.
      apply studentRecords_elem in Hrec as (row & _ & _ & ->). simpl.
      destruct (studentGrades jsonSheet row !! d) as [e|] eqn:E; [|done].
      exfalso. apply Hflag. apply (studentGrades_flagged jsonSheet row d).
      by rewrite E.
  - repeat split; vm_compute; reflexivity.
Qed.

Lemma classifier_witness :
  NoDup (dates sheetFour) ∧ 1 ∈ columns sheetFour
  ∧ (validActivityColumns sheetFour !! dateOfColumn sheetFour 1 = Some true
     ↔ someInterpretableCell sheetFour 1).
Proof.
  assert (Hnd : NoDup (dates sheetFour)).
  { apply NoDup_ListNoDup. repeat constructor; simpl; intuition discriminate. }
  assert (H1 : 1 ∈ columns sheetFour) by (by left).
  split; [exact Hnd|]. split; [exact H1|].
  exact (proj1 (proj2 (proj2 (proj1 classifier_spec sheetFour))) Hnd 1 H1).
Defined.

(** C2, as stated, fails: the record of a student holds an entry with an
    empty grade for an active date whose cell is empty in the student's
    row. *)
Lemma ingestion_keeps_empty_cells :
  ∃ recs ds rec e,
    processXLSXSheetData sheetAnaBeto = Some (recs, ds)
    ∧ rec ∈ recs
    ∧ studentName rec = "Beto"
    ∧ cellText ["Beto"; ""; "7"] 1 = ""
    ∧ grades rec !! "D1" = Some e
    ∧ grade e = ""
    ∧ ¬ (∀ jsonSheet recs ds rec d e,
           processXLSXSheetData jsonSheet = Some (recs, ds) →
           rec ∈ recs → grades rec !! d = Some e → grade e ≠ "").
Proof.
  set (rec := {| studentName := "Beto";
                 grades := studentGrades sheetAnaBeto ["Beto"; ""; "7"] |}).
  assert (Hin : rec ∈ studentRecords sheetAnaBeto).
  { apply studentRecords_elem. exists ["Beto"; ""; "7"].
    split; [|split; [by vm_compute|reflexivity]].
    apply list_elem_of_In. right. left. reflexivity. }
  assert (Hd : grades rec !! "D1" = Some (entry "T1" ""))
    by (vm_compute; reflexivity).
  exists (studentRecords sheetAnaBeto), (dates sheetAnaBeto), rec, (entry "T1" "").
  split; [reflexivity|]. split; [exact Hin|]. split; [reflexivity|].
  split; [reflexivity|]. split; [exact Hd|]. split; [reflexivity|].
  intros H.
  by apply (H sheetAnaBeto _ _ rec "D1" (entry "T1" "") eq_refl Hin Hd).
Qed.

(** C2, amended: for every grid accepted by ingestion and every record it
    produces, the record comes from a row with a non-empty name, and its
    grades mapping has an entry for a date exactly when that date label is
    flagged active; the entry holds the topic and the trimmed cell, empty or
    not, of the last column that carries the label. *)
Theorem ingestion_spec (jsonSheet : list (list string))
    (recs : list StudentSheetData) (ds : list string) :
  processXLSXSheetData jsonSheet = Some (recs, ds) →
  3 <= length jsonSheet
  ∧ ds = dates jsonSheet
  ∧ ∀ rec, rec ∈ recs →
      ∃ row, row ∈ studentRows jsonSheet
        ∧ studentName rec = cellText row 0
        ∧ studentName rec ≠ ""
        ∧ ∀ d,
            (is_Some (grades rec !! d)
             ↔ validActivityColumns jsonSheet !! d = Some true)
            ∧ grades rec !! d
              = match lastColumnOf jsonSheet d with
                | Some j =>
                    if hasValidGrade jsonSheet j
                    then Some {| topic := cellText (topics jsonSheet) j;
                                 grade := cellText row j |}
                    else None
                | None => None
                end.
Proof.
  unfold processXLSXSheetData.
  destruct (Nat.ltb_spec (length jsonSheet) 3) as [?|Hlen]; [discriminate|].
  intros [= <- <-]. split; [done|]. split; [done|].
  intros rec Hrec. apply studentRecords_elem in Hrec as (row & Hin & Hne & ->).
  exists row. simpl. repeat split; try done.
  - by apply studentGrades_flagged.
  - by apply studentGrades_flagged.
  - apply studentGrades_lookup.
Qed.

Lemma ingestion_witness :
  processXLSXSheetData sheetAnaBeto
  = Some (studentRecords sheetAnaBeto, dates sheetAnaBeto)
  ∧ 3 <= length sheetAnaBeto
  ∧ ∀ rec, rec ∈ studentRecords sheetAnaBeto →
      ∀ d, is_Some (grades rec !! d)
           ↔ validActivityColumns sheetAnaBeto !! d = Some true.
Proof.
  split; [reflexivity|].
  destruct (ingestion_spec sheetAnaBeto _ _ eq_refl) as (Hlen & _ & Hrec).
  split; [exact Hlen|].
  intros rec Hin d. destruct (Hrec rec Hin) as (row & _ & _ & _ & Hd).
  exact (proj1 (Hd d)).
Defined.

(** ** Numeric prefixes downstream *)

Lemma pending_convert_same (g : string) :
  StudentPendingActivities.convertGradeToNumeric g = convertGradeToNumeric g.
Proof. reflexivity. Qed.

Lemma pendingActivities_elem (sheetData : list StudentSheetData)
    (allDates : list string) (startDate endDate selected : string)
    (item : StudentPendingActivities.PendingActivityDetail) :
  item ∈ StudentPendingActivities.pendingActivities
           sheetData allDates startDate endDate selected →
  ∃ s, List.find (fun s => String.eqb (studentName s) selected) sheetData = Some s
       ∧ StudentPendingActivities.pendingOf
           s (StudentPendingActivities.pdDate item) = Some item.
Proof.
  unfold StudentPendingActivities.pendingActivities.
  destruct (String.eqb selected "" || (length sheetData =? 0)%nat
            || String.eqb startDate "" || String.eqb endDate "");
    [by intros ?%elem_of_nil|].
  destruct (List.find _ sheetData) as [s|]; [|by intros ?%elem_of_nil].
  destruct (indexOf allDates startDate) as [i|]; [|by intros ?%elem_of_nil].
  destruct (indexOf allDates endDate) as [j|]; [|by intros ?%elem_of_nil].
  destruct (j <? i)%nat; [by intros ?%elem_of_nil|].
  intros H. apply list_elem_of_omap in H as (date & _ & Hp).
  exists s. split; [done|].
  assert (E : StudentPendingActivities.pdDate item = date).
  { unfold StudentPendingActivities.pendingOf in Hp.
    destruct (grades s !! date) as [a|]; [|discriminate].
    destruct (StudentPendingActivities.convertGradeToNumeric (grade a));
      [discriminate|].
    destruct (negb _); [|discriminate]. by injection Hp as <-. }
  by rewrite E.
Qed.



Lemma normalize_values_witness :
  isQualitativeGrade "85" = false
  ∧ Js.parseFloat (Js.toUpperCase "85") = Some (num 85)
  ∧ convertGradeToNumeric "85"
    = Some (if decide (num 10 < num 85)%Qc
            then (num 85 / num 100 * num 10)%Qc else num 85).
Proof.
  assert (Hp : Js.parseFloat (Js.toUpperCase "85") = Some (num 85)) by qc_compute.
  split; [reflexivity|]. split; [exact Hp|].
  destruct normalize_values as (_ & _ & _ & _ & _ & _ & _ & _ & _ & _ & _ & H).
  exact (H "85" (num 85) eq_refl Hp).
Defined.

Lemma select_range_witness :
  indexOf ["D1"; "D2"; "D3"] "D2" = Some 1
  ∧ indexOf ["D1"; "D2"; "D3"] "D3" = Some 2
  ∧ 1 <= 2
  ∧ selectRange [ana] ["D1"; "D2"; "D3"] "D2" "D3"
    = Some (List.filter
              (fun date => bool_decide
                             (Exists (fun s => is_Some (grades s !! date)) [ana]))
              (slice ["D1"; "D2"; "D3"] 1 (2 + 1))).
Proof.
  split; [reflexivity|]. split; [reflexivity|]. split; [lia|].
  destruct (select_range_spec [ana] ["D1"; "D2"; "D3"] "D2" "D3")
    as (_ & _ & _ & H & _).
  exact (proj1 (H 1 2 eq_refl eq_refl (le_S _ _ (le_n 1)))).
Defined.

(** * Further properties of the code *)

(** ** Trimming *)

Lemma trimStart_head (s : string) : headNotSpace (Js.trimStart s).
Proof.
  induction s as [|c r IH]; simpl; [done|].
  destruct (Js.isWhiteSpace c) eqn:E; [exact IH|exact E].
Qed.

Lemma trimStart_id (s : string) : headNotSpace s → Js.trimStart s = s.
Proof. destruct s as [|c r]; simpl; [done|]. by intros ->. Qed.

Lemma trimEnd_head (s : string) : headNotSpace s → headNotSpace (Js.trimEnd s).
Proof.
  destruct s as [|c r]; simpl; [done|]. intros H.
  destruct (Js.trimEnd r); [by rewrite H|done].
Qed.

Lemma trimEnd_idem (s : string) : Js.trimEnd (Js.trimEnd s) = Js.trimEnd s.
Proof.
  induction s as [|c r IH]; simpl; [done|].
  destruct (Js.trimEnd r) as [|c' r'] eqn:E.
  - destruct (Js.isWhiteSpace c) eqn:Hc; simpl; [done|by rewrite Hc].
  - change (Js.trimEnd (String c (String c' r')))
      with (match Js.trimEnd (String c' r') with
            | EmptyString =>
                if Js.isWhiteSpace c then EmptyString else String c EmptyString
            | x => String c x
            end).
    by rewrite IH.
Qed.

Lemma trim_idem (s : string) : Js.trim (Js.trim s) = Js.trim s.
Proof.
  unfold Js.trim.
  rewrite (trimStart_id (Js.trimEnd (Js.trimStart s))).
  - apply trimEnd_idem.
  - apply trimEnd_head, trimStart_head.
Qed.

Lemma cellText_trimmed (row : list string) (j : nat) : trimmed (cellText row j).
Proof.
  unfold trimmed, cellText. destruct (row !! j) as [c|]; [|done].
  destruct (String.eqb c ""); [done|apply trim_idem].
Qed.

(** ** Ingestion: names, trimming and the shape of the records *)

Lemma lastColumnOf_Some (jsonSheet : list (list string)) (d : string) (j : nat) :
  lastColumnOf jsonSheet d = Some j →
  j ∈ columns jsonSheet ∧ dateOfColumn jsonSheet j = d.
Proof.
  unfold lastColumnOf. intros H. apply last_Some in H as [l' H].
  assert (Hin : In j (List.filter
                        (fun j => String.eqb (dateOfColumn jsonSheet j) d)
                        (columns jsonSheet))).
  { rewrite H. apply in_or_app. right. by left. }
  apply filter_In in Hin as [Hin Heq].
  split; [by apply list_elem_of_In|by apply String.eqb_eq].
Qed.

Lemma dates_length (jsonSheet : list (list string)) :
  length (dates jsonSheet) = length (headers jsonSheet) - 1.
Proof. unfold dates. by rewrite length_map, length_drop. Qed.

Lemma dateOfColumn_in (jsonSheet : list (list string)) (j : nat) :
  j ∈ columns jsonSheet → dateOfColumn jsonSheet j ∈ dates jsonSheet.
Proof.
  intros Hj. apply list_elem_of_In, in_seq in Hj.
  apply list_elem_of_In, nth_In. rewrite dates_length. lia.
Qed.

Lemma dates_trimmed (jsonSheet : list (list string)) (d : string) :
  d ∈ dates jsonSheet → trimmed d.
Proof.
  unfold dates. intros (h & -> & _)%list_elem_of_fmap. apply trim_idem.
Qed.

Lemma processXLSXSheetData_Some (jsonSheet : list (list string))
    (recs : list StudentSheetData) (ds : list string) :
  processXLSXSheetData jsonSheet = Some (recs, ds) →
  3 <= length jsonSheet ∧ recs = studentRecords jsonSheet ∧ ds = dates jsonSheet.
Proof.
  unfold processXLSXSheetData.
  destruct (Nat.ltb_spec (length jsonSheet) 3); [discriminate|].
  by intros [= <- <-].
Qed.

Lemma studentRecords_names (jsonSheet : list (list string)) :
  map studentName (studentRecords jsonSheet)
  = List.filter (fun n => negb (String.eqb n ""))
                (map nameOfRow (studentRows jsonSheet)).
Proof.
  unfold studentRecords, nameOfRow.
  induction (studentRows jsonSheet) as [|row rows IH]; simpl; [done|].
  destruct (String.eqb (cellText row 0) ""); simpl; by rewrite IH.
Qed.

(** X1: the records follow the student rows in order, one for each row
    whose trimmed name cell is not empty; rows without a name are skipped. *)
Theorem ingestion_row_filter (jsonSheet : list (list string))
    (recs : list StudentSheetData) (ds : list string) :
  processXLSXSheetData jsonSheet = Some (recs, ds) →
  map studentName recs
  = List.filter (fun n => negb (String.eqb n ""))
                (map nameOfRow (drop 2 jsonSheet))
  ∧ length recs
    = length (List.filter (fun row => negb (String.eqb (nameOfRow row) ""))
                          (drop 2 jsonSheet))
  ∧ length recs <= length jsonSheet - 2
  ∧ length ds = length (nth 0 jsonSheet []) - 1.
Proof.
  intros (Hlen & -> & ->)%processXLSXSheetData_Some.
  pose proof (studentRecords_names jsonSheet) as Hn.
  assert (Hl : length (studentRecords jsonSheet)
               = length (List.filter
                           (fun row => negb (String.eqb (nameOfRow row) ""))
                           (drop 2 jsonSheet))).
  { rewrite <- (length_map studentName), Hn. unfold studentRows.
    induction (drop 2 jsonSheet) as [|row rows IH]; simpl; [done|].
    destruct (String.eqb (nameOfRow row) ""); simpl; by rewrite IH. }
  split; [exact Hn|]. split; [exact Hl|]. split; [|apply dates_length].
  rewrite Hl. etrans; [apply filter_length_le|]. by rewrite length_drop.
Qed.

Lemma ingestion_row_filter_witness :
  processXLSXSheetData sheetFour
  = Some (studentRecords sheetFour, dates sheetFour)
  ∧ length (studentRecords sheetFour) <= length sheetFour - 2.
Proof.
  split; [reflexivity|].
  exact (proj1 (proj2 (proj2 (ingestion_row_filter sheetFour _ _ eq_refl)))).
Defined.

(** X2: everything ingestion stores is trimmed: trimming again changes
    neither a date label, a student name, a topic nor a raw grade. *)
Theorem ingestion_trimmed (jsonSheet : list (list string))
    (recs : list StudentSheetData) (ds : list string) :
  processXLSXSheetData jsonSheet = Some (recs, ds) →
  Forall (fun d => Js.trim d = d) ds
  ∧ ∀ rec, rec ∈ recs →
      Js.trim (studentName rec) = studentName rec
      ∧ ∀ d e, grades rec !! d = Some e →
          Js.trim d = d ∧ Js.trim (topic e) = topic e
          ∧ Js.trim (grade e) = grade e.
Proof.
  intros (_ & -> & ->)%processXLSXSheetData_Some. split.
  - apply Forall_forall. intros d Hd. by apply (dates_trimmed jsonSheet).
  - intros rec (row & _ & _ & ->)%studentRecords_elem. simpl.
    split; [apply cellText_trimmed|].
    intros d e He. rewrite studentGrades_lookup in He.
    destruct (lastColumnOf jsonSheet d) as [j|] eqn:Hj; [|discriminate].
    destruct (hasValidGrade jsonSheet j); [|discriminate].
    injection He as <-. simpl.
    apply lastColumnOf_Some in Hj as [Hin <-].
    split; [|split; apply cellText_trimmed].
    by apply (dates_trimmed jsonSheet), dateOfColumn_in.
Qed.

Lemma ingestion_trimmed_witness :
  processXLSXSheetData sheetAnaBeto
  = Some (studentRecords sheetAnaBeto, dates sheetAnaBeto)
  ∧ Forall (fun d => Js.trim d = d) (dates sheetAnaBeto).
Proof.
  split; [reflexivity|].
  exact (proj1 (ingestion_trimmed sheetAnaBeto _ _ eq_refl)).
Defined.

Lemma ingestion_uniform_aux (jsonSheet : list (list string))
    (recs : list StudentSheetData) (ds : list string) :
  processXLSXSheetData jsonSheet = Some (recs, ds) →
  ∀ r1 r2, r1 ∈ recs → r2 ∈ recs →
    ∀ d, is_Some (grades r1 !! d) → is_Some (grades r2 !! d).
Proof.
  intros (_ & -> & ->)%processXLSXSheetData_Some.
  intros r1 r2 (row1 & _ & _ & ->)%studentRecords_elem
         (row2 & _ & _ & ->)%studentRecords_elem d. simpl.
  by rewrite !studentGrades_flagged.
Qed.

(** X3: all records of one ingestion have entries for the same dates, every
    such date is a label of the date axis, and the topic stored for a date is
    the same in every record. *)
Theorem ingestion_uniform (jsonSheet : list (list string))
    (recs : list StudentSheetData) (ds : list string) :
  processXLSXSheetData jsonSheet = Some (recs, ds) →
  ∀ r1 r2, r1 ∈ recs → r2 ∈ recs →
    ∀ d, (is_Some (grades r1 !! d) ↔ is_Some (grades r2 !! d))
         ∧ (is_Some (grades r1 !! d) → d ∈ ds)
         ∧ (∀ e1 e2, grades r1 !! d = Some e1 → grades r2 !! d = Some e2 →
                     topic e1 = topic e2).
Proof.
  intros (_ & -> & ->)%processXLSXSheetData_Some.
  intros r1 r2 (row1 & _ & _ & ->)%studentRecords_elem
         (row2 & _ & _ & ->)%studentRecords_elem d. simpl.
  split; [by rewrite !studentGrades_flagged|]. split.
  - intros [e He]. rewrite studentGrades_lookup in He.
    destruct (lastColumnOf jsonSheet d) as [j|] eqn:Hj; [|discriminate].
    apply lastColumnOf_Some in Hj as [Hin <-]. by apply dateOfColumn_in.
  - intros e1 e2. rewrite !studentGrades_lookup.
    destruct (lastColumnOf jsonSheet d) as [j|]; [|discriminate].
    destruct (hasValidGrade jsonSheet j); [|discriminate].
    by intros [= <-] [= <-].
Qed.

Lemma ingestion_uniform_witness :
  processXLSXSheetData sheetAnaBeto
  = Some (studentRecords sheetAnaBeto, dates sheetAnaBeto)
  ∧ ∀ r1 r2, r1 ∈ studentRecords sheetAnaBeto →
             r2 ∈ studentRecords sheetAnaBeto →
      ∀ d, is_Some (grades r1 !! d) ↔ is_Some (grades r2 !! d).
Proof.
  split; [reflexivity|]. intros r1 r2 H1 H2 d.
  exact (proj1 (ingestion_uniform sheetAnaBeto _ _ eq_refl r1 r2 H1 H2 d)).
Defined.

(** ** Ingested records under a date range *)

Lemma selectRange_Some (sheetData : list StudentSheetData)
    (allDates : list string) (startDate endDate : string) (rel : list string) :
  selectRange sheetData allDates startDate endDate = Some rel →
  ∃ i j, indexOf allDates startDate = Some i
         ∧ indexOf allDates endDate = Some j ∧ i <= j
         ∧ rel = List.filter
                   (fun date => existsb (fun s => hasEntry s date) sheetData)
                   (slice allDates i (j + 1)).
Proof.
  unfold selectRange.
  destruct (indexOf allDates startDate) as [i|]; [|discriminate].
  destruct (indexOf allDates endDate) as [j|]; [|discriminate].
  destruct (Nat.ltb_spec j i); [discriminate|].
  intros [= <-]. by exists i, j.
Qed.

Lemma selectRange_someEntry (sheetData : list StudentSheetData)
    (allDates : list string) (startDate endDate : string) (rel : list string) :
  selectRange sheetData allDates startDate endDate = Some rel →
  Forall (fun d => ∃ s, s ∈ sheetData ∧ is_Some (grades s !! d)) rel.
Proof.
  intros (i & j & _ & _ & _ & ->)%selectRange_Some.
  apply Forall_forall. intros d Hd.
  apply list_elem_of_In, filter_In in Hd as [_ Hd]. by apply someEntry_spec.
Qed.

Lemma filter_all {A : Type} (p : A → bool) (l : list A) :
  Forall (fun x => p x = true) l → List.filter p l = l.
Proof. induction 1 as [|x l Hx _ IH]; simpl; [done|]. by rewrite Hx, IH. Qed.

(** X4: over records produced by ingestion, every student has an entry on
    every relevant date of a selected range, so the activity count, the
    denominator of the projected average, is the number of relevant dates for
    every student alike. *)
Theorem ingested_activity_count (jsonSheet : list (list string))
    (recs : list StudentSheetData) (ds rel : list string)
    (startDate endDate : string) :
  processXLSXSheetData jsonSheet = Some (recs, ds) →
  selectRange recs ds startDate endDate = Some rel →
  ∀ rec c, rec ∈ recs →
    Forall (fun d => is_Some (grades rec !! d)) rel
    ∧ studentActivitiesCount (dateLoop rel rec c) = length rel
    ∧ length (currentStudentChartData (dateLoop rel rec c)) = length rel.
Proof.
  intros Hp Hsel rec c Hrec.
  assert (Hall : Forall (fun d => is_Some (grades rec !! d)) rel).
  { apply selectRange_someEntry in Hsel.
    eapply Forall_impl; [exact Hsel|]. intros d (s & Hs & Hd).
    by apply (ingestion_uniform_aux jsonSheet recs ds Hp s rec Hs Hrec d). }
  split; [exact Hall|].
  destruct (dateLoop_fields rel rec c) as (_ & _ & E3 & E4).
  rewrite E3, E4. unfold timeSeries. rewrite length_map.
  fold (activitiesCount rel rec). rewrite activitiesCount_hasEntry.
  rewrite filter_all; [done|].
  eapply Forall_impl; [exact Hall|]. intros d [e He]. unfold hasEntry.
  by rewrite He.
Qed.

Lemma ingested_activity_count_witness :
  processXLSXSheetData sheetAnaBeto
  = Some (studentRecords sheetAnaBeto, dates sheetAnaBeto)
  ∧ selectRange (studentRecords sheetAnaBeto) (dates sheetAnaBeto) "D1" "D2"
    = Some ["D1"; "D2"]
  ∧ ∀ rec c, rec ∈ studentRecords sheetAnaBeto →
      Forall (fun d => is_Some (grades rec !! d)) ["D1"; "D2"]
      ∧ studentActivitiesCount (dateLoop ["D1"; "D2"] rec c) = 2
      ∧ length (currentStudentChartData (dateLoop ["D1"; "D2"] rec c)) = 2.
Proof.
  split; [reflexivity|]. split; [vm_compute; reflexivity|].
  intros rec c Hrec.
  exact (ingested_activity_count sheetAnaBeto _ _ ["D1"; "D2"] "D1" "D2"
           eq_refl ltac:(vm_compute; reflexivity) rec c Hrec).
Defined.

(** ** Printing with two decimals and reading back *)

Lemma digitsValue_acc (d : Decimal.uint) (acc : positive) :
  Js.digitsValue (Npos acc) (NilEmpty.string_of_uint d)
  = Npos (Pos.of_uint_acc d acc).
Proof.
  revert acc. induction d; intros acc;
    cbn [NilEmpty.string_of_uint Js.digitsValue Pos.of_uint_acc];
    try reflexivity; rewrite <- IHd; f_equal; vm_compute Js.digitValue; lia.
Qed.

Lemma digitsValue_uint (d : Decimal.uint) :
  Js.digitsValue 0 (NilEmpty.string_of_uint d) = Pos.of_uint d.
Proof.
  induction d; cbn [NilEmpty.string_of_uint Js.digitsValue Pos.of_uint];
    try reflexivity; try exact IHd; apply (digitsValue_acc d).
Qed.

Lemma allDigits_uint (d : Decimal.uint) :
  allDigits (NilEmpty.string_of_uint d) = true.
Proof. induction d; simpl; try reflexivity; exact IHd. Qed.

Lemma decimalOfN_spec (k : N) :
  allDigits (Fmt.decimalOfN k) = true
  ∧ Fmt.decimalOfN k ≠ ""
  ∧ Js.digitsValue 0 (Fmt.decimalOfN k) = k.
Proof.
  unfold Fmt.decimalOfN.
  pose proof (DecimalN.Unsigned.of_to k) as Hk.
  unfold N.of_uint in Hk.
  destruct (N.to_uint k) as [|d|d|d|d|d|d|d|d|d|d] eqn:E;
    (split; [first [reflexivity|apply (allDigits_uint (_ d))]|]);
    (split; [discriminate|]);
    first [exact Hk | rewrite <- Hk; apply digitsValue_uint].
Qed.

Lemma spanDigits_stop (d t : string) :
  allDigits d = true →
  match t with EmptyString => True | String c _ => Js.isDigit c = false end →
  Js.spanDigits (d ++ t) = (d, t).
Proof.
  intros Hd Ht. induction d as [|c r IH].
  - destruct t as [|c r]; [done|]. simpl. by rewrite Ht.
  - simpl in Hd. apply andb_true_iff in Hd as [Hc Hr].
    change (Js.spanDigits (String c (r ++ t)) = (String c r, t)).
    cbn [Js.spanDigits]. by rewrite Hc, (IH Hr).
Qed.

Lemma digitChar_value (k : N) :
  (k < 10)%N →
  Js.digitValue (Fmt.digitChar k) = k ∧ Js.isDigit (Fmt.digitChar k) = true.
Proof.
  intros H. destruct k as [|p]; [done|].
  do 4 (destruct p as [p|p|]; try done; try (exfalso; lia)).
Qed.

(** A sign, digits, a point and digits parse to the number they spell. *)
Lemma parse_fixed (neg : bool) (D X : string) :
  allDigits D = true → D ≠ "" → allDigits X = true →
  Js.parseFloat ((if neg then "-" else "") ++ D ++ "." ++ X)
  = Some (Q2Qc (inject_Z
                  (if neg then - Z.of_N (Js.digitsValue (Js.digitsValue 0 D) X)
                   else Z.of_N (Js.digitsValue (Js.digitsValue 0 D) X))
                * Qpower 10 (0 - Z.of_nat (String.length X)))).
Proof.
  intros HD Hne HX. destruct D as [|c0 r0]; [done|].
  assert (Hc : Js.isDigit c0 = true)
    by (simpl in HD; by apply andb_true_iff in HD as [? _]).
  assert (Hspan : Js.spanDigits (String c0 r0 ++ "." ++ X)
                  = (String c0 r0, String "." X)).
  { by apply (spanDigits_stop (String c0 r0) (String "." X)). }
  assert (Hfrac : Js.readFraction (String "." X) = (X, "")).
  { change (Js.spanDigits X = (X, "")). by apply spanDigits_all. }
  unfold Js.parseFloat. destruct neg.
  - change (Js.readSign (Js.trimStart ("-" ++ String c0 r0 ++ "." ++ X)))
      with (true, String c0 r0 ++ "." ++ X)%string.
    cbv beta iota. rewrite Hspan. cbv beta iota. rewrite Hfrac. reflexivity.
  - destruct (digit_plain c0 (r0 ++ "." ++ X) Hc) as [Hw Hs].
    change ("" ++ String c0 r0 ++ "." ++ X)%string
      with (String c0 (r0 ++ "." ++ X)).
    replace (Js.trimStart (String c0 (r0 ++ "." ++ X)))
      with (String c0 (r0 ++ "." ++ X)) by (simpl; by rewrite Hw).
    rewrite Hs. cbv beta iota.
    change (String c0 (r0 ++ "." ++ X)) with (String c0 r0 ++ "." ++ X)%string.
    rewrite Hspan. cbv beta iota. rewrite Hfrac. reflexivity.
Qed.

Lemma hundredths_nonneg (g : Qc) : (0 <= hundredths g)%Z.
Proof.
  unfold hundredths. change 0%Z with (Qfloor 0). apply Qfloor_resp_le.
  pose proof (Qabs_nonneg (this g)). lra.
Qed.

Lemma hundred_split (n : N) :
  (10 * (10 * (n / 100) + (n / 10) mod 10) + n mod 10 = n)%N.
Proof.
  pose proof (N.div_mod n 10 ltac:(discriminate)) as H1.
  pose proof (N.div_mod (n / 10) 10 ltac:(discriminate)) as H2.
  rewrite N.Div0.div_div in H2. change (10 * 10)%N with 100%N in H2. lia.
Qed.

Lemma toFixed2_parse (g : Qc) :
  Js.parseFloat (Fmt.toFixed2 g) = Some (roundedTo2 g).
Proof.
  unfold Fmt.toFixed2.
  set (n := Z.to_N (Qfloor (Qabs (this g) * 100 + (1 # 2)))).
  destruct (decimalOfN_spec (n / 100)) as (HD & Hne & Hval).
  destruct (digitChar_value ((n / 10) mod 10)) as [V1 D1];
    [apply N.mod_lt; discriminate|].
  destruct (digitChar_value (n mod 10)) as [V0 D0];
    [apply N.mod_lt; discriminate|].
  rewrite (parse_fixed (bool_decide (g < 0)%Qc) (Fmt.decimalOfN (n / 100))
             (String (Fmt.digitChar ((n / 10) mod 10))
                     (String (Fmt.digitChar (n mod 10)) ""))); try done.
  2:{ simpl. by rewrite D1, D0. }
  f_equal. unfold roundedTo2. apply Q2Qc_eq_iff.
  cbn [Js.digitsValue]. rewrite Hval, V1, V0, hundred_split.
  assert (Hn : Z.of_N n = hundredths g).
  { unfold n. rewrite Z2N.id; [done|apply hundredths_nonneg]. }
  rewrite Hn. change (Qpower 10 (0 - Z.of_nat (String.length _)))
    with (Qpower 10 (-2)). change (Qpower 10 (-2)) with (/ (10 * 10))%Q.
  destruct (bool_decide (g < 0)%Qc); reflexivity.
Qed.

Lemma roundedTo2_this (g : Qc) :
  (this (roundedTo2 g)
   == inject_Z (if bool_decide (g < 0)%Qc then - hundredths g else hundredths g)
      * (1 # 100))%Q.
Proof. unfold roundedTo2. simpl. apply Qred_correct. Qed.

Lemma roundedTo2_near (g : Qc) :
  (this g - (1 # 200) <= this (roundedTo2 g))%Q
  ∧ (this (roundedTo2 g) <= this g + (1 # 200))%Q.
Proof.
  rewrite roundedTo2_this. unfold hundredths.
  pose proof (Qfloor_le (Qabs (this g) * 100 + (1 # 2))) as Hlo.
  pose proof (Qlt_floor (Qabs (this g) * 100 + (1 # 2))) as Hhi.
  rewrite inject_Z_plus in Hhi.
  set (h := Qfloor (Qabs (this g) * 100 + (1 # 2))) in *.
  destruct (decide (g < 0)%Qc) as [Hneg|Hpos].
  - rewrite bool_decide_eq_true_2 by done. rewrite inject_Z_opp.
    assert (E : (Qabs (this g) == - this g)%Q).
    { apply Qabs_neg. unfold Qclt in Hneg.
      change (this 0%Qc) with 0%Q in Hneg. lra. }
    rewrite E in Hlo, Hhi. change (inject_Z 1) with 1%Q in Hhi. lra.
  - rewrite bool_decide_eq_false_2 by done.
    assert (E : (Qabs (this g) == this g)%Q).
    { apply Qabs_pos. apply Qcnot_lt_le in Hpos. unfold Qcle in Hpos.
      change (this 0%Qc) with 0%Q in Hpos. lra. }
    rewrite E in Hlo, Hhi. change (inject_Z 1) with 1%Q in Hhi. lra.
Qed.


(** ** The qualitative distribution *)

Lemma countCategory_spec (og : string) (l ml nl : nat) :
  countCategory og (l, ml, nl)
  = (l + (if String.eqb og "L" then 1 else 0),
     ml + (if String.eqb og "ML" then 1 else 0),
     nl + (if String.eqb og "NL" then 1 else 0)).
Proof.
  unfold countCategory.
  destruct (String.eqb_spec og "L") as [->|_].
  { simpl. f_equal; [f_equal|]; lia. }
  destruct (String.eqb_spec og "ML") as [->|_].
  { simpl. f_equal; [f_equal|]; lia. }
  destruct (String.eqb_spec og "NL") as [->|_].
  { simpl. f_equal; [f_equal|]; lia. }
  destruct (isQualitativeGrade og); f_equal; try f_equal; lia.
Qed.

Lemma filter_cons_length {A : Type} (p : A → bool) (x : A) (l : list A) :
  length (List.filter p (x :: l))
  = (if p x then 1 else 0) + length (List.filter p l).
Proof. simpl. by destruct (p x). Qed.

Lemma cats_fold (s : StudentSheetData) (relevant : list string) (st : DateLoop) :
  cats (fold_left (dateStep s) relevant st)
  = (let '(l, ml, nl) := cats st in
     (l + length (List.filter (fun e => countsAs "L" e.2)
                              (selectedEntries relevant s)),
      ml + length (List.filter (fun e => countsAs "ML" e.2)
                               (selectedEntries relevant s)),
      nl + length (List.filter (fun e => countsAs "NL" e.2)
                               (selectedEntries relevant s)))).
Proof.
  revert st. induction relevant as [|date rel IH]; intros st.
  - simpl. destruct (cats st) as [[l ml] nl]. by rewrite !Nat.add_0_r.
  - cbn [fold_left]. rewrite IH, selectedEntries_cons. unfold dateStep.
    destruct (grades s !! date) as [a|]; [|done].
    rewrite !filter_cons_length. cbn [snd].
    assert (Hc : ∀ code, countsAs code a
                 = match convertGradeToNumeric (grade a) with
                   | Some _ => String.eqb (Js.toUpperCase (Js.trim (grade a))) code
                   | None => false
                   end) by done.
    rewrite !Hc. clear Hc.
    destruct (convertGradeToNumeric (grade a)) as [g|];
      cbn [cats]; destruct (cats st) as [[l ml] nl].
    + rewrite countCategory_spec. by rewrite <- !Nat.add_assoc.
    + reflexivity.
Qed.

Lemma categories_fold (relevant : list string) (l : list StudentSheetData)
    (st : Engine) :
  gradeCategoryCounts (fold_left (studentStep relevant) l st)
  = (let '(a, b, c) := gradeCategoryCounts st in
     (a + codeCount "L" relevant l, b + codeCount "ML" relevant l,
      c + codeCount "NL" relevant l)).
Proof.
  revert st. induction l as [|s l IH]; intros st.
  - simpl. destruct (gradeCategoryCounts st) as [[a b] c].
    unfold codeCount. simpl. by rewrite !Nat.add_0_r.
  - cbn [fold_left]. rewrite IH. unfold studentStep at 1.
    cbn [gradeCategoryCounts]. unfold dateLoop. rewrite cats_fold.
    cbn [cats]. destruct (gradeCategoryCounts st) as [[a b] c].
    unfold codeCount. cbn [map list_sum]. by rewrite <- !Nat.add_assoc.
Qed.

Lemma parsed_begins (s : string) (v : Qc) :
  Js.parseFloat s = Some v →
  ∃ c r, Js.trimStart s = String c r ∧ beginsLiteral c = true.
Proof.
  unfold Js.parseFloat. destruct (Js.trimStart s) as [|c r]; [discriminate|].
  intros H. exists c, r. split; [done|].
  destruct (beginsLiteral c) eqn:E; [done|]. exfalso. revert E H.
  ascii_cases c; intros E; vm_compute in E; try discriminate E;
    intros H; discriminate H.
Qed.

Lemma trimEnd_keeps_head (c : ascii) (r : string) :
  Js.isWhiteSpace c = false → ∃ r', Js.trimEnd (String c r) = String c r'.
Proof.
  intros Hc. simpl. destruct (Js.trimEnd r) as [|c' r'].
  - rewrite Hc. by exists "".
  - by exists (String c' r').
Qed.

Lemma parsed_not_counted (code : string) (a : StudentGradeEntry) (v : Qc) :
  code = "L" ∨ code = "ML" ∨ code = "NL" →
  Js.parseFloat (grade a) = Some v → countsAs code a = false.
Proof.
  intros Hcode Hp. unfold countsAs.
  destruct (convertGradeToNumeric (grade a)); [|done].
  apply parsed_begins in Hp as (c & r & Ht & Hc).
  assert (Hw : Js.isWhiteSpace c = false).
  { revert Hc. ascii_cases c; intros Hc; vm_compute in Hc;
      try discriminate Hc; reflexivity. }
  destruct (trimEnd_keeps_head c r Hw) as [r' Hr].
  unfold Js.trim. rewrite Ht, Hr. cbn [Js.toUpperCase].
  destruct (String.eqb_spec (String (Js.upperChar c) (Js.toUpperCase r')) code)
    as [E|]; [|done].
  exfalso. revert Hc.
  destruct Hcode as [->|[->| ->]]; injection E as E _; revert E;
    ascii_cases c; intros E; vm_compute in E; try discriminate E;
    intros Hc; vm_compute in Hc; discriminate Hc.
Qed.

(** X6: the qualitative distribution counts, over all students and selected
    dates, the entries that normalise to a number and whose trimmed grade is
    L, ML or NL in any letter case; an entry whose grade parses as a number is
    counted under none of the three. *)
Theorem category_counts_spec (sheetData : list StudentSheetData)
    (allDates : list string) (startDate endDate : string) (r : Engine) :
  performAnalysis sheetData allDates startDate endDate = inr r →
  ∃ relevant,
    selectRange sheetData allDates startDate endDate = Some relevant
    ∧ gradeCategoryCounts r
      = (codeCount "L" relevant sheetData, codeCount "ML" relevant sheetData,
         codeCount "NL" relevant sheetData)
    ∧ ∀ a v, Js.parseFloat (grade a) = Some v →
             countsAs "L" a = false ∧ countsAs "ML" a = false
             ∧ countsAs "NL" a = false.
Proof.
  intros H.
  destruct (performAnalysis_inr _ _ _ _ _ H) as (_ & relevant & Hsel & ->).
  exists relevant. split; [done|]. split.
  - unfold analyse. rewrite categories_fold. reflexivity.
  - intros a v Hp. repeat split; eapply parsed_not_counted; eauto.
Qed.

Lemma category_counts_witness :
  performAnalysis (studentRecords sheetAnaBeto) (dates sheetAnaBeto) "D1" "D2"
  = inr (analyse ["D1"; "D2"] (studentRecords sheetAnaBeto))
  ∧ gradeCategoryCounts (analyse ["D1"; "D2"] (studentRecords sheetAnaBeto))
    = (1, 1, 0).
Proof.
  split; [reflexivity|].
  destruct (category_counts_spec _ _ _ _ _
              (eq_refl : performAnalysis (studentRecords sheetAnaBeto)
                           (dates sheetAnaBeto) "D1" "D2"
                         = inr (analyse ["D1"; "D2"]
                                  (studentRecords sheetAnaBeto))))
    as (relevant & Hsel & Hc & _).
  injection Hsel as <-. rewrite Hc. reflexivity.
Defined.

(** ** Bounds on the projected average *)

Lemma this_plus (a b : Qc) : (this (a + b)%Qc == this a + this b)%Q.
Proof. simpl. apply Qred_correct. Qed.

Lemma this_div (a b : Qc) : (this (a / b)%Qc == this a / this b)%Q.
Proof.
  unfold Qcdiv, Qcmult, Qcinv. simpl. rewrite !Qred_correct. reflexivity.
Qed.

Lemma sumQc_bounds (lo hi : Qc) (l : list Qc) :
  Forall (fun x => (lo <= x)%Qc ∧ (x <= hi)%Qc) l →
  (inject_Z (Z.of_nat (length l)) * this lo <= this (sumQc l))%Q
  ∧ (this (sumQc l) <= inject_Z (Z.of_nat (length l)) * this hi)%Q.
Proof.
  induction 1 as [|x l [Hlo Hhi] _ [IH1 IH2]].
  - change (this (sumQc [])) with 0%Q.
    change (inject_Z (Z.of_nat (length (@nil Qc)))) with 0%Q. split; lra.
  - change (sumQc (x :: l)) with (x + sumQc l)%Qc.
    rewrite this_plus. cbn [length]. rewrite Nat2Z.inj_succ.
    unfold Z.succ. rewrite inject_Z_plus. change (inject_Z 1) with 1%Q.
    unfold Qcle in Hlo, Hhi. split; lra.
Qed.

Lemma mean_bounds (lo hi : Qc) (l : list Qc) :
  l ≠ [] → Forall (fun x => (lo <= x)%Qc ∧ (x <= hi)%Qc) l →
  (lo <= sumQc l / num (Z.of_nat (length l)))%Qc
  ∧ (sumQc l / num (Z.of_nat (length l)) <= hi)%Qc.
Proof.
  intros Hne Hall. destruct (sumQc_bounds lo hi l Hall) as [H1 H2].
  assert (Hn : (0 < inject_Z (Z.of_nat (length l)))%Q).
  { destruct l; [done|]. change 0%Q with (inject_Z 0).
    rewrite <- Zlt_Qlt. cbn [length]. lia. }
  unfold Qcle. rewrite this_div, this_num. split.
  - apply Qle_shift_div_l; [done|]. lra.
  - apply Qle_shift_div_r; [done|]. lra.
Qed.

Lemma projectedAverage_bounds (lo hi : Qc) (relevant : list string)
    (s : StudentSheetData) :
  selectedEntries relevant s ≠ [] →
  (∀ date a, date ∈ relevant → grades s !! date = Some a →
             (lo <= projectionValue a)%Qc ∧ (projectionValue a <= hi)%Qc) →
  (lo <= projectedAverageOf relevant s)%Qc
  ∧ (projectedAverageOf relevant s <= hi)%Qc.
Proof.
  intros Hne Hall. unfold projectedAverageOf, activitiesCount, projectionSum.
  destruct (selectedEntries relevant s) as [|e es] eqn:E; [done|].
  rewrite <- E. replace (length (selectedEntries relevant s) =? 0)%nat with false
    by (rewrite E; done).
  rewrite <- (length_map (fun e => projectionValue e.2)).
  apply mean_bounds.
  - rewrite E. done.
  - apply Forall_map, Forall_forall. intros [date a] Hin. simpl.
    unfold selectedEntries in Hin. apply list_elem_of_omap in Hin as (d & Hd & Ha).
    destruct (grades s !! d) as [a'|] eqn:Hg; [|discriminate].
    injection Ha as <- <-. by apply (Hall d).
Qed.



(** ** A best student is always found among non-negative grades *)

Lemma sumQc_lower (lo : Qc) (l : list Qc) :
  Forall (fun x => (lo <= x)%Qc) l →
  (inject_Z (Z.of_nat (length l)) * this lo <= this (sumQc l))%Q.
Proof.
  induction 1 as [|x l Hlo _ IH].
  - change (this (sumQc [])) with 0%Q.
    change (inject_Z (Z.of_nat (length (@nil Qc)))) with 0%Q. lra.
  - change (sumQc (x :: l)) with (x + sumQc l)%Qc.
    rewrite this_plus. cbn [length]. rewrite Nat2Z.inj_succ.
    unfold Z.succ. rewrite inject_Z_plus. change (inject_Z 1) with 1%Q.
    unfold Qcle in Hlo. lra.
Qed.

Lemma projectedAverage_nonneg (relevant : list string) (s : StudentSheetData) :
  (∀ date a g, grades s !! date = Some a →
               convertGradeToNumeric (grade a) = Some g → (num 0 <= g)%Qc) →
  (num 0 <= projectedAverageOf relevant s)%Qc.
Proof.
  intros Hall. unfold projectedAverageOf, activitiesCount, projectionSum.
  destruct (selectedEntries relevant s) as [|e es] eqn:E; [done|].
  rewrite <- E. replace (length (selectedEntries relevant s) =? 0)%nat with false
    by (rewrite E; done).
  rewrite <- (length_map (fun e => projectionValue e.2)).
  set (l := map (fun e => projectionValue e.2) (selectedEntries relevant s)).
  assert (Hl : Forall (fun x => (num 0 <= x)%Qc) l).
  { apply Forall_map, Forall_forall. intros [date a] Hin. simpl.
    unfold selectedEntries in Hin. apply list_elem_of_omap in Hin as (d & Hd & Ha).
    destruct (grades s !! d) as [a'|] eqn:Hg; [|discriminate].
    injection Ha as <- <-. unfold projectionValue.
    destruct (convertGradeToNumeric (grade a')) as [g|] eqn:Hc; simpl.
    - by apply (Hall d a').
    - by vm_compute. }
  assert (Hn : (0 < inject_Z (Z.of_nat (length l)))%Q).
  { unfold l. rewrite length_map, E. change 0%Q with (inject_Z 0).
    rewrite <- Zlt_Qlt. cbn [length]. lia. }
  pose proof (sumQc_lower (num 0) l Hl) as Hs.
  unfold Qcle. rewrite this_div, !this_num.
  apply Qle_shift_div_l; [done|]. change (this (num 0)) with 0%Q in Hs.
  change (inject_Z 0) with 0%Q. lra.
Qed.

(** X8: when no entry of any student normalises to a negative number, a
    completed analysis always records a best student: the name is that of a
    student of the sheet whose projected average no other student exceeds,
    and the stored series is the chart series of that student. *)
Theorem best_student_exists (sheetData : list StudentSheetData)
    (allDates : list string) (startDate endDate : string) (r : Engine) :
  (∀ s date a g, s ∈ sheetData → grades s !! date = Some a →
                 convertGradeToNumeric (grade a) = Some g → (num 0 <= g)%Qc) →
  performAnalysis sheetData allDates startDate endDate = inr r →
  ∃ relevant s,
    selectRange sheetData allDates startDate endDate = Some relevant
    ∧ s ∈ sheetData
    ∧ bestStudentName r = studentName s
    ∧ (∀ c, bestStudentPerformanceData r
            = currentStudentChartData (dateLoop relevant s c))
    ∧ ∀ s' c c', s' ∈ sheetData →
        (averageOf (dateLoop relevant s' c')
         <= averageOf (dateLoop relevant s c))%Qc.
Proof.
  intros Hall H.
  destruct (performAnalysis_inr _ _ _ _ _ H) as (Hne & relevant & Hsel & ->).
  exists relevant.
  destruct (best_fold relevant sheetData initialEngine)
    as [(Hle & _)|(pre & s & post & Hl & Hlt & Hpre & Hpost & _ & Hn & Hd)].
  - exfalso. destruct sheetData as [|s0 l]; [done|].
    apply Forall_cons in Hle as [Hle _].
    assert (H0 : (num 0 <= projectedAverageOf relevant s0)%Qc).
    { apply projectedAverage_nonneg. intros date a g. apply Hall. by left. }
    cbn [highestAverage initialEngine] in Hle.
    unfold Qcle in H0, Hle. rewrite !this_num in *. unfold inject_Z in *. lra.
  - exists s. split; [done|]. split; [rewrite Hl; set_solver|].
    split; [exact Hn|]. split.
    + intros c. destruct (dateLoop_fields relevant s c) as (_ & _ & _ & E4).
      by rewrite E4.
    + intros s' c c' Hs'. rewrite !averageOf_dateLoop.
      rewrite Hl in Hs'. apply elem_of_app in Hs' as [Hs'|Hs'].
      * apply Qclt_le_weak.
        by apply (proj1 (Forall_forall _ _) Hpre s').
      * apply elem_of_cons in Hs' as [->|Hs']; [apply Qcle_refl|].
        by apply (proj1 (Forall_forall _ _) Hpost s').
Qed.

Lemma best_student_exists_witness :
  (∀ s date a g, s ∈ [caro] → grades s !! date = Some a →
                 convertGradeToNumeric (grade a) = Some g → (num 0 <= g)%Qc)
  ∧ performAnalysis [caro] ["D1"] "D1" "D1" = inr (analyse ["D1"] [caro])
  ∧ ∃ s, s ∈ [caro] ∧ bestStudentName (analyse ["D1"] [caro]) = studentName s.
Proof.
  assert (H : ∀ s date a g, s ∈ [caro] → grades s !! date = Some a →
                 convertGradeToNumeric (grade a) = Some g → (num 0 <= g)%Qc).
  { intros s date a g Hs Ha Hg. apply list_elem_of_singleton in Hs. subst s.
    destruct (decide (date = "D1")) as [->|Hne].
    - vm_compute in Ha. injection Ha as <-.
      assert (E : convertGradeToNumeric "4.99" = Some (ratio 499 100))
        by qc_compute.
      cbn [grade] in Hg. rewrite E in Hg. injection Hg as <-. by vm_compute.
    - unfold caro, student in Ha. simpl in Ha.
      rewrite lookup_insert_ne in Ha by done. by rewrite lookup_empty in Ha. }
  split; [exact H|]. split; [reflexivity|].
  destruct (best_student_exists [caro] ["D1"] "D1" "D1" _ H eq_refl)
    as (relevant & s & _ & Hs & Hn & _).
  exists s. split; [exact Hs|exact Hn].
Defined.

(** ** Shape of the analysis results *)

Lemma risk_names_sublist (relevant : list string) (l : list StudentSheetData) :
  map name (map (riskEntry relevant) (List.filter (atRisk relevant) l))
  `sublist_of` map studentName l.
Proof.
  induction l as [|s l IH]; simpl; [constructor|].
  destruct (atRisk relevant s); simpl.
  - by apply sublist_skip.
  - by apply sublist_cons.
Qed.

Lemma missing_le_count (relevant : list string) (s : StudentSheetData) :
  missingCount relevant s <= activitiesCount relevant s.
Proof. unfold missingCount, activitiesCount. apply filter_length_le. Qed.

(** X9: the at-risk list names students of the sheet in record order; in
    each entry the number of detail lines equals the missing count, and for
    every student the missing count never exceeds the number of counted
    activities, which never exceeds the number of relevant dates. *)
Theorem at_risk_shape (sheetData : list StudentSheetData)
    (allDates : list string) (startDate endDate : string) (r : Engine) :
  performAnalysis sheetData allDates startDate endDate = inr r →
  ∃ relevant,
    selectRange sheetData allDates startDate endDate = Some relevant
    ∧ map name (studentsAtRisk r) `sublist_of` map studentName sheetData
    ∧ Forall (fun e => length (details e) = missing e) (studentsAtRisk r)
    ∧ ∀ s c,
        missingActivitiesCount (dateLoop relevant s c)
        <= studentActivitiesCount (dateLoop relevant s c)
        ∧ studentActivitiesCount (dateLoop relevant s c) <= length relevant.
Proof.
  intros H.
  destruct (performAnalysis_inr _ _ _ _ _ H) as (_ & relevant & Hsel & ->).
  exists relevant. split; [done|].
  unfold analyse. rewrite atRisk_fold. cbn [studentsAtRisk initialEngine app].
  split; [apply risk_names_sublist|]. split.
  - apply Forall_map, Forall_forall. intros s _. simpl.
    unfold missingDetails, missingCount. by rewrite length_map.
  - intros s c. destruct (dateLoop_fields relevant s c) as (_ & E2 & E3 & _).
    rewrite E2, E3. split; [apply missing_le_count|].
    rewrite activitiesCount_hasEntry. apply filter_length_le.
Qed.

Lemma at_risk_shape_witness :
  performAnalysis [beto; caro; dani] ["D1"; "D2"] "D1" "D2"
  = inr (analyse ["D1"; "D2"] [beto; caro; dani])
  ∧ Forall (fun e => length (details e) = missing e)
           (studentsAtRisk (analyse ["D1"; "D2"] [beto; caro; dani])).
Proof.
  split; [reflexivity|].
  destruct (at_risk_shape [beto; caro; dani] ["D1"; "D2"] "D1" "D2" _ eq_refl)
    as (relevant & _ & _ & Hd & _).
  exact Hd.
Defined.

Lemma averages_fold_dom (relevant : list string) (l : list StudentSheetData)
    (st : Engine) (n : string) :
  is_Some (studentAverages (fold_left (studentStep relevant) l st) !! n)
  ↔ is_Some (studentAverages st !! n) ∨ ∃ s, s ∈ l ∧ studentName s = n.
Proof.
  revert st. induction l as [|s l IH]; intros st; simpl.
  - split; [by left|]. intros [?|(s & Hs & _)]; [done|].
    by apply elem_of_nil in Hs.
  - rewrite IH. destruct (studentStep_fields relevant st s) as (E & _).
    rewrite E. clear E. rewrite lookup_insert.
    destruct (decide (studentName s = n)) as [Heq|Hne].
    + split; [|by eauto]. intros _. right. exists s. split; [by left|done].
    + split.
      * intros [?|(s' & Hs' & Hn)]; [by left|].
        right. exists s'. split; [by right|done].
      * intros [?|(s' & Hs' & Hn)]; [by left|].
        apply elem_of_cons in Hs' as [->|Hs']; [done|].
        right. by exists s'.
Qed.

(** X10: the table of student averages has a row for exactly the names
    that occur in the sheet; students sharing a name share one row. *)
Theorem student_averages_domain (sheetData : list StudentSheetData)
    (allDates : list string) (startDate endDate : string) (r : Engine) :
  performAnalysis sheetData allDates startDate endDate = inr r →
  ∀ n, is_Some (studentAverages r !! n)
       ↔ ∃ s, s ∈ sheetData ∧ studentName s = n.
Proof.
  intros H n.
  destruct (performAnalysis_inr _ _ _ _ _ H) as (_ & relevant & Hsel & ->).
  unfold analyse. rewrite averages_fold_dom.
  cbn [studentAverages initialEngine]. rewrite lookup_empty.
  split; [|by right]. intros [[? ?]|?]; done.
Qed.

Lemma student_averages_domain_witness :
  performAnalysis [beto; caro; dani] ["D1"; "D2"] "D1" "D2"
  = inr (analyse ["D1"; "D2"] [beto; caro; dani])
  ∧ (is_Some (studentAverages (analyse ["D1"; "D2"] [beto; caro; dani]) !! "Caro")
     ↔ ∃ s, s ∈ [beto; caro; dani] ∧ studentName s = "Caro").
Proof.
  split; [reflexivity|].
  exact (student_averages_domain [beto; caro; dani] ["D1"; "D2"] "D1" "D2"
           _ eq_refl "Caro").
Defined.

(** ** A range without any graded date *)

Lemma empty_range_average (s : StudentSheetData) :
  projectedAverageOf [] s = num 0 ∧ missingCount [] s = 0
  ∧ atRisk [] s = false ∧ timeSeries [] s = [].
Proof. repeat split. Qed.

Lemma averages_fold_empty (l : list StudentSheetData) (st : Engine)
    (n : string) (d : StudentAverageDetail) :
  studentAverages (fold_left (studentStep []) l st) !! n = Some d →
  studentAverages st !! n = Some d
  ∨ d = {| currentAverage := Fmt.toFixed2 (num 0); missingActivities := 0 |}.
Proof.
  revert st. induction l as [|s l IH]; intros st; simpl; [by left|].
  intros H. apply IH in H as [H|H]; [|by right].
  destruct (studentStep_fields [] st s) as (E & _). rewrite E in H.
  rewrite lookup_insert in H. destruct (decide (studentName s = n)).
  - right. by injection H as <-.
  - by left.
Qed.

(** X11: when no date of the selected range has an entry for any student,
    the analysis still completes: nobody is at risk, the distribution is
    empty, every row of the averages table reads "0.00" with no missing
    activity, and the first student of the sheet is recorded as best with
    an empty series. *)
Theorem empty_range_analysis (sheetData : list StudentSheetData)
    (allDates : list string) (startDate endDate : string) (r : Engine) :
  performAnalysis sheetData allDates startDate endDate = inr r →
  selectRange sheetData allDates startDate endDate = Some [] →
  studentsAtRisk r = []
  ∧ gradeCategoryCounts r = (0, 0, 0)
  ∧ bestStudentPerformanceData r = []
  ∧ (∃ s rest, sheetData = s :: rest ∧ bestStudentName r = studentName s)
  ∧ ∀ n d, studentAverages r !! n = Some d →
           d = {| currentAverage := "0.00"; missingActivities := 0 |}.
Proof.
  intros H Hsel.
  destruct (performAnalysis_inr _ _ _ _ _ H) as (Hne & relevant & Hsel' & ->).
  rewrite Hsel in Hsel'. injection Hsel' as <-.
  split; [|split; [|split; [|split]]].
  - unfold analyse. rewrite atRisk_fold. simpl. clear.
    induction sheetData as [|s l IH]; [done|exact IH].
  - unfold analyse. rewrite categories_fold. simpl.
    assert (E : ∀ code, codeCount code [] sheetData = 0).
    { intros code. unfold codeCount. clear.
      induction sheetData as [|s l IH]; [done|exact IH]. }
    by rewrite !E.
  - destruct (best_fold [] sheetData initialEngine)
      as [(_ & _ & _ & Hd)|(pre & s & post & _ & _ & _ & _ & _ & _ & Hd)];
      exact Hd.
  - destruct sheetData as [|s0 rest]; [done|]. exists s0, rest.
    split; [done|].
    destruct (best_fold [] (s0 :: rest) initialEngine)
      as [(Hle & _)|(pre & s & post & Hl & _ & Hpre & _ & _ & Hn & _)].
    + exfalso. apply Forall_cons in Hle as [Hle _]. by vm_compute in Hle.
    + destruct pre as [|p pre].
      * simpl in Hl. injection Hl as -> _. exact Hn.
      * exfalso. apply Forall_cons in Hpre as [Hp _]. by vm_compute in Hp.
  - intros n d Hd. unfold analyse in Hd.
    apply averages_fold_empty in Hd as [Hd|Hd]; [|exact Hd].
    cbn [studentAverages initialEngine] in Hd. by rewrite lookup_empty in Hd.
Qed.

Lemma empty_range_analysis_witness :
  performAnalysis [caro] ["D1"; "D2"] "D2" "D2" = inr (analyse [] [caro])
  ∧ selectRange [caro] ["D1"; "D2"] "D2" "D2" = Some []
  ∧ studentsAtRisk (analyse [] [caro]) = [].
Proof.
  split; [reflexivity|]. split; [reflexivity|].
  exact (proj1 (empty_range_analysis [caro] ["D1"; "D2"] "D2" "D2" _
                  eq_refl eq_refl)).
Defined.

(** ** The group series *)

Lemma groupStep_fold (date : string) (l : list StudentSheetData) (acc : Qc * nat) :
  fold_left (groupStep date) l acc
  = ((acc.1 + sumQc (gradesOn date l))%Qc, acc.2 + length (gradesOn date l)).
Proof.
  revert acc. induction l as [|s l IH]; intros [q n].
  - simpl. unfold gradesOn, sumQc. simpl. f_equal; [|lia].
    by rewrite Qcplus_0_r.
  - cbn [fold_left]. rewrite IH. unfold groupStep, gradesOn. cbn [omap list_omap].
    destruct (grades s !! date) as [a|]; [|done].
    destruct (convertGradeToNumeric (grade a)) as [g|]; [|done].
    cbn [fst snd length]. change (sumQc (g :: ?l)) with (g + sumQc l)%Qc.
    f_equal; [|lia]. by rewrite Qcplus_assoc.
Qed.

Lemma groupPoint_spec (sheetData : list StudentSheetData) (date : string) :
  groupPoint sheetData date
  = {| gpDate := date;
       gpAverageGrade :=
         match gradesOn date sheetData with
         | [] => None
         | gs => Some (roundedTo2 (sumQc gs / num (Z.of_nat (length gs))))
         end;
       gpGrade := None |}.
Proof.
  unfold groupPoint. rewrite groupStep_fold. cbn [fst snd].
  rewrite Qcplus_0_l. cbn [Nat.add].
  destruct (gradesOn date sheetData) as [|g gs]; [done|].
  cbn [length Nat.ltb Nat.leb]. by rewrite toFixed2_parse.
Qed.


(** ** The components that read the same records *)

Lemma find_some_elem (sheetData : list StudentSheetData) (sel : string)
    (s : StudentSheetData) :
  List.find (fun x => String.eqb (studentName x) sel) sheetData = Some s →
  s ∈ sheetData ∧ studentName s = sel.
Proof.
  intros H. apply find_some in H as [Hin Heq].
  split; [by apply list_elem_of_In|by apply String.eqb_eq].
Qed.

Lemma hasEntry_someEntry (sheetData : list StudentSheetData)
    (s : StudentSheetData) (date : string) :
  s ∈ sheetData → hasEntry s date = true →
  existsb (fun x => hasEntry x date) sheetData = true.
Proof.
  intros Hs Hd. apply existsb_exists. exists s.
  split; [by apply list_elem_of_In|done].
Qed.

(** Restricting the dates to those some student has an entry for does not
    change what a student of the sheet contributes. *)
Lemma selectedEntries_filter (sheetData : list StudentSheetData)
    (s : StudentSheetData) (l : list string) :
  s ∈ sheetData →
  selectedEntries
    (List.filter (fun date => existsb (fun x => hasEntry x date) sheetData) l) s
  = selectedEntries l s.
Proof.
  intros Hs. induction l as [|d l IH]; [done|]. cbn [List.filter].
  destruct (existsb (fun x => hasEntry x d) sheetData) eqn:E.
  - rewrite !selectedEntries_cons. by rewrite IH.
  - rewrite selectedEntries_cons, IH.
    destruct (grades s !! d) as [a|] eqn:Ha; [|done].
    rewrite (hasEntry_someEntry sheetData s d Hs) in E; [done|].
    unfold hasEntry. by rewrite Ha.
Qed.

Lemma chartPoints_timeSeries (s : StudentSheetData) (l : list string) :
  map (StudentProgressChart.chartPoint s) (List.filter (hasEntry s) l)
  = timeSeries l s.
Proof.
  unfold timeSeries. induction l as [|d l IH]; [done|].
  rewrite selectedEntries_cons. cbn [List.filter]. unfold hasEntry at 1.
  destruct (grades s !! d) as [a|] eqn:Ha; [|exact IH].
  cbn [map]. rewrite IH. f_equal.
  unfold StudentProgressChart.chartPoint. rewrite Ha. reflexivity.
Qed.

(** X13: for the selected student, the individual progress chart shows the
    points of the series that the analysis builds for that student over the
    same range, without the null points: every charted point carries a
    number. *)
Theorem progress_chart_spec (sheetData : list StudentSheetData)
    (allDates : list string) (startDate endDate selected : string)
    (s : StudentSheetData) (relevant : list string) :
  selected ≠ "" → startDate ≠ "" → endDate ≠ "" →
  List.find (fun x => String.eqb (studentName x) selected) sheetData = Some s →
  selectRange sheetData allDates startDate endDate = Some relevant →
  (∀ c, StudentProgressChart.studentChartData
          sheetData allDates startDate endDate selected
        = List.filter StudentProgressChart.hasGrade
            (currentStudentChartData (dateLoop relevant s c)))
  ∧ Forall (fun p => ∃ g, cdGrade p = Some g)
      (StudentProgressChart.studentChartData
         sheetData allDates startDate endDate selected).
Proof.
  intros Hsel Hstart Hend Hfind Hrange.
  destruct (find_some_elem _ _ _ Hfind) as [Hin _].
  assert (E : StudentProgressChart.studentChartData
                sheetData allDates startDate endDate selected
              = List.filter StudentProgressChart.hasGrade (timeSeries relevant s)).
  { unfold StudentProgressChart.studentChartData.
    apply String.eqb_neq in Hsel, Hstart, Hend. rewrite Hsel, Hstart, Hend.
    destruct sheetData as [|s0 l]; [by apply elem_of_nil in Hin|].
    cbn [length Nat.eqb orb]. rewrite Hfind.
    apply selectRange_Some in Hrange as (i & j & -> & -> & Hij & ->).
    destruct (Nat.ltb_spec j i) as [?|_]; [lia|].
    rewrite chartPoints_timeSeries. unfold timeSeries.
    by rewrite selectedEntries_filter. }
  split.
  - intros c. destruct (dateLoop_fields relevant s c) as (_ & _ & _ & E4).
    by rewrite E4.
  - rewrite E. apply Forall_forall. intros p Hp.
    apply list_elem_of_In, filter_In in Hp as [_ Hp].
    unfold StudentProgressChart.hasGrade in Hp.
    destruct (cdGrade p) as [g|]; [by exists g|discriminate].
Qed.

Lemma progress_chart_witness :
  "Dani" ≠ "" ∧ "D1" ≠ "" ∧ "D2" ≠ ""
  ∧ List.find (fun x => String.eqb (studentName x) "Dani") [caro; dani] = Some dani
  ∧ selectRange [caro; dani] ["D1"; "D2"] "D1" "D2" = Some ["D1"; "D2"]
  ∧ Forall (fun p => ∃ g, cdGrade p = Some g)
      (StudentProgressChart.studentChartData
         [caro; dani] ["D1"; "D2"] "D1" "D2" "Dani").
Proof.
  split; [discriminate|]. split; [discriminate|]. split; [discriminate|].
  split; [reflexivity|]. split; [reflexivity|].
  exact (proj2 (progress_chart_spec [caro; dani] ["D1"; "D2"] "D1" "D2" "Dani"
                  dani ["D1"; "D2"]
                  ltac:(discriminate) ltac:(discriminate) ltac:(discriminate)
                  eq_refl eq_refl)).
Defined.

Lemma pendingOf_trimmed (s : StudentSheetData) (date : string) :
  gradesTrimmed s →
  StudentPendingActivities.pendingOf s date
  = match grades s !! date with
    | Some a =>
        if isPendingDate s date
        then Some {| StudentPendingActivities.pdDate := date;
                     StudentPendingActivities.pdTopic := topic a;
                     StudentPendingActivities.pdGrade :=
                       if String.eqb (grade a) "" then "Vacío" else grade a |}
        else None
    | None => None
    end.
Proof.
  intros Ht. unfold StudentPendingActivities.pendingOf, isPendingDate.
  destruct (grades s !! date) as [a|] eqn:Ha; [|done].
  rewrite pending_convert_same, (Ht date a Ha).
  destruct (convertGradeToNumeric (grade a)) eqn:Hc; [done|].
  change (StudentPendingActivities.isQualitativeGrade (grade a))
    with (isQualitativeGrade (grade a)).
  destruct (isQualitativeGrade (grade a)) eqn:Hq; [|done].
  by apply qualitative_interpretable in Hq.
Qed.

Lemma pendingDetails_filter (sheetData : list StudentSheetData)
    (s : StudentSheetData) (l : list string) :
  s ∈ sheetData →
  pendingDetails
    (List.filter (fun date => existsb (fun x => hasEntry x date) sheetData) l) s
  = pendingDetails l s.
Proof.
  intros Hs. rewrite !pendingDetails_spec. unfold missingDetails.
  by rewrite selectedEntries_filter.
Qed.

Lemma pending_texts (s : StudentSheetData) (l : list string) :
  gradesTrimmed s →
  map pendingText
      (omap (StudentPendingActivities.pendingOf s) (List.filter (hasEntry s) l))
  = pendingDetails l s.
Proof.
  intros Ht. unfold pendingDetails.
  induction l as [|d l IH]; [done|]. cbn [List.filter].
  unfold hasEntry at 1.
  destruct (grades s !! d) as [a|] eqn:Ha.
  - cbn [omap list_omap]. rewrite (pendingOf_trimmed s d Ht), Ha.
    destruct (isPendingDate s d) eqn:Hp.
    + cbn [map]. rewrite IH. f_equal. unfold detailText. by rewrite Ha.
    + exact IH.
  - assert (E : isPendingDate s d = false)
      by (unfold isPendingDate; by rewrite Ha).
    rewrite E. exact IH.
Qed.

(** X14: for a student whose stored grades are trimmed, as ingestion leaves
    them, the pending-activity list has one item for each selected date whose
    entry normalises to none: its items spell, in order, the details of the
    student's at-risk entry, and their number is the missing count of the
    analysis over the same range. *)
Theorem pending_matches_missing (sheetData : list StudentSheetData)
    (allDates : list string) (startDate endDate selected : string)
    (s : StudentSheetData) (relevant : list string) :
  selected ≠ "" → startDate ≠ "" → endDate ≠ "" →
  List.find (fun x => String.eqb (studentName x) selected) sheetData = Some s →
  selectRange sheetData allDates startDate endDate = Some relevant →
  (∀ date a, grades s !! date = Some a → Js.trim (grade a) = grade a) →
  map pendingText
      (StudentPendingActivities.pendingActivities
         sheetData allDates startDate endDate selected)
  = pendingDetails relevant s
  ∧ ∀ c, length (StudentPendingActivities.pendingActivities
                   sheetData allDates startDate endDate selected)
         = missingActivitiesCount (dateLoop relevant s c).
Proof.
  intros Hsel Hstart Hend Hfind Hrange Ht.
  destruct (find_some_elem _ _ _ Hfind) as [Hin _].
  assert (E : map pendingText
                (StudentPendingActivities.pendingActivities
                   sheetData allDates startDate endDate selected)
              = pendingDetails relevant s).
  { unfold StudentPendingActivities.pendingActivities.
    apply String.eqb_neq in Hsel, Hstart, Hend. rewrite Hsel, Hstart, Hend.
    destruct sheetData as [|s0 l]; [by apply elem_of_nil in Hin|].
    cbn [length Nat.eqb orb]. rewrite Hfind.
    apply selectRange_Some in Hrange as (i & j & -> & -> & Hij & ->).
    destruct (Nat.ltb_spec j i) as [?|_]; [lia|].
    rewrite (pending_texts s _ Ht). by rewrite pendingDetails_filter. }
  split; [exact E|]. intros c.
  rewrite <- (length_map pendingText), E, pendingDetails_spec.
  destruct (dateLoop_fields relevant s c) as (_ & E2 & _). rewrite E2.
  unfold missingDetails, missingCount. by rewrite length_map.
Qed.

Lemma pending_matches_missing_witness :
  "Dani" ≠ "" ∧ "D1" ≠ "" ∧ "D2" ≠ ""
  ∧ List.find (fun x => String.eqb (studentName x) "Dani") [caro; dani] = Some dani
  ∧ selectRange [caro; dani] ["D1"; "D2"] "D1" "D2" = Some ["D1"; "D2"]
  ∧ (∀ date a, grades dani !! date = Some a → Js.trim (grade a) = grade a)
  ∧ map pendingText
        (StudentPendingActivities.pendingActivities
           [caro; dani] ["D1"; "D2"] "D1" "D2" "Dani")
    = pendingDetails ["D1"; "D2"] dani.
Proof.
  assert (Ht : ∀ date a, grades dani !! date = Some a
                         → Js.trim (grade a) = grade a).
  { intros date a Ha. unfold dani, student in Ha. simpl in Ha.
    apply lookup_insert_Some in Ha as [[_ <-]|[_ Ha]]; [reflexivity|].
    apply lookup_insert_Some in Ha as [[_ <-]|[_ Ha]]; [reflexivity|].
    by rewrite lookup_empty in Ha. }
  split; [discriminate|]. split; [discriminate|]. split; [discriminate|].
  split; [reflexivity|]. split; [reflexivity|]. split; [exact Ht|].
  exact (proj1 (pending_matches_missing [caro; dani] ["D1"; "D2"] "D1" "D2"
                  "Dani" dani ["D1"; "D2"]
                  ltac:(discriminate) ltac:(discriminate) ltac:(discriminate)
                  eq_refl eq_refl Ht)).
Defined.

(** ** Quantitative averages *)

Lemma quantitative_loop_fold (s : StudentSheetData) (relevant : list string)
    (st : QuantitativeAverages.Loop) :
  let r := fold_left (QuantitativeAverages.dateStep s) relevant st in
  QuantitativeAverages.quantitativeGradesSum r
  = (QuantitativeAverages.quantitativeGradesSum st
     + sumQc (map (fun e => default (num 0)
                      (QuantitativeAnalysisSection.convertGradeToNumeric
                         (grade e.2)))
                  (quantitativeEntries relevant s)))%Qc
  ∧ QuantitativeAverages.quantitativeGradesCount r
    = QuantitativeAverages.quantitativeGradesCount st
      + length (quantitativeEntries relevant s)
  ∧ QuantitativeAverages.quantitativeDetails r
    = (QuantitativeAverages.quantitativeDetails st
       ++ map (fun e => (topic e.2, Js.toUpperCase (grade e.2)))
              (quantitativeEntries relevant s))%list.
Proof.
  revert st. induction relevant as [|date rel IH]; intros st.
  - simpl. unfold quantitativeEntries. simpl.
    change (sumQc []) with (num 0). rewrite Qcplus_0_r, app_nil_r.
    repeat split. lia.
  - cbn [fold_left]. cbv zeta in IH |- *.
    destruct (IH (QuantitativeAverages.dateStep s st date)) as (E1 & E2 & E3).
    rewrite E1, E2, E3. clear IH E1 E2 E3.
    unfold quantitativeEntries, QuantitativeAverages.dateStep.
    rewrite selectedEntries_cons.
    destruct (grades s !! date) as [a|]; [|done].
    cbn [List.filter snd].
    destruct (QuantitativeAverages.isQuantitativeGrade (grade a)); [|done].
    cbn [QuantitativeAverages.quantitativeGradesSum
           QuantitativeAverages.quantitativeGradesCount
           QuantitativeAverages.quantitativeDetails map length snd].
    change (sumQc (?x :: ?l)) with (x + sumQc l)%Qc.
    rewrite <- Qcplus_assoc, <- app_assoc. repeat split. lia.
Qed.

Lemma quantitative_list_fold (relevant : list string)
    (l : list StudentSheetData)
    (acc : list QuantitativeAverages.QuantitativeStudentAverage) :
  map QuantitativeAverages.qaStudentName
      (fold_left (QuantitativeAverages.studentStep relevant) l acc)
  = (map QuantitativeAverages.qaStudentName acc
     ++ map studentName
          (List.filter (fun s => negb (length (quantitativeEntries relevant s) =? 0)%nat)
                       l))%list.
Proof.
  revert acc. induction l as [|s l IH]; intros acc.
  - simpl. by rewrite app_nil_r.
  - cbn [fold_left List.filter]. rewrite IH.
    unfold QuantitativeAverages.studentStep, QuantitativeAverages.dateLoop.
    destruct (quantitative_loop_fold s relevant
                {| QuantitativeAverages.quantitativeGradesSum := num 0;
                   QuantitativeAverages.quantitativeGradesCount := 0;
                   QuantitativeAverages.quantitativeDetails := [] |})
      as (_ & E2 & _).
    cbv zeta in E2. rewrite E2.
    cbn [QuantitativeAverages.quantitativeGradesCount Nat.add].
    destruct (length (quantitativeEntries relevant s)); simpl; [done|].
    by rewrite map_app, <- app_assoc.
Qed.

Lemma parsed_is_quantitative (g : string) (v : Qc) :
  Js.parseFloat g = Some v →
  QuantitativeAverages.isQuantitativeGrade g = true.
Proof.
  intros H. unfold QuantitativeAverages.isQuantitativeGrade, parseFloatIsNaN.
  rewrite H. simpl.
  change (QuantitativeAverages.isQualitativeGrade g) with (isQualitativeGrade g).
  by rewrite (parsed_not_qualitative g v H).
Qed.

Lemma qualitative_not_quantitative (g : string) :
  isQualitativeGrade g = true →
  QuantitativeAverages.isQuantitativeGrade g = false.
Proof.
  intros H. unfold QuantitativeAverages.isQuantitativeGrade.
  change (QuantitativeAverages.isQualitativeGrade g) with (isQualitativeGrade g).
  rewrite H. apply andb_false_r.
Qed.

Lemma small_number_agrees (g : string) (v : Qc) :
  Js.parseFloat g = Some v → (v <= num 9)%Qc →
  QuantitativeAnalysisSection.convertGradeToNumeric g = Some v
  ∧ convertGradeToNumeric g = Some v.
Proof.
  intros Hp Hv.
  pose proof (parsed_not_qualitative g v Hp) as Hq.
  rewrite (quantitative_convert_numeric g Hq), (convert_numeric g Hq).
  rewrite parseFloat_upper, Hp. simpl. unfold gtb, rescale.
  rewrite bool_decide_eq_false_2.
  2:{ intros C. unfold Qclt, Qcle in *. lra. }
  destruct (decide (num 10 < v)%Qc) as [C|_]; [|done].
  exfalso. unfold Qclt, Qcle in *. rewrite !this_num in *.
  unfold inject_Z in *. lra.
Qed.

Lemma selectedEntries_elem (relevant : list string) (s : StudentSheetData)
    (date : string) (a : StudentGradeEntry) :
  (date, a) ∈ selectedEntries relevant s →
  date ∈ relevant ∧ grades s !! date = Some a.
Proof.
  unfold selectedEntries. intros (d & Hd & Ha)%list_elem_of_omap.
  destruct (grades s !! d) as [a'|] eqn:Hg; [|discriminate].
  injection Ha as <- <-. done.
Qed.

Lemma filter_none {A : Type} (p : A → bool) (l : list A) :
  Forall (fun x => p x = false) l → List.filter p l = [].
Proof. induction 1 as [|x l Hx _ IH]; simpl; [done|]. by rewrite Hx. Qed.

Lemma map_ext_Forall {A B : Type} (f g : A → B) (l : list A) :
  Forall (fun x => f x = g x) l → map f l = map g l.
Proof. induction 1 as [|x l Hx _ IH]; simpl; [done|]. by rewrite Hx, IH. Qed.

(** X15: the quantitative averages list, in record order, the students with
    at least one selected entry that parses as a number and is not a
    qualitative code; a student whose selected entries are all qualitative
    codes is left out. For a student whose selected entries all parse to
    numbers of at most 9, the average shown is the projected average that the
    analysis stores for the same range. *)
Theorem quantitative_averages_spec (sheetData : list StudentSheetData)
    (allDates : list string) (startDate endDate : string)
    (relevant : list string) :
  sheetData ≠ [] → startDate ≠ "" → endDate ≠ "" →
  selectRange sheetData allDates startDate endDate = Some relevant →
  map QuantitativeAverages.qaStudentName
      (QuantitativeAverages.quantitativeAverages
         sheetData allDates startDate endDate)
  = map studentName
        (List.filter
           (fun s => negb (length (quantitativeEntries relevant s) =? 0)%nat)
           sheetData)
  ∧ (∀ s acc,
       (∀ date a, date ∈ relevant → grades s !! date = Some a →
                  isQualitativeGrade (grade a) = true) →
       QuantitativeAverages.studentStep relevant acc s = acc)
  ∧ (∀ s acc c,
       (∀ date a, date ∈ relevant → grades s !! date = Some a →
                  ∃ v, Js.parseFloat (grade a) = Some v ∧ (v <= num 9)%Qc) →
       0 < studentActivitiesCount (dateLoop relevant s c) →
       ∃ details,
         QuantitativeAverages.studentStep relevant acc s
         = (acc ++ [{| QuantitativeAverages.qaStudentName := studentName s;
                       QuantitativeAverages.qaAverage :=
                         Fmt.toFixed2 (averageOf (dateLoop relevant s c));
                       QuantitativeAverages.qaDetails := details |}])%list
         ∧ length details = studentActivitiesCount (dateLoop relevant s c)).
Proof.
  intros Hne Hstart Hend Hsel. split; [|split].
  - unfold QuantitativeAverages.quantitativeAverages.
    apply String.eqb_neq in Hstart, Hend. rewrite Hstart, Hend, Hsel.
    destruct sheetData as [|s0 l]; [done|]. cbn [length Nat.eqb orb].
    by rewrite quantitative_list_fold.
  - intros s acc Hq.
    unfold QuantitativeAverages.studentStep, QuantitativeAverages.dateLoop.
    destruct (quantitative_loop_fold s relevant
                {| QuantitativeAverages.quantitativeGradesSum := num 0;
                   QuantitativeAverages.quantitativeGradesCount := 0;
                   QuantitativeAverages.quantitativeDetails := [] |})
      as (_ & E2 & _).
    cbv zeta in E2. rewrite E2. unfold quantitativeEntries.
    rewrite filter_none; [done|].
    apply Forall_forall. intros [date a] Hin. cbn [snd].
    apply selectedEntries_elem in Hin as [Hd Ha].
    apply qualitative_not_quantitative. by apply (Hq date a).
  - intros s acc c Hnum Hpos.
    assert (Hall : Forall (fun e => ∃ v, Js.parseFloat (grade e.2) = Some v
                                        ∧ (v <= num 9)%Qc)
                          (selectedEntries relevant s)).
    { apply Forall_forall. intros [date a] Hin. cbn [snd].
      apply selectedEntries_elem in Hin as [Hd Ha]. by apply (Hnum date a). }
    assert (Hq : quantitativeEntries relevant s = selectedEntries relevant s).
    { unfold quantitativeEntries. apply filter_all.
      eapply Forall_impl; [exact Hall|]. intros e (v & Hv & _).
      by apply (parsed_is_quantitative _ v). }
    assert (Hs : map (fun e => default (num 0)
                        (QuantitativeAnalysisSection.convertGradeToNumeric
                           (grade e.2)))
                     (selectedEntries relevant s)
                 = map (fun e => projectionValue e.2) (selectedEntries relevant s)).
    { apply map_ext_Forall. eapply Forall_impl; [exact Hall|].
      intros e (v & Hv & Hle). unfold projectionValue.
      destruct (small_number_agrees _ v Hv Hle) as [-> ->]. done. }
    destruct (dateLoop_fields relevant s c) as (_ & _ & E3 & _).
    rewrite averageOf_dateLoop, E3 in *.
    unfold QuantitativeAverages.studentStep, QuantitativeAverages.dateLoop.
    destruct (quantitative_loop_fold s relevant
                {| QuantitativeAverages.quantitativeGradesSum := num 0;
                   QuantitativeAverages.quantitativeGradesCount := 0;
                   QuantitativeAverages.quantitativeDetails := [] |})
      as (E1 & E2 & E4).
    cbv zeta in E1, E2, E4. rewrite E1, E2, E4, Hq, Hs.
    cbn [QuantitativeAverages.quantitativeGradesSum
           QuantitativeAverages.quantitativeGradesCount
           QuantitativeAverages.quantitativeDetails Nat.add app].
    rewrite Qcplus_0_l. fold (projectionSum relevant s).
    fold (activitiesCount relevant s).
    destruct (activitiesCount relevant s) as [|n] eqn:En; [lia|].
    cbn [Nat.ltb Nat.leb]. eexists. split.
    + unfold projectedAverageOf. rewrite En. cbn [Nat.eqb]. reflexivity.
    + rewrite length_map. exact En.
Qed.

Lemma quantitative_averages_witness :
  [caro; dani] ≠ [] ∧ "D1" ≠ "" ∧ "D2" ≠ ""
  ∧ selectRange [caro; dani] ["D1"; "D2"] "D1" "D2" = Some ["D1"; "D2"]
  ∧ map QuantitativeAverages.qaStudentName
        (QuantitativeAverages.quantitativeAverages
           [caro; dani] ["D1"; "D2"] "D1" "D2")
    = map studentName
          (List.filter
             (fun s => negb (length (quantitativeEntries ["D1"; "D2"] s) =? 0)%nat)
             [caro; dani]).
Proof.
  split; [discriminate|]. split; [discriminate|]. split; [discriminate|].
  split; [reflexivity|].
  exact (proj1 (quantitative_averages_spec [caro; dani] ["D1"; "D2"] "D1" "D2"
                  ["D1"; "D2"] ltac:(discriminate) ltac:(discriminate)
                  ltac:(discriminate) eq_refl)).
Defined.

(** ** The default range after loading a sheet *)

Lemma indexOf_elem (l : list string) (x : string) :
  x ∈ l → ∃ i, indexOf l x = Some i.
Proof.
  intros Hx. destruct (indexOf l x) as [i|] eqn:E; [by exists i|].
  by apply indexOf_None in E.
Qed.

Lemma indexOf_last_NoDup (l : list string) :
  l ≠ [] → NoDup l →
  indexOf l (nth (length l - 1) l "") = Some (length l - 1).
Proof.
  intros Hne Hnd. apply indexOf_Some.
  assert (Hlen : length l - 1 < length l) by (destruct l; [done|simpl; lia]).
  assert (Hl : l !! (length l - 1) = Some (nth (length l - 1) l "")).
  { destruct (lookup_lt_is_Some_2 l _ Hlen) as [x Hx].
    by rewrite (nth_lookup_Some _ _ "" _ Hx). }
  split; [exact Hl|]. intros k Hk Hk'.
  pose proof (NoDup_lookup l k (length l - 1) _ Hnd Hk' Hl). lia.
Qed.

(** X16: after a sheet with at least one date column is loaded, the range
    preselected from the first to the last date is never an invalid range:
    the analysis run on the new state fails only for want of students or of
    a non-empty first or last date label. When the date labels are distinct
    the preselected range covers the whole date axis. *)
Theorem default_range_valid (st : App.State) (jsonSheet : list (list string))
    (recs : list StudentSheetData) (ds : list string) :
  processXLSXSheetData jsonSheet = Some (recs, ds) → ds ≠ [] →
  let st' := App.loadSheet st (Some jsonSheet) in
  App.sheetData st' = recs ∧ App.allDates st' = ds
  ∧ App.analysisResults st' = None
  ∧ (∃ relevant,
        selectRange recs ds (App.startDate st') (App.endDate st') = Some relevant
        ∧ (NoDup ds →
           relevant
           = List.filter
               (fun date => existsb (fun s => hasEntry s date) recs) ds))
  ∧ App.analyseState st' ≠ inl InvalidRange
  ∧ (recs ≠ [] → App.startDate st' ≠ "" → App.endDate st' ≠ "" →
     ∃ r, App.analyseState st' = inr r).
Proof.
  intros Hp Hne st'. subst st'. unfold App.loadSheet. rewrite Hp.
  destruct ds as [|d0 ds']; [done|].
  cbn [App.sheetData App.allDates App.startDate App.endDate
         App.analysisResults].
  set (dl := nth (length (d0 :: ds') - 1) (d0 :: ds') "").
  assert (Hdl : dl ∈ d0 :: ds').
  { apply list_elem_of_In, nth_In. simpl. lia. }
  destruct (indexOf_elem _ _ Hdl) as [j Hj].
  assert (H0 : indexOf (d0 :: ds') d0 = Some 0)
    by (simpl; by rewrite String.eqb_refl).
  assert (Hsel : selectRange recs (d0 :: ds') d0 dl
                 = Some (List.filter
                           (fun date => existsb (fun s => hasEntry s date) recs)
                           (slice (d0 :: ds') 0 (j + 1)))).
  { unfold selectRange. rewrite H0, Hj. reflexivity. }
  split; [done|]. split; [done|]. split; [done|]. split; [|split].
  - eexists. split; [exact Hsel|]. intros Hnd. unfold dl in Hj.
    rewrite (indexOf_last_NoDup (d0 :: ds')) in Hj by done.
    injection Hj as <-. f_equal. unfold slice.
    rewrite Nat.sub_0_r. cbn [drop].
    apply firstn_all2. simpl. lia.
  - unfold App.analyseState, performAnalysis.
    cbn [App.sheetData App.allDates App.startDate App.endDate].
    fold dl. rewrite Hsel.
    by destruct ((length recs =? 0)%nat || String.eqb d0 "" || String.eqb dl "").
  - intros Hr Hs He. unfold App.analyseState, performAnalysis.
    cbn [App.sheetData App.allDates App.startDate App.endDate].
    fold dl. fold dl in He. rewrite Hsel.
    apply String.eqb_neq in Hs, He. rewrite Hs, He.
    destruct recs; [done|]. cbn [length Nat.eqb orb]. eauto.
Qed.

Lemma default_range_valid_witness :
  processXLSXSheetData sheetAnaBeto
  = Some (studentRecords sheetAnaBeto, dates sheetAnaBeto)
  ∧ dates sheetAnaBeto ≠ []
  ∧ ∀ st, App.analyseState (App.loadSheet st (Some sheetAnaBeto))
          ≠ inl InvalidRange.
Proof.
  split; [reflexivity|]. split; [discriminate|]. intros st.
  exact (proj1 (proj2 (proj2 (proj2 (proj2
           (default_range_valid st sheetAnaBeto _ _ eq_refl
              ltac:(discriminate))))))).
Defined.

(** ** Expansion state *)

Lemma lastChar_app (t u : string) :
  u ≠ "" → lastChar (t ++ u) = lastChar u.
Proof.
  intros Hu. induction t as [|c r IH]; [done|].
  change (lastChar (String c (r ++ u)) = lastChar u).
  destruct (r ++ u)%string as [|c' r'] eqn:E.
  - exfalso. apply Hu. destruct r; [exact E|discriminate E].
  - rewrite <- IH. reflexivity.
Qed.

Lemma string_length_app (a b : string) :
  String.length (a ++ b) = String.length a + String.length b.
Proof.
  induction a as [|c r IH]; [done|].
  change (S (String.length (r ++ b)) = S (String.length r + String.length b)).
  by rewrite IH.
Qed.


(** ** Dictionaries that keep the order of insertion *)

Section ObjFacts.

Context {V : Type}.
Implicit Types (o : list (string * V)) (k : string) (v : V).

Lemma objGet_objSet_eq o k v : Ranking.objGet (Ranking.objSet o k v) k = Some v.
Proof.
  induction o as [|[k' v'] r IH]; simpl.
  - by rewrite String.eqb_refl.
  - destruct (String.eqb k' k) eqn:E; simpl; by rewrite E.
Qed.

Lemma objGet_objSet_ne o k k' v :
  k ≠ k' → Ranking.objGet (Ranking.objSet o k v) k' = Ranking.objGet o k'.
Proof.
  intros Hne. induction o as [|[k0 v0] r IH]; simpl.
  - apply String.eqb_neq in Hne. by rewrite Hne.
  - destruct (String.eqb_spec k0 k) as [->|Hk]; simpl.
    + apply String.eqb_neq in Hne. by rewrite Hne.
    + by rewrite IH.
Qed.

Lemma objGet_is_Some o k :
  is_Some (Ranking.objGet o k) ↔ k ∈ map fst o.
Proof.
  induction o as [|[k0 v0] r IH]; simpl.
  - split; [by intros [? ?]|by intros ?%elem_of_nil].
  - rewrite elem_of_cons. destruct (String.eqb_spec k0 k) as [->|Hk].
    + split; [by left|by eauto].
    + rewrite IH. split; [by right|]. intros [?|?]; [congruence|done].
Qed.

Lemma objSet_keys o k v :
  map fst (Ranking.objSet o k v) = addKey (map fst o) k.
Proof.
  induction o as [|[k0 v0] r IH].
  - unfold addKey. cbn [Ranking.objSet map fst].
    case_bool_decide as H; [by apply elem_of_nil in H|done].
  - cbn [Ranking.objSet]. destruct (String.eqb_spec k0 k) as [->|Hk].
    + unfold addKey. cbn [map fst]. case_bool_decide as H; [done|].
      exfalso. apply H. by left.
    + cbn [map fst]. rewrite IH. unfold addKey.
      repeat case_bool_decide; try done.
      * exfalso. match goal with H : k ∉ _ :: _ |- _ => apply H end. by right.
      * exfalso.
        match goal with H : k ∈ _ :: _ |- _ =>
          apply elem_of_cons in H as [?|?] end; [congruence|done].
Qed.

Lemma objSet_same o k v :
  Ranking.objGet o k = Some v → Ranking.objSet o k v = o.
Proof.
  induction o as [|[k0 v0] r IH]; simpl; [discriminate|].
  destruct (String.eqb k0 k); [by intros [= ->]|]. intros H. by rewrite IH.
Qed.

Lemma objSet_twice o k v v' :
  Ranking.objSet (Ranking.objSet o k v) k v' = Ranking.objSet o k v'.
Proof.
  induction o as [|[k0 v0] r IH]; simpl.
  - by rewrite String.eqb_refl.
  - destruct (String.eqb k0 k) eqn:E; simpl; rewrite E; [done|by rewrite IH].
Qed.

Lemma objGet_elem o k v :
  NoDup (map fst o) → (k, v) ∈ o → Ranking.objGet o k = Some v.
Proof.
  induction o as [|[k0 v0] r IH]; simpl; intros Hnd Hin.
  - by apply elem_of_nil in Hin.
  - apply NoDup_cons in Hnd as [Hk0 Hnd].
    apply elem_of_cons in Hin as [[= -> ->]|Hin].
    + by rewrite String.eqb_refl.
    + destruct (String.eqb_spec k0 k) as [->|_]; [|by apply IH].
      exfalso. apply Hk0. apply list_elem_of_fmap. by exists (k, v).
Qed.

End ObjFacts.

Lemma addKey_NoDup (ks : list string) (k : string) :
  NoDup ks → NoDup (addKey ks k).
Proof.
  intros H. unfold addKey. case_bool_decide; [done|].
  apply NoDup_app. split; [done|]. split; [|apply NoDup_singleton].
  intros x Hx ->%list_elem_of_singleton. done.
Qed.

Lemma addKey_elem (ks : list string) (k x : string) :
  x ∈ addKey ks k ↔ x ∈ ks ∨ x = k.
Proof.
  unfold addKey. case_bool_decide as Hk.
  - split; [by left|]. intros [?| ->]; done.
  - rewrite elem_of_app, list_elem_of_singleton. done.
Qed.

Lemma addKeys_NoDup (l ks : list string) :
  NoDup ks → NoDup (fold_left addKey l ks).
Proof.
  revert ks. induction l as [|k l IH]; intros ks H; simpl; [done|].
  by apply IH, addKey_NoDup.
Qed.

Lemma addKeys_elem (l ks : list string) (x : string) :
  x ∈ fold_left addKey l ks ↔ x ∈ ks ∨ x ∈ l.
Proof.
  revert ks. induction l as [|k l IH]; intros ks; simpl.
  - split; [by left|]. intros [?|?%elem_of_nil]; done.
  - rewrite IH, addKey_elem, elem_of_cons. tauto.
Qed.

(** ** The pass that fills the dictionaries *)

Lemma pair_eq {A B : Type} (a c : A) (b d : B) : a = c → b = d → (a, b) = (c, d).
Proof. by intros -> ->. Qed.

Lemma pushDetail_spec (details : list (string * list Ranking.StudentGradeDetail))
    (t : string) (d : Ranking.StudentGradeDetail) :
  Ranking.pushDetail details t d
  = Ranking.objSet details t (default [] (Ranking.objGet details t) ++ [d])%list.
Proof.
  unfold Ranking.pushDetail.
  destruct (Ranking.objGet details t) as [l|] eqn:E.
  - by rewrite E.
  - rewrite objGet_objSet_eq. simpl. apply objSet_twice.
Qed.

Lemma activityGrades_step (s : StudentSheetData) (a : StudentGradeEntry)
    (acc : Ranking.Acc) :
  Ranking.activityGrades (Ranking.activityStep s a acc)
  = Ranking.objSet (Ranking.activityGrades acc) (topic a)
      (bump (Ranking.objGet (Ranking.activityGrades acc) (topic a))
            (convertGradeToNumeric (grade a))).
Proof.
  unfold Ranking.activityStep, bump. cbn [Ranking.activityGrades].
  destruct (Ranking.objGet (Ranking.activityGrades acc) (topic a))
    as [[sum count]|] eqn:E;
    destruct (convertGradeToNumeric (grade a)) as [g|]; simpl.
  - by rewrite E.
  - symmetry. by apply objSet_same.
  - rewrite objGet_objSet_eq. apply objSet_twice.
  - done.
Qed.

Lemma lowDetails_step (s : StudentSheetData) (a : StudentGradeEntry)
    (acc : Ranking.Acc) :
  Ranking.lowGradeActivitiesDetails (Ranking.activityStep s a acc)
  = match convertGradeToNumeric (grade a) with
    | Some g =>
        if below6 g
        then Ranking.objSet (Ranking.lowGradeActivitiesDetails acc) (topic a)
               (default [] (Ranking.objGet (Ranking.lowGradeActivitiesDetails acc)
                              (topic a))
                ++ [{| Ranking.sgStudentName := studentName s;
                       Ranking.sgGrade := grade a |}])%list
        else Ranking.lowGradeActivitiesDetails acc
    | None => Ranking.lowGradeActivitiesDetails acc
    end.
Proof.
  unfold Ranking.activityStep, below6. cbn [Ranking.lowGradeActivitiesDetails].
  destruct (convertGradeToNumeric (grade a)) as [g|]; [|done].
  destruct (ltb g (num 6)); [apply pushDetail_spec|done].
Qed.

Lemma highDetails_step (s : StudentSheetData) (a : StudentGradeEntry)
    (acc : Ranking.Acc) :
  Ranking.highGradeActivitiesDetails (Ranking.activityStep s a acc)
  = match convertGradeToNumeric (grade a) with
    | Some g =>
        if atLeast8 g
        then Ranking.objSet (Ranking.highGradeActivitiesDetails acc) (topic a)
               (default [] (Ranking.objGet (Ranking.highGradeActivitiesDetails acc)
                              (topic a))
                ++ [{| Ranking.sgStudentName := studentName s;
                       Ranking.sgGrade := grade a |}])%list
        else Ranking.highGradeActivitiesDetails acc
    | None => Ranking.highGradeActivitiesDetails acc
    end.
Proof.
  unfold Ranking.activityStep, atLeast8. cbn [Ranking.highGradeActivitiesDetails].
  destruct (convertGradeToNumeric (grade a)) as [g|]; [|done].
  destruct (negb (ltb g (num 8))); [apply pushDetail_spec|done].
Qed.

Lemma dateSteps_entries (s : StudentSheetData) (relevant : list string)
    (acc : Ranking.Acc) :
  fold_left (Ranking.dateStep s) relevant acc
  = fold_left visitStep (map (fun e => (s, e.2)) (selectedEntries relevant s)) acc.
Proof.
  revert acc. induction relevant as [|d l IH]; intros acc; [done|].
  cbn [fold_left]. rewrite IH, selectedEntries_cons. unfold Ranking.dateStep.
  by destruct (grades s !! d).
Qed.

Lemma collect_visits (relevant : list string) (sheetData : list StudentSheetData)
    (acc : Ranking.Acc) :
  fold_left (fun acc s => fold_left (Ranking.dateStep s) relevant acc)
            sheetData acc
  = fold_left visitStep (visits relevant sheetData) acc.
Proof.
  revert acc. unfold visits. induction sheetData as [|s l IH]; intros acc; [done|].
  cbn [fold_left flat_map]. by rewrite fold_left_app, IH, dateSteps_entries.
Qed.

Lemma gradesOfTopic_unseen (t : string)
    (vs : list (StudentSheetData * StudentGradeEntry)) :
  existsb (fun v => String.eqb (topic v.2) t) vs = false →
  gradesOfTopic t vs = [].
Proof.
  unfold gradesOfTopic. induction vs as [|v vs IH]; [done|]. simpl.
  destruct (String.eqb (topic v.2) t); [discriminate|]. exact IH.
Qed.

Lemma ag_keys (vs : list (StudentSheetData * StudentGradeEntry))
    (acc : Ranking.Acc) :
  map fst (Ranking.activityGrades (fold_left visitStep vs acc))
  = fold_left addKey (map (fun v => topic v.2) vs)
              (map fst (Ranking.activityGrades acc)).
Proof.
  revert acc. induction vs as [|v vs IH]; intros acc; [done|].
  cbn [fold_left map]. rewrite IH.
  change (visitStep acc v) with (Ranking.activityStep v.1 v.2 acc).
  by rewrite activityGrades_step, objSet_keys.
Qed.

Lemma ag_lookup (vs : list (StudentSheetData * StudentGradeEntry))
    (acc : Ranking.Acc) (t : string) :
  Ranking.objGet (Ranking.activityGrades (fold_left visitStep vs acc)) t
  = if existsb (fun v => String.eqb (topic v.2) t) vs
    then let p := default (num 0, 0%nat)
                    (Ranking.objGet (Ranking.activityGrades acc) t) in
         Some ((p.1 + sumQc (gradesOfTopic t vs))%Qc,
               p.2 + length (gradesOfTopic t vs))
    else Ranking.objGet (Ranking.activityGrades acc) t.
Proof.
  revert acc. induction vs as [|v vs IH]; intros acc; [done|].
  cbn [fold_left existsb]. rewrite IH. clear IH.
  change (visitStep acc v) with (Ranking.activityStep v.1 v.2 acc).
  rewrite activityGrades_step.
  assert (HG : gradesOfTopic t (v :: vs)
               = match (if String.eqb (topic v.2) t
                        then convertGradeToNumeric (grade v.2) else None) with
                 | Some g => g :: gradesOfTopic t vs
                 | None => gradesOfTopic t vs
                 end) by done.
  rewrite HG. clear HG.
  destruct (String.eqb_spec (topic v.2) t) as [E|E].
  - rewrite E, objGet_objSet_eq. cbn [orb default].
    set (prev := Ranking.objGet (Ranking.activityGrades acc) t).
    assert (Hb : ∀ n, bump prev n
                 = match n with
                   | Some g => (((default (num 0, 0%nat) prev).1 + g)%Qc,
                                S (default (num 0, 0%nat) prev).2)
                   | None => default (num 0, 0%nat) prev
                   end) by (by intros [g|]).
    rewrite Hb. clear Hb.
    destruct (existsb (fun v => String.eqb (topic v.2) t) vs) eqn:Hs.
    + cbv zeta. f_equal.
      destruct (convertGradeToNumeric (grade v.2)) as [g|]; [|done].
      cbv [id]. cbn [fst snd length].
      change (sumQc (g :: ?l)) with (g + sumQc l)%Qc.
      apply pair_eq; [by rewrite Qcplus_assoc|lia].
    + rewrite (gradesOfTopic_unseen t vs Hs). cbv zeta. f_equal.
      destruct (convertGradeToNumeric (grade v.2)) as [g|].
      * cbv [id]. cbn [fst snd length]. change (sumQc [g]) with (g + num 0)%Qc.
        apply pair_eq; [by rewrite Qcplus_0_r|lia].
      * cbn [length]. change (sumQc []) with (num 0).
        destruct (default (num 0, 0%nat) prev) as [q n]. cbn [fst snd].
        apply pair_eq; [by rewrite Qcplus_0_r|lia].
  - rewrite objGet_objSet_ne by done. cbn [orb]. done.
Qed.

Lemma details_lookup (test : Qc → bool)
    (vs : list (StudentSheetData * StudentGradeEntry))
    (o : list (string * list Ranking.StudentGradeDetail)) (t : string) :
  default [] (Ranking.objGet (fold_left (detailStep test) vs o) t)
  = (default [] (Ranking.objGet o t) ++ detailsOfTopic test t vs)%list.
Proof.
  revert o. induction vs as [|v vs IH]; intros o.
  - simpl. by rewrite app_nil_r.
  - cbn [fold_left]. rewrite IH. clear IH.
    unfold detailStep, detailsOfTopic. cbn [omap list_omap].
    destruct (convertGradeToNumeric (grade v.2)) as [g|]; [|done].
    destruct (test g); [|by rewrite andb_false_r].
    rewrite andb_true_r.
    destruct (String.eqb_spec (topic v.2) t) as [E|E].
    + rewrite E, objGet_objSet_eq. simpl. by rewrite <- app_assoc.
    + by rewrite objGet_objSet_ne.
Qed.

Lemma low_fold (vs : list (StudentSheetData * StudentGradeEntry))
    (acc : Ranking.Acc) :
  Ranking.lowGradeActivitiesDetails (fold_left visitStep vs acc)
  = fold_left (detailStep below6) vs (Ranking.lowGradeActivitiesDetails acc).
Proof.
  revert acc. induction vs as [|v vs IH]; intros acc; [done|].
  cbn [fold_left]. rewrite IH.
  change (visitStep acc v) with (Ranking.activityStep v.1 v.2 acc).
  by rewrite lowDetails_step.
Qed.

Lemma high_fold (vs : list (StudentSheetData * StudentGradeEntry))
    (acc : Ranking.Acc) :
  Ranking.highGradeActivitiesDetails (fold_left visitStep vs acc)
  = fold_left (detailStep atLeast8) vs (Ranking.highGradeActivitiesDetails acc).
Proof.
  revert acc. induction vs as [|v vs IH]; intros acc; [done|].
  cbn [fold_left]. rewrite IH.
  change (visitStep acc v) with (Ranking.activityStep v.1 v.2 acc).
  by rewrite highDetails_step.
Qed.

(** ** The stable sort *)

Section SortFacts.

Context {A : Type} (leb : A → A → bool) (P : A → Prop) (R : A → A → Prop).

Hypothesis leb_R : ∀ x y, P x → P y → (leb x y = true ↔ R x y).
Hypothesis R_total : ∀ x y, P x → P y → R x y ∨ R y x.
Hypothesis R_trans : ∀ x y z, R x y → R y z → R x z.

Lemma insertBy_perm (x : A) (l : list A) :
  Permutation (Ranking.insertBy leb x l) (x :: l).
Proof.
  induction l as [|y r IH]; simpl; [done|].
  destruct (leb x y); [done|]. rewrite IH. apply perm_swap.
Qed.

Lemma sortBy_perm (l : list A) : Permutation (Ranking.sortBy leb l) l.
Proof.
  induction l as [|x l IH]; simpl; [done|].
  rewrite insertBy_perm. by constructor.
Qed.

Lemma insertBy_sorted (x : A) (l : list A) :
  P x → Forall P l → StronglySorted R l →
  StronglySorted R (Ranking.insertBy leb x l).
Proof.
  intros Hx Hl Hs. induction Hs as [|y r Hr IH Hy]; simpl.
  - repeat constructor.
  - apply Forall_cons in Hl as [Py Pr].
    destruct (leb x y) eqn:E.
    + apply leb_R in E; [|done..]. constructor; [by constructor|].
      constructor; [done|]. eapply Forall_impl; [exact Hy|].
      intros z Hz. by apply (R_trans x y z).
    + constructor; [by apply IH|].
      rewrite insertBy_perm. constructor; [|done].
      destruct (R_total x y Hx Py) as [H|H]; [|done].
      apply leb_R in H; [congruence|done..].
Qed.

Lemma sortBy_sorted (l : list A) :
  Forall P l → StronglySorted R (Ranking.sortBy leb l).
Proof.
  induction 1 as [|x l Hx Hl IH]; simpl; [constructor|].
  apply insertBy_sorted; [done| |done].
  by rewrite sortBy_perm.
Qed.

End SortFacts.

Lemma StronglySorted_lookup {A : Type} (R : A → A → Prop) (l : list A)
    (i j : nat) (a b : A) :
  StronglySorted R l → i < j → l !! i = Some a → l !! j = Some b → R a b.
Proof.
  intros Hs. revert i j. induction Hs as [|x l Hl IH Hx]; intros i j Hij Ha Hb.
  - by rewrite lookup_nil in Ha.
  - destruct j as [|j]; [lia|]. destruct i as [|i]; simpl in *.
    + injection Ha as <-. apply (proj1 (Forall_forall _ _) Hx).
      by apply list_elem_of_lookup_2 in Hb.
    + apply (IH i j); [lia|done..].
Qed.

Lemma StronglySorted_split {A : Type} (R : A → A → Prop) (l1 l2 : list A)
    (a b : A) :
  StronglySorted R (l1 ++ l2) → a ∈ l1 → b ∈ l2 → R a b.
Proof.
  induction l1 as [|x l1 IH]; intros Hs Ha Hb; [by apply elem_of_nil in Ha|].
  simpl in Hs. apply StronglySorted_inv in Hs as [Hs Hx].
  apply elem_of_cons in Ha as [->|Ha]; [|by apply IH].
  apply (proj1 (Forall_forall _ _) Hx). apply elem_of_app. by right.
Qed.

Lemma filter_partition_perm {A : Type} (p : A → bool) (l : list A) :
  Permutation (List.filter p l ++ List.filter (fun x => negb (p x)) l) l.
Proof.
  induction l as [|x l IH]; simpl; [done|].
  destruct (p x); simpl.
  - by constructor.
  - rewrite <- Permutation_middle. by constructor.
Qed.

Lemma objectEntries_perm {V : Type} (o : list (string * V)) :
  Permutation (Ranking.objectEntries o) o.
Proof.
  unfold Ranking.objectEntries. rewrite sortBy_perm.
  apply filter_partition_perm.
Qed.

(** ** The activity rankings *)

Lemma collect_keys (relevant : list string) (sheetData : list StudentSheetData) :
  map fst (Ranking.activityGrades (Ranking.collect relevant sheetData))
  = distinctTopics (visits relevant sheetData).
Proof. unfold Ranking.collect. by rewrite collect_visits, ag_keys. Qed.

Lemma seen_topic (t : string) (vs : list (StudentSheetData * StudentGradeEntry)) :
  t ∈ distinctTopics vs →
  existsb (fun v => String.eqb (topic v.2) t) vs = true.
Proof.
  unfold distinctTopics. rewrite addKeys_elem.
  intros [H|H]; [by apply elem_of_nil in H|].
  apply list_elem_of_fmap in H as (v & -> & Hv).
  apply existsb_exists. exists v. split; [by apply list_elem_of_In|].
  apply String.eqb_refl.
Qed.

Lemma collect_lookup (relevant : list string) (sheetData : list StudentSheetData)
    (t : string) :
  t ∈ distinctTopics (visits relevant sheetData) →
  Ranking.objGet (Ranking.activityGrades (Ranking.collect relevant sheetData)) t
  = Some (sumQc (gradesOfTopic t (visits relevant sheetData)),
          length (gradesOfTopic t (visits relevant sheetData))).
Proof.
  intros Ht. unfold Ranking.collect.
  rewrite collect_visits, ag_lookup, (seen_topic _ _ Ht).
  cbn. by rewrite Qcplus_0_l.
Qed.

Lemma collect_low (relevant : list string) (sheetData : list StudentSheetData)
    (t : string) :
  default [] (Ranking.objGet
                (Ranking.lowGradeActivitiesDetails
                   (Ranking.collect relevant sheetData)) t)
  = detailsOfTopic below6 t (visits relevant sheetData).
Proof.
  unfold Ranking.collect. by rewrite collect_visits, low_fold, details_lookup.
Qed.

Lemma collect_high (relevant : list string) (sheetData : list StudentSheetData)
    (t : string) :
  default [] (Ranking.objGet
                (Ranking.highGradeActivitiesDetails
                   (Ranking.collect relevant sheetData)) t)
  = detailsOfTopic atLeast8 t (visits relevant sheetData).
Proof.
  unfold Ranking.collect. by rewrite collect_visits, high_fold, details_lookup.
Qed.

Lemma topicAverage_parse (t : string)
    (vs : list (StudentSheetData * StudentGradeEntry)) :
  Js.parseFloat (topicAverage t vs) = Some (topicValue t vs).
Proof.
  unfold topicAverage, topicValue. destruct (gradesOfTopic t vs) as [|g gs].
  - apply option_this_inj. vm_compute. reflexivity.
  - apply toFixed2_parse.
Qed.

Section RankingFacts.

Variable vs : list (StudentSheetData * StudentGradeEntry).
Variable ag : list (string * (Qc * nat)).
Variable details : list (string * list Ranking.StudentGradeDetail).
Variable test : Qc → bool.
Variable cmp : string * string → string * string → bool.
Variable R : Qc → Qc → Prop.

Hypothesis ag_keys_eq : map fst ag = distinctTopics vs.
Hypothesis ag_values : ∀ t, t ∈ distinctTopics vs →
  Ranking.objGet ag t
  = Some (sumQc (gradesOfTopic t vs), length (gradesOfTopic t vs)).
Hypothesis details_eq : ∀ t,
  default [] (Ranking.objGet details t) = detailsOfTopic test t vs.
Hypothesis cmp_R : ∀ a b x y,
  Js.parseFloat a.2 = Some x → Js.parseFloat b.2 = Some y →
  (cmp a b = true ↔ R x y).
Hypothesis R_total : ∀ x y, R x y ∨ R y x.
Hypothesis R_trans : ∀ x y z, R x y → R y z → R x z.

Let sorted := Ranking.sortBy cmp (Ranking.avgActivityGrades ag).
Let ranked := map (Ranking.withStudents details) (take 5 sorted).

Lemma distinctTopics_NoDup : NoDup (distinctTopics vs).
Proof. apply addKeys_NoDup, NoDup_nil_2. Qed.

Lemma avg_entry (a : string * string) :
  a ∈ Ranking.avgActivityGrades ag →
  a.1 ∈ distinctTopics vs ∧ a.2 = topicAverage a.1 vs.
Proof.
  unfold Ranking.avgActivityGrades. intros H.
  apply list_elem_of_fmap in H as (e & -> & He).
  rewrite objectEntries_perm in He.
  assert (Hk : e.1 ∈ distinctTopics vs).
  { rewrite <- ag_keys_eq. apply list_elem_of_fmap. by exists e. }
  assert (Hv : Ranking.objGet ag e.1 = Some e.2).
  { apply objGet_elem; [rewrite ag_keys_eq; apply distinctTopics_NoDup|].
    by destruct e. }
  rewrite (ag_values _ Hk) in Hv. injection Hv as Hv.
  rewrite <- Hv. cbn [fst snd]. split; [done|].
  unfold topicAverage. by destruct (gradesOfTopic e.1 vs).
Qed.

Lemma avg_keys : Permutation (map fst (Ranking.avgActivityGrades ag))
                             (distinctTopics vs).
Proof.
  unfold Ranking.avgActivityGrades. rewrite <- ag_keys_eq, map_map.
  rewrite <- (objectEntries_perm ag) at 2.
  apply Permutation_refl'. apply map_ext. by intros [k [s c]].
Qed.

Lemma sorted_perm : Permutation sorted (Ranking.avgActivityGrades ag).
Proof. apply sortBy_perm. Qed.

Lemma sorted_entry (a : string * string) :
  a ∈ sorted → a.1 ∈ distinctTopics vs ∧ a.2 = topicAverage a.1 vs.
Proof. rewrite sorted_perm. apply avg_entry. Qed.

Lemma sorted_keys : Permutation (map fst sorted) (distinctTopics vs).
Proof. by rewrite sorted_perm, avg_keys. Qed.

Lemma sorted_sorted :
  StronglySorted (fun a b => R (topicValue a.1 vs) (topicValue b.1 vs)) sorted.
Proof.
  apply (sortBy_sorted cmp
           (fun a => Js.parseFloat a.2 = Some (topicValue a.1 vs))).
  - intros x y Hx Hy. by apply cmp_R.
  - intros x y _ _. apply R_total.
  - intros x y z. apply R_trans.
  - apply Forall_forall. intros a Ha. apply avg_entry in Ha as [_ ->].
    apply topicAverage_parse.
Qed.

Lemma ranked_topics : map Ranking.adTopic ranked = take 5 (map fst sorted).
Proof.
  unfold ranked. rewrite map_map. cbn [Ranking.withStudents Ranking.adTopic].
  by rewrite <- fmap_take.
Qed.

Lemma ranked_elem (ad : Ranking.ActivityDetail) :
  ad ∈ ranked →
  ∃ a, a ∈ take 5 sorted ∧ ad = Ranking.withStudents details a.
Proof.
  unfold ranked. intros H. apply list_elem_of_fmap in H as (a & -> & Ha).
  by exists a.
Qed.

Lemma take_elem {A : Type} (n : nat) (l : list A) (x : A) :
  x ∈ take n l → x ∈ l.
Proof. intros H. rewrite <- (take_drop n l). apply elem_of_app. by left. Qed.

Lemma ranking_facts :
  length ranked = Nat.min 5 (length (distinctTopics vs))
  ∧ NoDup (map Ranking.adTopic ranked)
  ∧ (∀ ad, ad ∈ ranked →
       Ranking.adTopic ad ∈ distinctTopics vs
       ∧ Ranking.adAverage ad = topicAverage (Ranking.adTopic ad) vs
       ∧ Ranking.adStudents ad = detailsOfTopic test (Ranking.adTopic ad) vs)
  ∧ (∀ i j a b, i < j → ranked !! i = Some a → ranked !! j = Some b →
       R (topicValue (Ranking.adTopic a) vs) (topicValue (Ranking.adTopic b) vs))
  ∧ (∀ t ad, t ∈ distinctTopics vs → t ∉ map Ranking.adTopic ranked →
       ad ∈ ranked →
       R (topicValue (Ranking.adTopic ad) vs) (topicValue t vs)).
Proof.
  split; [|split; [|split; [|split]]].
  - unfold ranked. rewrite length_map, length_take.
    by rewrite <- (Permutation_length sorted_keys), length_map.
  - rewrite ranked_topics. eapply sublist_NoDup; [|apply sublist_take].
    rewrite sorted_keys. apply distinctTopics_NoDup.
  - intros ad (a & Ha & ->)%ranked_elem.
    apply take_elem, sorted_entry in Ha as [H1 H2].
    cbn [Ranking.withStudents Ranking.adTopic Ranking.adAverage
         Ranking.adStudents]. by rewrite details_eq.
  - intros i j a b Hij Ha Hb. unfold ranked in Ha, Hb.
    rewrite list_lookup_fmap in Ha, Hb.
    destruct (take 5 sorted !! i) as [x|] eqn:Hx; [|done].
    destruct (take 5 sorted !! j) as [y|] eqn:Hy; [|done].
    injection Ha as <-. injection Hb as <-.
    cbn [Ranking.withStudents Ranking.adTopic].
    apply lookup_take_Some in Hx as [Hx _].
    apply lookup_take_Some in Hy as [Hy _].
    exact (StronglySorted_lookup _ _ i j x y sorted_sorted Hij Hx Hy).
  - intros t ad Ht Hnot (a & Ha & ->)%ranked_elem.
    cbn [Ranking.withStudents Ranking.adTopic].
    rewrite <- sorted_keys in Ht.
    apply list_elem_of_fmap in Ht as (b & -> & Hb).
    rewrite <- (take_drop 5 sorted) in Hb.
    apply elem_of_app in Hb as [Hb|Hb].
    + exfalso. apply Hnot. rewrite ranked_topics.
      change (map fst sorted) with (fst <$> sorted). rewrite <- fmap_take.
      apply list_elem_of_fmap. by exists b.
    + pose proof sorted_sorted as Hs. rewrite <- (take_drop 5 sorted) in Hs.
      exact (StronglySorted_split _ _ _ a b Hs Ha Hb).
Qed.

End RankingFacts.

Lemma ascending_le (a b : string * string) (x y : Qc) :
  Js.parseFloat a.2 = Some x → Js.parseFloat b.2 = Some y →
  (Ranking.ascending a b = true ↔ (x <= y)%Qc).
Proof.
  intros Ha Hb. unfold Ranking.ascending, ltb. rewrite Ha, Hb.
  rewrite negb_true_iff, bool_decide_eq_false. split.
  - apply Qcnot_lt_le.
  - apply Qcle_not_lt.
Qed.

Lemma descending_ge (a b : string * string) (x y : Qc) :
  Js.parseFloat a.2 = Some x → Js.parseFloat b.2 = Some y →
  (Ranking.descending a b = true ↔ (y <= x)%Qc).
Proof.
  intros Ha Hb. unfold Ranking.descending, ltb. rewrite Ha, Hb.
  rewrite negb_true_iff, bool_decide_eq_false. split.
  - apply Qcnot_lt_le.
  - apply Qcle_not_lt.
Qed.

Lemma Qcle_total (x y : Qc) : (x <= y)%Qc ∨ (y <= x)%Qc.
Proof.
  destruct (Qclt_le_dec x y) as [H|H]; [left; by apply Qclt_le_weak|by right].
Qed.


(** X18: the pass over students and relevant dates fills the three
    dictionaries as follows: the keys of the activity totals are the topics
    of the visited entries, each once, in the order in which they are first
    met; the total of a topic is the sum and the number of the interpretable
    grades met under it; and the low (resp. high) details of a topic are, in
    the order of the visit, the student and raw grade of the entries of that
    topic whose normalised grade is below 6 (resp. at least 8). *)
Theorem activity_aggregates (relevant : list string)
    (sheetData : list StudentSheetData) (t : string) :
  map fst (Ranking.activityGrades (Ranking.collect relevant sheetData))
  = distinctTopics (visits relevant sheetData)
  ∧ (t ∈ distinctTopics (visits relevant sheetData) →
     Ranking.objGet (Ranking.activityGrades (Ranking.collect relevant sheetData)) t
     = Some (sumQc (gradesOfTopic t (visits relevant sheetData)),
             length (gradesOfTopic t (visits relevant sheetData))))
  ∧ (t ∉ distinctTopics (visits relevant sheetData) →
     Ranking.objGet (Ranking.activityGrades (Ranking.collect relevant sheetData)) t
     = None)
  ∧ default [] (Ranking.objGet
                  (Ranking.lowGradeActivitiesDetails
                     (Ranking.collect relevant sheetData)) t)
    = detailsOfTopic below6 t (visits relevant sheetData)
  ∧ default [] (Ranking.objGet
                  (Ranking.highGradeActivitiesDetails
                     (Ranking.collect relevant sheetData)) t)
    = detailsOfTopic atLeast8 t (visits relevant sheetData).
Proof.
  split; [apply collect_keys|]. split; [apply collect_lookup|].
  split; [|split; [apply collect_low|apply collect_high]].
  intros Ht. rewrite <- collect_keys in Ht.
  apply eq_None_not_Some. intros H. by apply objGet_is_Some in H.
Qed.


